(** * table_ocr.pdf_to_images: a shallow embedding and its contract

    The module is process-orchestration glue around three command-line
    tools (pdfimages, tesseract, mogrify).  The development has these parts:

    - [PyStr], [PosixPath], [Re], [PyRepr]: the library functions the
      module calls ([str.split], [in], [os.path.split], [os.path.join],
      [os.path.abspath], [re.escape], [re.match], [repr]), written after
      their CPython definitions;
    - a state-and-exception monad [M] over the working directory, the
      directory listings and a trace of the commands run and the records
      logged, with the behaviour of the external tools as a parameter
      [Env];
    - the six functions of the module, line by line, in [M];
    - the vocabulary of the statements and a few concrete machines;
    - the properties, claim by claim.

    Text is modelled by [string], one [ascii] per character, so the model
    speaks about paths, file names and messages whose characters lie in the
    range U+0000..U+00FF.  In that range the regular-expression class [\d]
    is exactly the digits 0-9 and the ordering of [str] is the ordering of
    character codes.  Paths follow the POSIX flavour of [os.path].

    The bytes a tool prints are a [string] as well, one [ascii] per byte.
    What [bytes.decode] makes of them is text of arbitrary characters,
    modelled by [PyText.text], a list of code points; [get_rotate] works on
    that text and hands its result on in UTF-8 ([Utf8.encode]): these are
    the bytes tesseract printed for it (lemma [encode_decode]), and for an
    angle of ASCII characters they are the angle itself. *)

From Stdlib Require Import ZArith Ascii DecimalString Lia.
From stdpp Require Import base option list strings gmap sorting.

Local Open Scope Z_scope.
Local Open Scope nat_scope.

(** ** Python's [str] methods *)

Module PyStr.

(** [s.startswith(p)] *)
Fixpoint startswith (p s : string) : bool :=
  match p, s with
  | "", _ => true
  | String a p', String b s' => if Ascii.eqb a b then startswith p' s' else false
  | String _ _, "" => false
  end.

(** [s[n:]] *)
Fixpoint drop (n : nat) (s : string) : string :=
  match n, s with
  | 0, _ => s
  | S n', String _ s' => drop n' s'
  | S _, "" => ""
  end.

(** [sub in s] *)
Fixpoint contains (sub s : string) : bool :=
  if startswith sub s then true
  else match s with
       | "" => false
       | String _ s' => contains sub s'
       end.

(** [s.partition(sep)] when [sep] occurs in [s]: the text before the leftmost
    occurrence and the text after it. *)
Fixpoint cut (sep s : string) : option (string * string) :=
  if startswith sep s then Some ("", drop (String.length sep) s)
  else match s with
       | "" => None
       | String c s' =>
           match cut sep s' with
           | Some (a, b) => Some (String c a, b)
           | None => None
           end
       end.

(** [s.split(sep)] for a non-empty [sep] (Python raises [ValueError] for an
    empty one; every separator in the module is a non-empty literal).  The
    scan cuts at the leftmost occurrence and continues after it; each cut
    consumes at least one character, so [length s] rounds always suffice
    (lemma [split_fuel_enough]). *)
Fixpoint split_fuel (n : nat) (sep s : string) : list string :=
  match n with
  | 0 => [s]
  | S n' =>
      match cut sep s with
      | None => [s]
      | Some (a, b) => a :: split_fuel n' sep b
      end
  end.

Definition split (sep s : string) : list string :=
  split_fuel (String.length s) sep s.

(** [sep.join(l)] *)
Fixpoint join (sep : string) (l : list string) : string :=
  match l with
  | [] => ""
  | [x] => x
  | x :: l' => x +:+ sep +:+ join sep l'
  end.

(** [s.endswith("/")]-style test on the last character. *)
Fixpoint ends_with_char (c : ascii) (s : string) : bool :=
  match s with
  | "" => false
  | String a "" => Ascii.eqb a c
  | String _ s' => ends_with_char c s'
  end.

(** [all(ch == c for ch in s)] *)
Fixpoint all_char (c : ascii) (s : string) : bool :=
  match s with
  | "" => true
  | String a s' => Ascii.eqb a c && all_char c s'
  end.

(** [s.rstrip(c)] for a one-character set. *)
Fixpoint rstrip (c : ascii) (s : string) : string :=
  match s with
  | "" => ""
  | String a s' => if all_char c s then "" else String a (rstrip c s')
  end.

(** [(s[:i], s[i:])] for [i = s.rfind(c) + 1]: the text up to and including
    the last [c], and the text after it; [("", s)] when [c] does not occur. *)
Fixpoint rsplit_after (c : ascii) (s : string) : string * string :=
  match s with
  | "" => ("", "")
  | String a s' =>
      let '(h, t) := rsplit_after c s' in
      if negb (String.eqb h "") then (String a h, t)
      else if Ascii.eqb a c then (String a "", t)
      else ("", String a t)
  end.

End PyStr.

(** ** [str] of arbitrary characters *)

Module PyText.

(** A text is the list of its code points. *)
Definition text : Type := list N.

(** A literal of the source. *)
Fixpoint lit (s : string) : text :=
  match s with
  | "" => []
  | String c s' => N_of_ascii c :: lit s'
  end.

(** [s.startswith(p)] *)
Fixpoint startswith (p s : text) : bool :=
  match p, s with
  | [], _ => true
  | a :: p', b :: s' => if (a =? b)%N then startswith p' s' else false
  | _ :: _, [] => false
  end.

(** [sub in s] *)
Fixpoint contains (sub s : text) : bool :=
  if startswith sub s then true
  else match s with
       | [] => false
       | _ :: s' => contains sub s'
       end.

(** [s.partition(sep)] when [sep] occurs in [s]: the text before the leftmost
    occurrence and the text after it. *)
Fixpoint cut (sep s : text) : option (text * text) :=
  if startswith sep s then Some ([], drop (length sep) s)
  else match s with
       | [] => None
       | c :: s' =>
           match cut sep s' with
           | Some (a, b) => Some (c :: a, b)
           | None => None
           end
       end.

(** [s.split(sep)] for a non-empty [sep], as [PyStr.split]. *)
Fixpoint split_fuel (n : nat) (sep s : text) : list text :=
  match n with
  | 0 => [s]
  | S n' =>
      match cut sep s with
      | None => [s]
      | Some (a, b) => a :: split_fuel n' sep b
      end
  end.

Definition split (sep s : text) : list text :=
  split_fuel (length s) sep s.

End PyText.

(** ** The UTF-8 codec *)

Module Utf8.

Definition between (lo hi n : N) : bool := ((lo <=? n) && (n <=? hi))%N.

(** A byte that continues a sequence. *)
Definition continuation (n : N) : bool := between 128 191 n.

(** The second byte of a sequence of three or four bytes that starts with
    [b0]: the ranges that exclude the overlong forms, the surrogates
    U+D800..U+DFFF and everything above U+10FFFF. *)
Definition second_ok (b0 b1 : N) : bool :=
  if (b0 =? 224)%N then between 160 191 b1
  else if (b0 =? 237)%N then between 128 159 b1
  else if (b0 =? 240)%N then between 144 191 b1
  else if (b0 =? 244)%N then between 128 143 b1
  else continuation b1.

(** [b.decode("utf-8")]: the code points of a well-formed byte sequence;
    [None] is [UnicodeDecodeError].  Lead bytes are 00-7F (one byte), C2-DF
    (two), E0-EF (three) and F0-F4 (four). *)
Fixpoint decode (b : string) : option PyText.text :=
  match b with
  | "" => Some []
  | String c0 r =>
      let b0 := N_of_ascii c0 in
      if (b0 <? 128)%N then cons b0 <$> decode r
      else if between 194 223 b0 then
        match r with
        | String c1 r1 =>
            let b1 := N_of_ascii c1 in
            if continuation b1
            then cons ((b0 - 192) * 64 + (b1 - 128))%N <$> decode r1
            else None
        | _ => None
        end
      else if between 224 239 b0 then
        match r with
        | String c1 (String c2 r2) =>
            let b1 := N_of_ascii c1 in
            let b2 := N_of_ascii c2 in
            if second_ok b0 b1 && continuation b2
            then cons (((b0 - 224) * 64 + (b1 - 128)) * 64 + (b2 - 128))%N
                   <$> decode r2
            else None
        | _ => None
        end
      else if between 240 244 b0 then
        match r with
        | String c1 (String c2 (String c3 r3)) =>
            let b1 := N_of_ascii c1 in
            let b2 := N_of_ascii c2 in
            let b3 := N_of_ascii c3 in
            if second_ok b0 b1 && continuation b2 && continuation b3
            then cons ((((b0 - 240) * 64 + (b1 - 128)) * 64 + (b2 - 128)) * 64
                       + (b3 - 128))%N
                   <$> decode r3
            else None
        | _ => None
        end
      else None
  end.

(** The bytes of one code point. *)
Definition encode_char (cp : N) : string :=
  let chr (n : N) := ascii_of_N n in
  if (cp <? 128)%N then String (chr cp) ""
  else if (cp <? 2048)%N
  then String (chr (192 + cp / 64)%N) (String (chr (128 + cp mod 64)%N) "")
  else if (cp <? 65536)%N
  then String (chr (224 + cp / 4096)%N)
         (String (chr (128 + (cp / 64) mod 64)%N)
            (String (chr (128 + cp mod 64)%N) ""))
  else String (chr (240 + cp / 262144)%N)
         (String (chr (128 + (cp / 4096) mod 64)%N)
            (String (chr (128 + (cp / 64) mod 64)%N)
               (String (chr (128 + cp mod 64)%N) ""))).

(** [s.encode("utf-8")] *)
Fixpoint encode (t : PyText.text) : string :=
  match t with
  | [] => ""
  | cp :: t' => encode_char cp +:+ encode t'
  end.

End Utf8.

(** ** [os.path] on POSIX *)

Module PosixPath.

(** [os.path.isabs(s)] *)
Definition isabs (s : string) : bool := PyStr.startswith "/" s.

(** [os.path.join(a, b)] *)
Definition join (a b : string) : string :=
  if PyStr.startswith "/" b then b
  else if String.eqb a "" || PyStr.ends_with_char "/" a then a +:+ b
  else a +:+ "/" +:+ b.

(** [os.path.split(p)]: everything up to the last slash, with trailing
    slashes stripped unless it consists of slashes only, and what follows. *)
Definition split (p : string) : string * string :=
  let '(head, tail) := PyStr.rsplit_after "/" p in
  let head :=
    if negb (String.eqb head "") && negb (PyStr.all_char "/" head)
    then PyStr.rstrip "/" head else head in
  (head, tail).

(** The body of the loop of [os.path.normpath]. *)
Definition normpath_step (initial_slashes : nat) (new_comps : list string)
    (comp : string) : list string :=
  if String.eqb comp "" || String.eqb comp "." then new_comps
  else if negb (String.eqb comp "..")
          || (Nat.eqb initial_slashes 0 && bool_decide (new_comps = []))
          || (negb (bool_decide (new_comps = []))
              && bool_decide (last new_comps = Some ".."))
       then new_comps ++ [comp]
       else if negb (bool_decide (new_comps = [])) then removelast new_comps
       else new_comps.

(** [sep * n] *)
Fixpoint slashes (n : nat) : string :=
  match n with 0 => "" | S n' => String "/" (slashes n') end.

(** [os.path.normpath(path)] *)
Definition normpath (path : string) : string :=
  if String.eqb path "" then "."
  else
    let initial_slashes :=
      if PyStr.startswith "/" path
      then if PyStr.startswith "//" path && negb (PyStr.startswith "///" path)
           then 2 else 1
      else 0 in
    let comps := PyStr.split "/" path in
    let new_comps := fold_left (normpath_step initial_slashes) comps [] in
    let path := slashes initial_slashes +:+ PyStr.join "/" new_comps in
    if String.eqb path "" then "." else path.

(** [os.path.abspath(path)], with the value of [os.getcwd()] passed in. *)
Definition abspath (cwd path : string) : string :=
  normpath (if isabs path then path else join cwd path).

End PosixPath.

(** ** [re.escape] and [re.match] *)

Module Re.

(** The characters [re.escape] puts a backslash in front of. *)
Definition is_special (c : ascii) : bool :=
  match c with
  | "(" | ")" | "[" | "]" | "{" | "}" | "?" | "*" | "+" | "-" | "|" | "^"
  | "$" | "\" | "." | "&" | "~" | "#" | " "
  | "009" | "010" | "011" | "012" | "013" => true
  | _ => false
  end%char.

(** [re.escape(s)] *)
Fixpoint escape (s : string) : string :=
  match s with
  | "" => ""
  | String c s' =>
      if is_special c then String "\" (String c (escape s'))
      else String c (escape s')
  end.

(** The fragment of the pattern language that the module's pattern lives
    in: a sequence of single-character atoms, each taken once, exactly [n]
    times, or any number of times (greedy). *)
Inductive atom :=
| Lit (c : ascii)
| Digit
| AnyButNewline.

Inductive quant :=
| Once
| Exactly (n : nat)
| Star.

Definition is_digit (c : ascii) : bool :=
  (N.leb 48 (N_of_ascii c) && N.leb (N_of_ascii c) 57)%N.

Definition is_ascii_letter (c : ascii) : bool :=
  ((N.leb 65 (N_of_ascii c) && N.leb (N_of_ascii c) 90)
   || (N.leb 97 (N_of_ascii c) && N.leb (N_of_ascii c) 122))%N.

Definition digit_value (c : ascii) : nat := N.to_nat (N_of_ascii c) - 48.

(** State of the pattern scanner. *)
Inductive pstate :=
| Idle                                (* no atom is pending *)
| Esc                                 (* a backslash was read *)
| Have (a : atom)                     (* an atom was read; a quantifier may follow *)
| Brace (a : atom) (n : option nat)   (* inside [a{digits] *)
| Quantified.                         (* a quantifier was just read *)

(** What a backslash followed by [c] denotes: [\d] is the digit class, a
    backslash before any character that is not an ASCII letter or digit is
    that character; the other letter and digit escapes are outside the
    fragment. *)
Definition escape_atom (c : ascii) : option atom :=
  if Ascii.eqb c "d" then Some Digit
  else if is_ascii_letter c || is_digit c then None
  else Some (Lit c).

(** An atom that starts at the character [c]. *)
Definition start_atom (c : ascii) : option pstate :=
  match c with
  | "\" => Some Esc
  | "." => Some (Have AnyButNewline)
  | "*" | "+" | "?" | "{" | "}" | "[" | "]" | "(" | ")" | "^" | "$" | "|" => None
  | _ => Some (Have (Lit c))
  end%char.

(** The scanner: [None] is a pattern outside the fragment (a construct not
    modelled, or one [re.compile] rejects). *)
Fixpoint scan (st : pstate) (p : string) : option (list (atom * quant)) :=
  match p with
  | "" =>
      match st with
      | Idle | Quantified => Some []
      | Have a => Some [(a, Once)]
      | Esc | Brace _ _ => None
      end
  | String c p' =>
      match st with
      | Esc =>
          match escape_atom c with
          | Some a => scan (Have a) p'
          | None => None
          end
      | Brace a n =>
          if is_digit c
          then scan (Brace a (Some (10 * default 0 n + digit_value c))) p'
          else if Ascii.eqb c "}"
               then match n with
                    | Some k => cons (a, Exactly k) <$> scan Quantified p'
                    | None => None
                    end
               else None
      | Have a =>
          if Ascii.eqb c "*" then cons (a, Star) <$> scan Quantified p'
          else if Ascii.eqb c "{" then scan (Brace a None) p'
          else match start_atom c with
               | Some st' => cons (a, Once) <$> scan st' p'
               | None => None
               end
      | Idle | Quantified =>
          match start_atom c with
          | Some st' => scan st' p'
          | None => None
          end
      end
  end.

(** [re.compile(p)] on the fragment. *)
Definition compile (p : string) : option (list (atom * quant)) := scan Idle p.

Definition atom_ok (a : atom) (c : ascii) : bool :=
  match a with
  | Lit x => Ascii.eqb x c
  | Digit => is_digit c
  | AnyButNewline => negb (Ascii.eqb c "010")
  end.

(** Backtracking matcher in continuation style: [k] decides whether the
    rest of the pattern matches at the rest of the subject. *)
Fixpoint rep (a : atom) (n : nat) (k : string → bool) (s : string) : bool :=
  match n with
  | 0 => k s
  | S n' =>
      match s with
      | String c s' => atom_ok a c && rep a n' k s'
      | "" => false
      end
  end.

(** A greedy star: take one more character when possible, fall back to the
    continuation otherwise. *)
Fixpoint star (a : atom) (k : string → bool) (s : string) : bool :=
  match s with
  | String c s' => (atom_ok a c && star a k s') || k s
  | "" => k ""
  end.

(** [re.match] anchors at the start of the subject only: once the pattern
    is used up the match succeeds, whatever follows in the subject. *)
Fixpoint match_items (items : list (atom * quant)) (s : string) : bool :=
  match items with
  | [] => true
  | (a, Once) :: r => rep a 1 (match_items r) s
  | (a, Exactly n) :: r => rep a n (match_items r) s
  | (a, Star) :: r => star a (match_items r) s
  end.

(** [bool(re.match(p, s))]; [None] when [p] is outside the fragment. *)
Definition match_ (p s : string) : option bool :=
  items ← compile p; Some (match_items items s).

End Re.

(** ** [repr] and [str] of the values that end up in messages *)

Module PyRepr.

Definition dquote : ascii := "034"%char.
Definition squote : ascii := "039"%char.

(** [str.isprintable] on one character of the range U+0000..U+00FF. *)
Definition is_printable (c : ascii) : bool :=
  let n := N_of_ascii c in
  ((N.leb 32 n && N.ltb n 127) || (N.leb 161 n && negb (N.eqb n 173)))%N.

Definition hex_digit (n : N) : ascii :=
  ascii_of_N (if N.ltb n 10 then 48 + n else 87 + n)%N.

Definition repr_char (quote c : ascii) : string :=
  if Ascii.eqb c quote || Ascii.eqb c "\" then String "\" (String c "")
  else if Ascii.eqb c "009" then "\t"
  else if Ascii.eqb c "010" then "\n"
  else if Ascii.eqb c "013" then "\r"
  else if is_printable c then String c ""
  else String "\" (String "x"
         (String (hex_digit (N_of_ascii c / 16))
            (String (hex_digit (N_of_ascii c mod 16)) ""))).

Fixpoint repr_body (quote : ascii) (s : string) : string :=
  match s with
  | "" => ""
  | String c s' => repr_char quote c +:+ repr_body quote s'
  end.

(** [repr(s)] for a [str]: single quotes, unless the text has a single
    quote and no double quote. *)
Definition repr (s : string) : string :=
  let quote :=
    if PyStr.contains (String squote "") s
       && negb (PyStr.contains (String dquote "") s)
    then dquote else squote in
  String quote (repr_body quote s +:+ String quote "").

(** [str(l)] for a list of [str]. *)
Definition str_list (l : list string) : string :=
  "[" +:+ PyStr.join ", " (repr <$> l) +:+ "]".

(** ["%d" % z] *)
Definition str_int (z : Z) : string := NilZero.string_of_int (Z.to_int z).

End PyRepr.

(** ** Exceptions, state and the external world *)

(** The exceptions that occur.  All of them are instances of Python's
    [Exception]; the asynchronous [BaseException]s ([KeyboardInterrupt],
    [SystemExit]) are not part of the model.  [OtherException] stands for an
    instance of a class that is none of the others nor derived from them
    ([PermissionError], [NotADirectoryError], [UnicodeDecodeError], ...),
    with the text [str] gives for it. *)
Inductive exn :=
| CalledProcessError (returncode : Z) (cmd : list string)
    (output stderr : option string)
| FileNotFoundError (msg : string)
| StopIteration
| IndexError (msg : string)
| OtherException (cls msg : string)
| RuntimeError (msg : string) (cause : exn).

Inductive result (A : Type) :=
| Ok (a : A)
| Raise (e : exn).
Arguments Ok {A} a.
Arguments Raise {A} e.

(** What an observer of a run can see besides the result. *)
Inductive event :=
| Exec (args : list string) (in_dir : string)
| LogDebug (msg : string)
| LogError (msg : string)
| LogErrorDecoded (prefix raw : string).
    (* [prefix + raw.decode('utf-8', errors='replace')] *)

(** The process state the module reads and writes: the working directory,
    the directories that the process can enter and list, with their entries
    in the order [os.listdir] reports them (keys are normalised absolute
    paths), and the trace.  Every other path is refused by the operating
    system, for the reason [refused] gives. *)
Record State := mkState {
  cwd : string;
  fs : gmap string (list string);
  events : list event
}.

(** Why the operating system could not start a command: the program is not
    on the system ([FileNotFoundError]), or another error of the [OSError]
    family ([PermissionError], ...), with the text [str] gives for it. *)
Inductive spawn_error :=
| NoSuchProgram (msg : string)
| SpawnFailure (cls msg : string).

Definition exn_of_spawn_error (e : spawn_error) : exn :=
  match e with
  | NoSuchProgram msg => FileNotFoundError msg
  | SpawnFailure cls msg => OtherException cls msg
  end.

(** The result of asking the operating system to run a command: it ran and
    exited, leaving the file system as [fs'], or it could not be started. *)
Inductive spawned :=
| Exited (returncode : Z) (stdout stderr : string)
    (fs' : gmap string (list string))
| NotStarted (e : spawn_error).

(** Why the operating system refuses to enter or to list a path: nothing
    is there ([ENOENT]), something that is not a directory is there
    ([ENOTDIR]), or the process may not use it ([EACCES]). *)
Inductive refusal :=
| NoEntry
| NotDirectory
| NoPermission.

(** The world outside the process: what running a command in a directory
    on a file system does, the platform's table of signal names
    ([repr(signal.Signals(n))], when [n] is a valid signal number), and
    what is the matter with a path that is not among the directories of the
    file system. *)
Record Env := mkEnv {
  spawn : list string → string → gmap string (list string) → spawned;
  signal_repr : Z → option string;
  refused : gmap string (list string) → string → refusal
}.

Definition M (A : Type) : Type := State → result A * State.

Definition ret {A} (a : A) : M A := λ s, (Ok a, s).

Definition raise {A} (e : exn) : M A := λ s, (Raise e, s).

Definition bind {A B} (m : M A) (k : A → M B) : M B :=
  λ s, match m s with
       | (Ok a, s') => k a s'
       | (Raise e, s') => (Raise e, s')
       end.

Declare Scope py_scope.
Delimit Scope py_scope with py.
Notation "x <- m ;; k" := (bind m (λ x, k))
  (at level 100, m at next level, right associativity) : py_scope.
Notation "m ;;; k" := (bind m (λ _, k))
  (at level 100, right associativity) : py_scope.
Local Open Scope py_scope.

(** [try: body  except Exception as e: handler(e)] *)
Definition try_except {A} (body : M A) (handler : exn → M A) : M A :=
  λ s, match body s with
       | (Ok a, s') => (Ok a, s')
       | (Raise e, s') => handler e s'
       end.

(** [try: body  finally: cleanup]: an exception from the cleanup replaces
    the outcome of the body. *)
Definition try_finally {A} (body : M A) (cleanup : M unit) : M A :=
  λ s, match body s with
       | (r, s') =>
           match cleanup s' with
           | (Ok _, s'') => (r, s'')
           | (Raise e, s'') => (Raise e, s'')
           end
       end.

Definition emit (ev : event) : M unit :=
  λ s, (Ok tt, mkState (cwd s) (fs s) (events s ++ [ev])).

(** Modelled from the spec: the logger that [table_ocr.util.get_logger]
    returns, which is not among the sources.  Section 7: failures are logged
    with context; a log call adds a record and has no other effect. *)
Definition logger_debug (msg : string) : M unit := emit (LogDebug msg).

(** Modelled from the spec: the error level of the same logger. *)
Definition logger_error (msg : string) : M unit := emit (LogError msg).

(** [l[i]] *)
Definition index {A} (l : list A) (i : nat) : M A :=
  match l !! i with
  | Some x => ret x
  | None => raise (IndexError "list index out of range")
  end.

(** [next(iter(l))] *)
Definition next {A} (l : list A) : M A :=
  match l with
  | x :: _ => ret x
  | [] => raise StopIteration
  end.

(** *** [os] *)

Definition no_such_file (path : string) : exn :=
  FileNotFoundError ("[Errno 2] No such file or directory: " +:+ PyRepr.repr path).

(** The [OSError] that a refused call on [path] raises.  [NotADirectoryError]
    and [PermissionError] are not caught by name anywhere in the module. *)
Definition os_error (r : refusal) (path : string) : exn :=
  match r with
  | NoEntry => no_such_file path
  | NotDirectory =>
      OtherException "NotADirectoryError"
        ("[Errno 20] Not a directory: " +:+ PyRepr.repr path)
  | NoPermission =>
      OtherException "PermissionError"
        ("[Errno 13] Permission denied: " +:+ PyRepr.repr path)
  end.

(** The working directory of the process has been removed. *)
Definition cwd_gone (env : Env) (s : State) : bool :=
  match fs s !! cwd s with
  | Some _ => false
  | None =>
      match refused env (fs s) (cwd s) with
      | NoEntry => true
      | _ => false
      end
  end.

(** What [os.getcwd()] raises then. *)
Definition getcwd_error : exn :=
  FileNotFoundError "[Errno 2] No such file or directory".

(** [os.getcwd()] *)
Definition getcwd (env : Env) : M string :=
  λ s, if cwd_gone env s then (Raise getcwd_error, s) else (Ok (cwd s), s).

(** [os.chdir(path)] *)
Definition chdir (env : Env) (path : string) : M unit :=
  λ s, let target := PosixPath.abspath (cwd s) path in
       match fs s !! target with
       | Some _ => (Ok tt, mkState target (fs s) (events s))
       | None => (Raise (os_error (refused env (fs s) target) path), s)
       end.

(** [os.listdir(path)] *)
Definition listdir (env : Env) (path : string) : M (list string) :=
  λ s, let target := PosixPath.abspath (cwd s) path in
       match fs s !! target with
       | Some names => (Ok names, s)
       | None => (Raise (os_error (refused env (fs s) target) path), s)
       end.

(** [os.path.abspath(path)] *)
Definition os_path_abspath (env : Env) (path : string) : M string :=
  d <- getcwd env ;; ret (PosixPath.abspath d path).

(** *** [subprocess] *)

Record CompletedProcess := mkCompleted {
  cp_args : list string;
  cp_returncode : Z;
  cp_stdout : option string;
  cp_stderr : option string
}.

(** [subprocess.run(args, check=check)], with stdout and stderr captured
    or not. *)
Definition subprocess_run (env : Env) (args : list string)
    (capture_stdout capture_stderr check : bool) : M CompletedProcess :=
  λ s, match spawn env args (cwd s) (fs s) with
       | NotStarted e => (Raise (exn_of_spawn_error e), s)
       | Exited rc out err fs' =>
           let s' := mkState (cwd s) fs' (events s ++ [Exec args (cwd s)]) in
           let out := if capture_stdout then Some out else None in
           let err := if capture_stderr then Some err else None in
           if check && negb (rc =? 0)%Z
           then (Raise (CalledProcessError rc args out err), s')
           else (Ok (mkCompleted args rc out err), s')
       end.

(** [subprocess.check_output(args)] *)
Definition check_output (env : Env) (args : list string) : M string :=
  r <- subprocess_run env args true false true ;;
  ret (default "" (cp_stdout r)).

(** [str(e)] *)
Definition str_exn (env : Env) (e : exn) : string :=
  match e with
  | CalledProcessError rc cmd _ _ =>
      if (rc <? 0)%Z
      then match signal_repr env (- rc)%Z with
           | Some name =>
               "Command '" +:+ PyRepr.str_list cmd +:+ "' died with "
                 +:+ name +:+ "."
           | None =>
               "Command '" +:+ PyRepr.str_list cmd
                 +:+ "' died with unknown signal "
                 +:+ PyRepr.str_int (- rc)%Z +:+ "."
           end
      else "Command '" +:+ PyRepr.str_list cmd
             +:+ "' returned non-zero exit status "
             +:+ PyRepr.str_int rc +:+ "."
  | FileNotFoundError msg => msg
  | StopIteration => ""
  | IndexError msg => msg
  | OtherException _ msg => msg
  | RuntimeError msg _ => msg
  end.

(** [b.decode("utf-8")] *)
Definition decode_utf8 (b : string) : M PyText.text :=
  match Utf8.decode b with
  | Some t => ret t
  | None =>
      raise (OtherException "UnicodeDecodeError"
               "'utf-8' codec can't decode the output")
  end.

(** Modelled from the spec: [table_ocr.util.working_dir], which is not among
    the sources.  Section 4.2: the working directory is changed to the
    target directory for the duration of the block and restored on exit by
    guaranteed cleanup. *)
Definition working_dir {A} (env : Env) (directory : string) (body : M A)
    : M A :=
  original_working_dir <- getcwd env ;;
  try_finally (chdir env directory ;;; body) (chdir env original_working_dir).

(** ** The module [table_ocr.pdf_to_images] *)

Definition nl : string := String "010" "".

(** [re.match(p, s)] as a condition.  A pattern outside the modelled
    fragment stops the run with an error; [compile_pattern] below shows that
    the pattern of line 93 is never one. *)
Definition re_match (p s : string) : M bool :=
  match Re.match_ p s with
  | Some b => ret b
  | None => raise (OtherException "re.error" "pattern outside the modelled fragment")
  end.

(** [[x for x in l if cond(x)]] *)
Fixpoint comprehension_if {A} (cond : A → M bool) (l : list A) : M (list A) :=
  match l with
  | [] => ret []
  | x :: l' =>
      b <- cond x ;;
      r <- comprehension_if cond l' ;;
      ret (if b then x :: r else r)
  end.

(** The pattern of line 93:
    [r"{}-\d{{3}}.*\.png".format(re.escape(file_prefix))]. *)
Definition pattern (file_prefix : string) : string :=
  Re.escape file_prefix +:+ "-\d{3}.*\.png".

(** Lines 89-95. *)
Definition find_matching_files_in_dir (env : Env)
    (file_prefix directory : string) : M (list string) :=
  names <- listdir env directory ;;
  files <- comprehension_if (λ filename, re_match (pattern file_prefix) filename) names ;;
  ret files.

(** The command of line 60. *)
Definition pdfimages_command (pdf_filepath filename_sans_ext : string)
    : list string :=
  ["pdfimages"; "-png"; pdf_filepath; filename_sans_ext].

(** Lines 57-69: the body of the [try]. *)
Definition pdfimages_try (env : Env)
    (pdf_filepath output_dir filename_sans_ext : string) : M (list string) :=
  result <- working_dir env output_dir
              (subprocess_run env
                 (pdfimages_command pdf_filepath filename_sans_ext)
                 true true true) ;;
  image_filenames <- find_matching_files_in_dir env filename_sans_ext
                       output_dir ;;
  logger_debug ("Converted " +:+ pdf_filepath +:+ " into files:" +:+ nl
                  +:+ PyStr.join nl image_filenames) ;;;
  ret image_filenames.

(** The message each [except] clause of lines 71-86 builds. *)
Definition pdfimages_error_message (env : Env) (pdf_filepath : string)
    (e : exn) : string :=
  match e with
  | CalledProcessError _ _ _ _ =>
      "Error running pdfimages on " +:+ pdf_filepath +:+ ": " +:+ str_exn env e
  | FileNotFoundError _ =>
      "pdfimages command not found. Make sure Poppler is installed: "
        +:+ str_exn env e
  | _ =>
      "Unexpected error processing PDF " +:+ pdf_filepath +:+ ": "
        +:+ str_exn env e
  end.

(** Lines 71-86: the three [except] clauses. *)
Definition pdfimages_except (env : Env) (pdf_filepath : string) (e : exn)
    : M (list string) :=
  let error_message := pdfimages_error_message env pdf_filepath e in
  match e with
  | CalledProcessError _ _ _ stderr =>
      logger_error error_message ;;;
      (match stderr with
       | Some err =>
           if negb (String.eqb err "")
           then emit (LogErrorDecoded "pdfimages stderr: " err)
           else ret tt
       | None => ret tt
       end) ;;;
      raise (RuntimeError error_message e)
  | _ =>
      logger_error error_message ;;;
      raise (RuntimeError error_message e)
  end.

(** Lines 36-86. *)
Definition pdfimages (env : Env) (pdf_filepath : string)
    (output_dir : option string) : M (list string) :=
  let '(directory, filename) := PosixPath.split pdf_filepath in
  let output_dir := default directory output_dir in
  output_dir <- (if negb (PosixPath.isabs output_dir)
                 then os_path_abspath env output_dir
                 else ret output_dir) ;;
  filename_sans_ext <- index (PyStr.split ".pdf" filename) 0 ;;
  try_except (pdfimages_try env pdf_filepath output_dir filename_sans_ext)
             (pdfimages_except env pdf_filepath).

(** [sorted] on a list of [str].  [String.le] compares character codes
    from the left, as [str] does.  The order is total and antisymmetric, so
    the sorted arrangement of a list is unique (lemma [sorted_unique]):
    every sorting algorithm, Python's included, returns this list. *)
Definition sorted (l : list string) : list string := merge_sort String.le l.

(** Lines 13-33. *)
Definition pdf_to_images (env : Env) (pdf_filepath : string)
    (output_dir : option string) : M (list string) :=
  pdf_filepath <- (if negb (PosixPath.isabs pdf_filepath)
                   then os_path_abspath env pdf_filepath
                   else ret pdf_filepath) ;;
  let '(directory, filename) := PosixPath.split pdf_filepath in
  let target_dir := default directory output_dir in
  image_filenames <- pdfimages env pdf_filepath (Some target_dir) ;;
  ret (sorted ((λ f, PosixPath.join target_dir f) <$> image_filenames)).

(** Lines 114-125.  The angle is a [str] of whatever characters the line
    holds; it is returned in UTF-8, the form in which it goes into the
    command of [mogrify]. *)
Definition get_rotate (env : Env) (image_filepath : string)
    (tess_params : list string) : M string :=
  let tess_command := ["tesseract"] ++ tess_params ++ [image_filepath; "-"] in
  raw <- check_output env tess_command ;;
  text <- decode_utf8 raw ;;
  let output := PyText.split (PyText.lit nl) text in
  output <- next (List.filter (PyText.contains (PyText.lit "Rotate: ")) output) ;;
  output <- index (PyText.split (PyText.lit ": ") output) 1 ;;
  ret (Utf8.encode output).

(** Lines 128-129. *)
Definition mogrify (env : Env) (image_filepath rotate : string) : M unit :=
  subprocess_run env ["mogrify"; "-rotate"; rotate; image_filepath]
    false false false ;;;
  ret tt.

(** Lines 97-111. *)
Definition preprocess_img (env : Env) (filepath : string)
    (tess_params : option (list string)) : M unit :=
  let tess_params := default ["--psm"; "0"; "--oem"; "0"] tess_params in
  rotate <- get_rotate env filepath tess_params ;;
  logger_debug ("Rotating " +:+ filepath +:+ " by " +:+ rotate +:+ ".") ;;;
  mogrify env filepath rotate.

(** ** Vocabulary of the statements *)

(** The literal items of a text. *)
Fixpoint lits (p : string) : list (Re.atom * Re.quant) :=
  match p with
  | "" => []
  | String c p' => (Re.Lit c, Re.Once) :: lits p'
  end.

(** What the pattern for [file_prefix] compiles to. *)
Definition pattern_items (file_prefix : string) : list (Re.atom * Re.quant) :=
  lits file_prefix
    ++ [(Re.Lit "-", Re.Once); (Re.Digit, Re.Exactly 3); (Re.AnyButNewline, Re.Star);
        (Re.Lit ".", Re.Once); (Re.Lit "p", Re.Once); (Re.Lit "n", Re.Once); (Re.Lit "g", Re.Once)].

(** All characters of [u] are accepted by the Re.atom [a]. *)
Fixpoint all_ok (a : Re.atom) (u : string) : bool :=
  match u with
  | "" => true
  | String c u' => Re.atom_ok a c && all_ok a u'
  end.

(** The entries the collector keeps. *)
Definition selects (file_prefix filename : string) : bool :=
  Re.match_items (pattern_items file_prefix) filename.

(** The naming contract of section 6 read as a description of the whole
    entry name: the stem, a hyphen, three digits, any suffix, and ".png" at
    the end. *)
Definition named_per_contract (stem name : string) : Prop :=
  ∃ d1 d2 d3 suffix,
    name = stem +:+ "-" +:+ String d1 (String d2 (String d3 "")) +:+ suffix
             +:+ ".png"
    ∧ Re.is_digit d1 = true ∧ Re.is_digit d2 = true ∧ Re.is_digit d3 = true.

(** [pre] is what comes before the leftmost occurrence of [sub] in [s]. *)
Definition first_occurrence (sub s pre post : string) : Prop :=
  s = pre +:+ sub +:+ post
  ∧ ∀ pre' post', s = pre' +:+ sub +:+ post' →
      String.length pre ≤ String.length pre'.

(** The stem [pdfimages] uses (line 54). *)
Definition filename_sans_ext (pdf_filepath : string) : option string :=
  PyStr.split ".pdf" (PosixPath.split pdf_filepath).2 !! 0.

(** The directory [pdfimages] works in (lines 49-53). *)
Definition resolved_output_dir (s : State) (pdf_filepath : string)
    (output_dir : option string) : string :=
  let d := default (PosixPath.split pdf_filepath).1 output_dir in
  if PosixPath.isabs d then d else PosixPath.abspath (cwd s) d.

(** The directory the rasterizer runs in. *)
Definition workdir (s : State) (pdf_filepath : string)
    (output_dir : option string) : string :=
  PosixPath.abspath (cwd s) (resolved_output_dir s pdf_filepath output_dir).

(** The path and the directory [pdf_to_images] hands to [pdfimages]
    (lines 23-28). *)
Definition resolved_pdf (s : State) (pdf_filepath : string) : string :=
  if PosixPath.isabs pdf_filepath then pdf_filepath
  else PosixPath.abspath (cwd s) pdf_filepath.

(** The directory [pdf_to_images] joins the entries to (line 28). *)
Definition target_dir (s : State) (pdf_filepath : string)
    (output_dir : option string) : string :=
  default (PosixPath.split (resolved_pdf s pdf_filepath)).1 output_dir.

(** [s] with more records in its trace. *)
Definition add_events (s : State) (evs : list event) : State :=
  mkState (cwd s) (fs s) (events s ++ evs).

(** The records the [except] clauses of [pdfimages] write for [e]. *)
Definition failure_records (env : Env) (pdf_filepath : string) (e : exn)
    : list event :=
  LogError (pdfimages_error_message env pdf_filepath e)
  :: match e with
     | CalledProcessError _ _ _ (Some err) =>
         if negb (String.eqb err "")
         then [LogErrorDecoded "pdfimages stderr: " err] else []
     | _ => []
     end.

(** Leaving a [with working_dir(...)] block that was entered from [s]:
    the outcome [r] of the block stands unless the way back fails. *)
Definition leave_working_dir {A} (env : Env) (s : State) (r : result A)
    (s2 : State) : result A * State :=
  let back := PosixPath.abspath (cwd s2) (cwd s) in
  match fs s2 !! back with
  | Some _ => (r, mkState back (fs s2) (events s2))
  | None => (Raise (os_error (refused env (fs s2) back) (cwd s)), s2)
  end.

(** Resolving [path] (lines 24 and 53) asks for the working directory when
    [path] is relative, and fails when that directory has been removed. *)
Definition resolution_fails (env : Env) (s : State) (path : string) : bool :=
  negb (PosixPath.isabs path) && cwd_gone env s.

(** The command of line 117. *)
Definition tess_command (image_filepath : string) (tess_params : list string)
    : list string :=
  ["tesseract"] ++ tess_params ++ [image_filepath; "-"].

(** [pre] is what comes before the leftmost occurrence of [sub] in the
    text [s]. *)
Definition first_in_text (sub s pre post : PyText.text) : Prop :=
  s = pre ++ sub ++ post
  ∧ ∀ pre' post', s = pre' ++ sub ++ post' → length pre ≤ length pre'.

(** The text of [after] up to its first ": ", all of it when it has none. *)
Definition up_to_separator (after : PyText.text) : PyText.text :=
  match PyText.cut (PyText.lit ": ") after with
  | Some (field, _) => field
  | None => after
  end.

(** The lines of the text that tesseract printed. *)
Definition lines (text : PyText.text) : list PyText.text :=
  PyText.split (PyText.lit nl) text.

(** The line has "Rotate: " in it. *)
Definition has_rotate (line : PyText.text) : bool :=
  PyText.contains (PyText.lit "Rotate: ") line.

(** The command of line 129. *)
Definition mogrify_command (image_filepath rotate : string) : list string :=
  ["mogrify"; "-rotate"; rotate; image_filepath].

(** Two file systems list the same entries in every directory they share,
    whatever the order in which the entries are reported. *)
Definition same_entries (fs1 fs2 : gmap string (list string)) : Prop :=
  ∀ d l1 l2, fs1 !! d = Some l1 → fs2 !! d = Some l2 → l1 ≡ₚ l2.

(** ["%03d" % i] *)
Definition pad3 (i : nat) : string :=
  (if i <? 10 then "00" else if i <? 100 then "0" else "")
    +:+ PyRepr.str_int (Z.of_nat i).

(** The name of image number [i] under the naming the docstring of
    [pdfimages] describes (lines 40-43): the name of the document without
    its extension, a hyphen, the number padded to three digits, ".png". *)
Definition page_name (stem : string) (i : nat) : string :=
  stem +:+ "-" +:+ pad3 i +:+ ".png".

(** The records of a trace that are process starts. *)
Definition is_exec (ev : event) : bool :=
  match ev with
  | Exec _ _ => true
  | _ => false
  end.

(** ** Concrete worlds *)

Module Scenario.

(** The pages the rasterizer writes for a stem (two pages, listed by the
    operating system in no particular order). *)
Definition pages (stem : string) : list string :=
  [stem +:+ "-001.png"; stem +:+ "-000.png"].

Definition is_page (stem name : string) : bool :=
  bool_decide (name ∈ pages stem).

(** The report tesseract prints for a page that lies on its side. *)
Definition osd_report : string :=
  "Page number: 0" +:+ nl +:+ "Orientation in degrees: 270" +:+ nl
    +:+ "Rotate: 90" +:+ nl +:+ "Orientation confidence: 2.91" +:+ nl.

Definition not_found (program : string) : spawn_error :=
  NoSuchProgram ("[Errno 2] No such file or directory: " +:+ PyRepr.repr program).

(** A machine with the three tools: pdfimages writes the pages into the
    directory it runs in, tesseract prints [osd_report], and mogrify fails
    with status 1. *)
Definition tools_spawn (args : list string) (dir : string)
    (disk : gmap string (list string)) : spawned :=
  match args with
  | ["pdfimages"; "-png"; _; stem] =>
      let old := default [] (disk !! dir) in
      Exited 0 "" ""
        (<[dir := pages stem ++ List.filter (λ n, negb (is_page stem n)) old]> disk)
  | "tesseract" :: _ => Exited 0 osd_report "" disk
  | "mogrify" :: _ => Exited 1 "" "mogrify: unable to open image" disk
  | program :: _ => NotStarted (not_found program)
  | [] => NotStarted (SpawnFailure "IndexError" "list index out of range")
  end.

Definition no_signals (n : Z) : option string := None.

(** Every path that is not a directory of the file system is missing. *)
Definition nothing_else (disk : gmap string (list string)) (path : string)
    : refusal := NoEntry.

Definition tools : Env := mkEnv tools_spawn no_signals nothing_else.

(** The same machine, on which the entries called notes.txt are regular
    files and /root is closed to the process. *)
Definition tools_and_files : Env :=
  mkEnv tools_spawn no_signals
    (λ disk path,
       if bool_decide (path = "/root") then NoPermission
       else if bool_decide ((PosixPath.split path).2 = "notes.txt")
            then NotDirectory else NoEntry).

(** A machine on which pdfimages rejects the document. *)
Definition broken_pdf : Env :=
  mkEnv (λ args dir disk,
           Exited 1 "" "Syntax Error: Couldn't read xref table" disk)
        no_signals nothing_else.

(** A machine without Poppler. *)
Definition no_poppler : Env :=
  mkEnv (λ args dir disk, NotStarted (not_found (default "" (head args))))
        no_signals nothing_else.

(** A machine on which pdfimages may not be executed. *)
Definition locked_poppler : Env :=
  mkEnv (λ args dir disk,
           NotStarted (SpawnFailure "PermissionError"
                         "[Errno 13] Permission denied: 'pdfimages'"))
        no_signals nothing_else.

(** A machine whose tesseract prints [report]. *)
Definition tesseract_prints (report : string) : Env :=
  mkEnv (λ args dir disk, Exited 0 report "" disk) no_signals nothing_else.

(** A machine whose tesseract exits with status 1. *)
Definition tesseract_crashes : Env :=
  mkEnv (λ args dir disk, Exited 1 "" "Error opening data file" disk)
        no_signals nothing_else.

(** A machine with tesseract but without ImageMagick. *)
Definition no_mogrify : Env :=
  mkEnv (λ args dir disk,
           match args with
           | "tesseract" :: _ => Exited 0 osd_report "" disk
           | _ => NotStarted (not_found (default "" (head args)))
           end)
        no_signals nothing_else.

Definition disk : gmap string (list string) :=
  <["/work" := ["out"; "scans"]]>
    (<["/work/out" := ["notes.txt"]]>
       (<["/work/scans" := ["doc-12.png"; "doc-000.png.bak"; "notes.txt"]]>
          (<["/data" := ["doc.pdf"]]> ∅))).

(** The process starts in [/work]. *)
Definition start : State := mkState "/work" disk [].

(** A process whose working directory has been removed under it. *)
Definition adrift : State := mkState "/tmp/job" disk [].

(** The euro sign, U+20AC, in UTF-8. *)
Definition euro : string := String "226" (String "130" (String "172" "")).

(** A report with a character above U+00FF on a later line. *)
Definition euro_report : string :=
  "Rotate: 90" +:+ nl +:+ euro +:+ " 5" +:+ nl.

End Scenario.

(** * Properties *)

(** ** Facts about the [str] methods *)

Section PyStrFacts.

Import PyStr.

Lemma append_nil_l (b : string) : "" +:+ b = b.
Proof. reflexivity. Qed.

Lemma append_cons (c : ascii) (a b : string) :
  String c a +:+ b = String c (a +:+ b).
Proof. reflexivity. Qed.

Lemma append_empty_r (s : string) : s +:+ "" = s.
Proof.
  induction s as [|c s IH]; [done|]. by rewrite append_cons, IH.
Qed.

Lemma append_assoc (a b c : string) : (a +:+ b) +:+ c = a +:+ b +:+ c.
Proof.
  induction a as [|x a IH]; [done|]. by rewrite !append_cons, IH.
Qed.

Lemma length_append (a b : string) :
  String.length (a +:+ b) = String.length a + String.length b.
Proof.
  induction a as [|x a IH]; [done|]. rewrite append_cons. cbn. by rewrite IH.
Qed.

Lemma startswith_append (p r : string) : startswith p (p +:+ r) = true.
Proof.
  induction p as [|c p IH]; [done|].
  rewrite append_cons. cbn. by rewrite Ascii.eqb_refl.
Qed.

Lemma startswith_inv (p s : string) :
  startswith p s = true → ∃ r, s = p +:+ r.
Proof.
  revert s. induction p as [|c p IH]; intros s H.
  - by exists s.
  - destruct s as [|d s]; [done|]. cbn in H.
    destruct (Ascii.eqb_spec c d) as [->|]; [|done].
    destruct (IH _ H) as [r ->]. by exists r.
Qed.

Lemma startswith_iff (p s : string) :
  startswith p s = true ↔ ∃ r, s = p +:+ r.
Proof.
  split; [apply startswith_inv|]. intros [r ->]. apply startswith_append.
Qed.

Lemma drop_append (p r : string) : drop (String.length p) (p +:+ r) = r.
Proof.
  induction p as [|c p IH]; [by destruct r|]. by rewrite append_cons.
Qed.

Lemma contains_iff (sub s : string) :
  contains sub s = true ↔ ∃ a b, s = a +:+ sub +:+ b.
Proof.
  split.
  - induction s as [|c s IH]; cbn [contains].
    + destruct (startswith sub "") eqn:E; [|done].
      apply startswith_inv in E as [r E]. intros _. by exists "", r.
    + destruct (startswith sub (String c s)) eqn:E.
      * apply startswith_inv in E as [r E]. intros _. by exists "", r.
      * intros H. destruct (IH H) as (a & b & ->). by exists (String c a), b.
  - intros (a & b & ->). induction a as [|c a IH].
    + rewrite append_nil_l.
      pose proof (startswith_append sub b) as E.
      destruct (sub +:+ b); cbn [contains]; by rewrite E.
    + rewrite append_cons. cbn [contains]. rewrite IH.
      by destruct (startswith _ _).
Qed.

Lemma cut_None (sep s : string) : cut sep s = None ↔ contains sep s = false.
Proof.
  induction s as [|c s IH]; cbn [cut contains].
  - by destruct (startswith sep "").
  - destruct (startswith sep (String c s)); [done|].
    rewrite <- IH. destruct (cut sep s) as [[a b]|]; by split.
Qed.

(** [cut] finds an occurrence, and it is the leftmost one. *)
Lemma cut_Some (sep s a b : string) :
  cut sep s = Some (a, b) →
  s = a +:+ sep +:+ b
  ∧ ∀ a' b', s = a' +:+ sep +:+ b' → String.length a ≤ String.length a'.
Proof.
  assert (∀ t, startswith sep t = true →
            t = "" +:+ sep +:+ drop (String.length sep) t) as Hhead.
  { intros t E. apply startswith_inv in E as [r ->].
    by rewrite append_nil_l, drop_append. }
  revert a. induction s as [|c s IH]; intros a; cbn [cut].
  - destruct (startswith sep "") eqn:E; [|done].
    intros [= <- <-]. split; [by apply Hhead|cbn; lia].
  - destruct (startswith sep (String c s)) eqn:E.
    + intros [= <- <-]. split; [by apply Hhead|cbn; lia].
    + destruct (cut sep s) as [[a0 b0]|] eqn:Hc; [|done].
      intros [= <- <-]. destruct (IH _ eq_refl) as [-> Hmin]. split; [done|].
      intros [|c' a'] b' Heq.
      * rewrite append_nil_l in Heq. by rewrite Heq, startswith_append in E.
      * rewrite !append_cons in Heq. injection Heq as -> Heq.
        cbn. apply Hmin in Heq. lia.
Qed.

(** The leftmost occurrence is what [cut] returns. *)
Lemma cut_leftmost (sep s a b : string) :
  s = a +:+ sep +:+ b →
  (∀ a' b', s = a' +:+ sep +:+ b' → String.length a ≤ String.length a') →
  cut sep s = Some (a, b).
Proof.
  intros Hs Hmin. destruct (cut sep s) as [[a0 b0]|] eqn:Hc.
  - apply cut_Some in Hc as [Hs0 Hmin0].
    assert (String.length a0 = String.length a) as Hlen.
    { apply Nat.le_antisymm; [by eapply Hmin0 | by eapply Hmin]. }
    clear Hmin Hmin0. subst s. revert a0 Hs0 Hlen.
    induction a as [|c a IH]; intros [|c0 a0] Hs0 Hlen; try done.
    + rewrite !append_nil_l in Hs0.
      by apply (inj (String.app sep)) in Hs0 as ->.
    + rewrite !append_cons in Hs0. injection Hs0 as -> Hs0.
      injection Hlen as Hlen. by injection (IH _ Hs0 Hlen) as -> ->.
  - apply cut_None in Hc.
    assert (contains sep s = true) as Ht by (apply contains_iff; eauto).
    congruence.
Qed.

Lemma cut_shorter (sep s a b : string) :
  sep ≠ "" → cut sep s = Some (a, b) → String.length b < String.length s.
Proof.
  intros Hsep Hc. apply cut_Some in Hc as [-> _].
  rewrite !length_append. destruct sep; [done|]. cbn. lia.
Qed.

(** Fuel: [length s] rounds are enough, more change nothing. *)
Lemma split_fuel_enough (sep : string) (n : nat) (s : string) :
  sep ≠ "" → String.length s ≤ n →
  split_fuel n sep s = split_fuel (String.length s) sep s.
Proof.
  intros Hsep. revert s.
  induction (lt_wf n) as [n _ IH]. intros s Hn.
  destruct n as [|n].
  { by replace (String.length s) with 0 by lia. }
  destruct (String.length s) as [|m] eqn:Hm.
  - destruct s; [|done]. cbn. by destruct sep.
  - cbn [split_fuel]. destruct (cut sep s) as [[a b]|] eqn:Hc; [|done].
    f_equal. pose proof (cut_shorter _ _ _ _ Hsep Hc) as Hlt.
    rewrite (IH n) by lia. rewrite (IH m) by lia. done.
Qed.

Lemma split_cut (sep s a b : string) :
  sep ≠ "" → cut sep s = Some (a, b) → split sep s = a :: split sep b.
Proof.
  intros Hsep Hc. unfold split.
  pose proof (cut_shorter _ _ _ _ Hsep Hc) as Hlt.
  destruct (String.length s) as [|m] eqn:Hm; [lia|].
  cbn [split_fuel]. rewrite Hc. f_equal. apply split_fuel_enough; [done|lia].
Qed.

Lemma split_no_cut (sep s : string) : cut sep s = None → split sep s = [s].
Proof.
  intros Hc. unfold split. destruct (String.length s); [done|].
  cbn [split_fuel]. by rewrite Hc.
Qed.

End PyStrFacts.

(** ** Facts about text of arbitrary characters *)

Section PyTextFacts.

Import PyText.

Lemma text_startswith_app (p r : text) : startswith p (p ++ r) = true.
Proof.
  induction p as [|c p IH]; [done|]. cbn. by rewrite N.eqb_refl.
Qed.

Lemma text_startswith_inv (p s : text) :
  startswith p s = true → ∃ r, s = p ++ r.
Proof.
  revert s. induction p as [|c p IH]; intros s H.
  - by exists s.
  - destruct s as [|d s]; [done|]. cbn in H.
    destruct (N.eqb_spec c d) as [->|]; [|done].
    destruct (IH _ H) as [r ->]. by exists r.
Qed.

Lemma text_contains_iff (sub s : text) :
  contains sub s = true ↔ ∃ a b, s = a ++ sub ++ b.
Proof.
  split.
  - induction s as [|c s IH]; cbn [contains].
    + destruct (startswith sub []) eqn:E; [|done].
      apply text_startswith_inv in E as [r E]. intros _. by exists [], r.
    + destruct (startswith sub (c :: s)) eqn:E.
      * apply text_startswith_inv in E as [r E]. intros _. by exists [], r.
      * intros H. destruct (IH H) as (a & b & ->). by exists (c :: a), b.
  - intros (a & b & ->). induction a as [|c a IH].
    + pose proof (text_startswith_app sub b) as E. cbn [app].
      destruct (sub ++ b); cbn [contains]; by rewrite E.
    + cbn [app contains]. rewrite IH. by destruct (startswith _ _).
Qed.

Lemma text_cut_None (sep s : text) :
  cut sep s = None ↔ contains sep s = false.
Proof.
  induction s as [|c s IH]; cbn [cut contains].
  - by destruct (startswith sep []).
  - destruct (startswith sep (c :: s)); [done|].
    rewrite <- IH. destruct (cut sep s) as [[a b]|]; by split.
Qed.

(** [cut] finds an occurrence, and it is the leftmost one. *)
Lemma text_cut_Some (sep s a b : text) :
  cut sep s = Some (a, b) → first_in_text sep s a b.
Proof.
  unfold first_in_text.
  assert (∀ t, startswith sep t = true →
            t = [] ++ sep ++ drop (length sep) t) as Hhead.
  { intros t E. apply text_startswith_inv in E as [r ->].
    by rewrite drop_app_length. }
  revert a. induction s as [|c s IH]; intros a; cbn [cut].
  - destruct (startswith sep []) eqn:E; [|done].
    intros [= <- <-]. split; [by apply Hhead|cbn; lia].
  - destruct (startswith sep (c :: s)) eqn:E.
    + intros [= <- <-]. split; [by apply Hhead|cbn; lia].
    + destruct (cut sep s) as [[a0 b0]|] eqn:Hc; [|done].
      intros [= <- <-]. destruct (IH _ eq_refl) as [-> Hmin]. split; [done|].
      intros [|c' a'] b' Heq.
      * cbn [app] in Heq. by rewrite Heq, text_startswith_app in E.
      * injection Heq as -> Heq. cbn. apply Hmin in Heq. lia.
Qed.

Lemma text_cut_shorter (sep s a b : text) :
  sep ≠ [] → cut sep s = Some (a, b) → length b < length s.
Proof.
  intros Hsep Hc. apply text_cut_Some in Hc as [-> _].
  rewrite !length_app. destruct sep; [done|]. cbn. lia.
Qed.

Lemma text_split_fuel_enough (sep : text) (n : nat) (s : text) :
  sep ≠ [] → length s ≤ n →
  split_fuel n sep s = split_fuel (length s) sep s.
Proof.
  intros Hsep. revert s.
  induction (lt_wf n) as [n _ IH]. intros s Hn.
  destruct n as [|n].
  { by replace (length s) with 0 by lia. }
  destruct (length s) as [|m] eqn:Hm.
  - destruct s; [|done]. cbn. by destruct sep.
  - cbn [split_fuel]. destruct (cut sep s) as [[a b]|] eqn:Hc; [|done].
    f_equal. pose proof (text_cut_shorter _ _ _ _ Hsep Hc) as Hlt.
    rewrite (IH n) by lia. rewrite (IH m) by lia. done.
Qed.

Lemma text_split_cut (sep s a b : text) :
  sep ≠ [] → cut sep s = Some (a, b) → split sep s = a :: split sep b.
Proof.
  intros Hsep Hc. unfold split.
  pose proof (text_cut_shorter _ _ _ _ Hsep Hc) as Hlt.
  destruct (length s) as [|m] eqn:Hm; [lia|].
  cbn [split_fuel]. rewrite Hc. f_equal.
  apply text_split_fuel_enough; [done|lia].
Qed.

Lemma text_split_no_cut (sep s : text) :
  cut sep s = None → split sep s = [s].
Proof.
  intros Hc. unfold split. destruct (length s); [done|].
  cbn [split_fuel]. by rewrite Hc.
Qed.

Lemma text_contains_false_app (x a b : text) :
  contains x (a ++ b) = false →
  contains x a = false ∧ contains x b = false.
Proof.
  intros H. split.
  - destruct (contains x a) eqn:E; [|done].
    apply text_contains_iff in E as (u & v & ->).
    assert (contains x ((u ++ x ++ v) ++ b) = true) as Ht; [|congruence].
    apply text_contains_iff. exists u, (v ++ b). by rewrite <- !app_assoc.
  - destruct (contains x b) eqn:E; [|done].
    apply text_contains_iff in E as (u & v & ->).
    assert (contains x (a ++ u ++ x ++ v) = true) as Ht; [|congruence].
    apply text_contains_iff. exists (a ++ u), v. by rewrite <- !app_assoc.
Qed.

(** The text before the leftmost separator has no separator in it. *)
Lemma text_cut_before_no_sep (sep s a b : text) :
  sep ≠ [] → cut sep s = Some (a, b) → contains sep a = false.
Proof.
  intros Hsep [-> Hmin]%text_cut_Some.
  destruct (contains sep a) eqn:E; [|done].
  apply text_contains_iff in E as (u & v & ->).
  specialize (Hmin u (v ++ sep ++ b)).
  rewrite <- !app_assoc in Hmin. specialize (Hmin eq_refl).
  rewrite !length_app in Hmin. destruct sep; [done|]. cbn in Hmin. lia.
Qed.

(** Every piece of a split is free of the separator and is a part of the
    text that was split. *)
Lemma text_split_pieces (sep s piece : text) :
  sep ≠ [] → piece ∈ split sep s →
  contains sep piece = false ∧ ∃ u v, s = u ++ piece ++ v.
Proof.
  intros Hsep.
  assert (∃ n, length s < n) as [n Hlen] by (eexists; apply Nat.lt_succ_diag_r).
  revert s Hlen piece. induction n as [|n IH]; intros s Hlen piece Hin; [lia|].
  destruct (cut sep s) as [[a b]|] eqn:Hc.
  - rewrite (text_split_cut sep s a b) in Hin by done.
    apply elem_of_cons in Hin as [->|Hin].
    + split; [by eapply text_cut_before_no_sep|].
      apply text_cut_Some in Hc as [-> _]. by exists [], (sep ++ b).
    + pose proof (text_cut_shorter _ _ _ _ Hsep Hc) as Hlt.
      destruct (IH b ltac:(lia) piece Hin) as (Hno & u & v & Hb).
      split; [done|]. apply text_cut_Some in Hc as [-> _].
      exists (a ++ sep ++ u), v. by rewrite Hb, <- !app_assoc.
  - rewrite (text_split_no_cut sep s Hc) in Hin.
    apply list_elem_of_singleton in Hin as ->.
    split; [by apply text_cut_None|]. exists [], []. by rewrite app_nil_r.
Qed.

End PyTextFacts.

(** ** Facts about the UTF-8 codec *)

Section Utf8Facts.

Import Utf8.

Lemma div_mod_64 (q r : N) :
  (r < 64)%N → ((q * 64 + r) / 64 = q ∧ (q * 64 + r) mod 64 = r)%N.
Proof.
  intros Hr. split; symmetry.
  - apply (N.div_unique _ _ _ r); lia.
  - apply (N.mod_unique _ _ q); lia.
Qed.

Lemma between_spec (lo hi n : N) :
  between lo hi n = true ↔ (lo ≤ n ∧ n ≤ hi)%N.
Proof.
  unfold between. by rewrite andb_true_iff, !N.leb_le.
Qed.

Lemma second_ok_continuation (b0 b1 : N) :
  second_ok b0 b1 = true → continuation b1 = true.
Proof.
  unfold second_ok, continuation.
  repeat destruct (_ =? _)%N; rewrite !between_spec; lia.
Qed.

Lemma chr_byte (c : ascii) (n : N) : n = N_of_ascii c → ascii_of_N n = c.
Proof. intros ->. apply ascii_N_embedding. Qed.

(** Encoding gives back the bytes that were decoded. *)
Lemma encode_decode (b : string) (t : PyText.text) :
  decode b = Some t → encode t = b.
Proof.
  assert (∃ n, String.length b < n) as [n Hn] by (eexists; apply Nat.lt_succ_diag_r).
  revert b t Hn. induction n as [|n IH]; intros b t Hn; [lia|].
  destruct b as [|c0 r]; [by intros [= <-]|].
  cbn [decode]. set (b0 := N_of_ascii c0).
  assert (b0 < 256)%N as H0 by apply N_ascii_bounded.
  destruct (N.ltb_spec b0 128) as [Hlow|Hlow].
  { destruct (decode r) as [t'|] eqn:Hr; [|done]. intros [= <-].
    cbn [encode]. rewrite (IH r t') by (done || cbn in Hn; lia).
    unfold encode_char. destruct (N.ltb_spec b0 128); [|lia].
    by rewrite (chr_byte c0). }
  destruct (between 194 223 b0) eqn:H2.
  { apply between_spec in H2.
    destruct r as [|c1 r1]; [done|]. set (b1 := N_of_ascii c1).
    destruct (continuation b1) eqn:Hc1; [|done].
    apply between_spec in Hc1.
    destruct (decode r1) as [t'|] eqn:Hr; [|done]. intros [= <-].
    cbn [encode]. rewrite (IH r1 t') by (done || cbn in Hn; lia).
    unfold encode_char.
    destruct (div_mod_64 (b0 - 192) (b1 - 128) ltac:(lia)) as [Hq Hm].
    rewrite Hq, Hm.
    destruct (N.ltb_spec ((b0 - 192) * 64 + (b1 - 128)) 128); [lia|].
    destruct (N.ltb_spec ((b0 - 192) * 64 + (b1 - 128)) 2048); [|lia].
    rewrite (chr_byte c0), (chr_byte c1) by (unfold b0, b1 in *; lia). done. }
  destruct (between 224 239 b0) eqn:H3.
  { apply between_spec in H3.
    destruct r as [|c1 [|c2 r2]]; [done..|].
    set (b1 := N_of_ascii c1). set (b2 := N_of_ascii c2).
    destruct (second_ok b0 b1) eqn:Hs1; [|done].
    pose proof (second_ok_continuation _ _ Hs1) as Hc1.
    destruct (continuation b2) eqn:Hc2; [|done]. cbn [andb].
    apply between_spec in Hc1, Hc2.
    assert (224 < b0 ∨ 160 ≤ b1)%N as Hover.
    { unfold second_ok in Hs1. destruct (N.eqb_spec b0 224); [|lia].
      apply between_spec in Hs1. lia. }
    destruct (decode r2) as [t'|] eqn:Hr; [|done]. intros [= <-].
    cbn [encode]. rewrite (IH r2 t') by (done || cbn in Hn; lia).
    unfold encode_char.
    set (cp := (((b0 - 224) * 64 + (b1 - 128)) * 64 + (b2 - 128))%N).
    destruct (div_mod_64 ((b0 - 224) * 64 + (b1 - 128)) (b2 - 128) ltac:(lia))
      as [Hq Hm].
    destruct (div_mod_64 (b0 - 224) (b1 - 128) ltac:(lia)) as [Hq' Hm'].
    change 4096%N with (64 * 64)%N. rewrite <- N.Div0.div_div.
    fold cp in Hq, Hm. rewrite Hq, Hm, Hq', Hm'.
    destruct (N.ltb_spec cp 128); [unfold cp in *; lia|].
    destruct (N.ltb_spec cp 2048); [unfold cp in *; lia|].
    destruct (N.ltb_spec cp 65536); [|unfold cp in *; lia].
    rewrite (chr_byte c0), (chr_byte c1), (chr_byte c2)
      by (unfold b0, b1, b2 in *; lia). done. }
  destruct (between 240 244 b0) eqn:H4; [|done].
  apply between_spec in H4.
  destruct r as [|c1 [|c2 [|c3 r3]]]; [done..|].
  set (b1 := N_of_ascii c1). set (b2 := N_of_ascii c2). set (b3 := N_of_ascii c3).
  destruct (second_ok b0 b1) eqn:Hs1; [|done].
  pose proof (second_ok_continuation _ _ Hs1) as Hc1.
  destruct (continuation b2) eqn:Hc2; [|done].
  destruct (continuation b3) eqn:Hc3; [|done]. cbn [andb].
  apply between_spec in Hc1, Hc2, Hc3.
  assert (240 < b0 ∨ 144 ≤ b1)%N as Hover.
  { unfold second_ok in Hs1.
    destruct (N.eqb_spec b0 224); [lia|]. destruct (N.eqb_spec b0 237); [lia|].
    destruct (N.eqb_spec b0 240); [|lia]. apply between_spec in Hs1. lia. }
  destruct (decode r3) as [t'|] eqn:Hr; [|done]. intros [= <-].
  cbn [encode]. rewrite (IH r3 t') by (done || cbn in Hn; lia).
  unfold encode_char.
  set (hi := (((b0 - 240) * 64 + (b1 - 128)) * 64 + (b2 - 128))%N).
  set (cp := (hi * 64 + (b3 - 128))%N).
  destruct (div_mod_64 hi (b3 - 128) ltac:(lia)) as [Hq Hm].
  destruct (div_mod_64 ((b0 - 240) * 64 + (b1 - 128)) (b2 - 128) ltac:(lia))
    as [Hq' Hm'].
  destruct (div_mod_64 (b0 - 240) (b1 - 128) ltac:(lia)) as [Hq'' Hm''].
  change 262144%N with (64 * (64 * 64))%N. change 4096%N with (64 * 64)%N.
  rewrite <- !N.Div0.div_div.
  fold cp in Hq, Hm. fold hi in Hq', Hm'.
  rewrite Hq, Hm, Hq', Hm', Hq'', Hm''.
  destruct (N.ltb_spec cp 128); [unfold cp, hi in *; lia|].
  destruct (N.ltb_spec cp 2048); [unfold cp, hi in *; lia|].
  destruct (N.ltb_spec cp 65536); [unfold cp, hi in *; lia|].
  rewrite (chr_byte c0), (chr_byte c1), (chr_byte c2), (chr_byte c3)
    by (unfold b0, b1, b2, b3 in *; lia). done.
Qed.

Lemma encode_app (a b : PyText.text) : encode (a ++ b) = encode a +:+ encode b.
Proof.
  induction a as [|c a IH]; [done|]. cbn [app encode].
  by rewrite IH, append_assoc.
Qed.

End Utf8Facts.

(** ** Facts about the pattern of line 93 *)

Section ReFacts.

Import Re.

Lemma special_escape_atom (c : ascii) :
  is_special c = true → escape_atom c = Some (Lit c).
Proof. destruct c as [[] [] [] [] [] [] [] []]; by vm_compute. Qed.

Lemma plain_start_atom (c : ascii) :
  is_special c = false →
  start_atom c = Some (Have (Lit c))
  ∧ Ascii.eqb c "*" = false ∧ Ascii.eqb c "{" = false.
Proof. destruct c as [[] [] [] [] [] [] [] []]; by vm_compute. Qed.

(** Scanning an escaped text that is followed by a hyphen, with an atom
    pending: every character of the text becomes a literal. *)
Lemma scan_escape_have (p r : string) (a : atom) :
  scan (Have a) (escape p +:+ String "-" r)
  = (λ l, (a, Once) :: lits p ++ l) <$> scan (Have (Lit "-")) r.
Proof.
  revert a. induction p as [|c p IH]; intros a.
  - rewrite append_nil_l. cbn. by destruct (scan _ r).
  - cbn [escape lits]. destruct (is_special c) eqn:Hc.
    + rewrite !append_cons. cbn [scan]. cbn [Ascii.eqb Bool.eqb start_atom].
      cbn [scan]. rewrite (special_escape_atom _ Hc), IH.
      by destruct (scan _ r).
    + destruct (plain_start_atom _ Hc) as (Hs & Hstar & Hbrace).
      rewrite append_cons. cbn [scan]. rewrite Hstar, Hbrace, Hs, IH.
      by destruct (scan _ r).
Qed.

Lemma scan_escape_idle (p r : string) :
  scan Idle (escape p +:+ String "-" r)
  = (λ l, lits p ++ l) <$> scan (Have (Lit "-")) r.
Proof.
  destruct p as [|c p].
  - rewrite append_nil_l. cbn. by destruct (scan _ r).
  - cbn [escape lits]. destruct (is_special c) eqn:Hc.
    + rewrite !append_cons. cbn [scan start_atom].
      rewrite (special_escape_atom _ Hc), scan_escape_have.
      by destruct (scan _ r).
    + destruct (plain_start_atom _ Hc) as (Hs & _ & _).
      rewrite append_cons. cbn [scan]. rewrite Hs, scan_escape_have.
      by destruct (scan _ r).
Qed.

(** The pattern of line 93 is inside the fragment for every prefix, and the
    prefix is matched literally. *)
Lemma compile_pattern (file_prefix : string) :
  compile (pattern file_prefix) = Some (pattern_items file_prefix).
Proof.
  unfold compile, pattern.
  change "-\d{3}.*\.png" with (String "-" "\d{3}.*\.png").
  by rewrite scan_escape_idle.
Qed.

Lemma rep_once (a : atom) (k : string → bool) (s : string) :
  rep a 1 k s = true ↔ ∃ c s', s = String c s' ∧ atom_ok a c = true ∧ k s' = true.
Proof.
  destruct s as [|c s]; cbn.
  - split; [done|]. by intros (? & ? & ? & _).
  - rewrite andb_true_iff. split.
    + intros [Hc Hk]. by exists c, s.
    + by intros (? & ? & [= <- <-] & Hc & Hk).
Qed.

Lemma match_lits (p : string) (tail : list (atom * quant)) (s : string) :
  match_items (lits p ++ tail) s = true
  ↔ ∃ s', s = p +:+ s' ∧ match_items tail s' = true.
Proof.
  revert s. induction p as [|c p IH]; intros s.
  - cbn [lits app]. split.
    + intros Hm. by exists s.
    + by intros (s' & -> & Hm).
  - cbn [lits app match_items]. rewrite rep_once. split.
    + intros (c' & s' & -> & Hc & Hm). cbn in Hc.
      apply Ascii.eqb_eq in Hc as <-. apply IH in Hm as (r & -> & Hm).
      by exists r.
    + intros (r & -> & Hm). exists c, (p +:+ r). split; [done|].
      split; [apply Ascii.eqb_refl | apply IH; eauto].
Qed.

Lemma star_iff (a : atom) (k : string → bool) (s : string) :
  star a k s = true ↔ ∃ u v, s = u +:+ v ∧ all_ok a u = true ∧ k v = true.
Proof.
  induction s as [|c s IH]; cbn [star].
  - split.
    + intros H. by exists "", "".
    + intros ([|] & v & Hs & _ & Hk); [|done].
      rewrite append_nil_l in Hs. by subst.
  - rewrite orb_true_iff, andb_true_iff, IH. split.
    + intros [(Hc & u & v & -> & Hu & Hk) | Hk].
      * exists (String c u), v. cbn [all_ok]. by rewrite Hc, Hu.
      * by exists "", (String c s).
    + intros ([|c' u] & v & Hs & Hu & Hk).
      * rewrite append_nil_l in Hs. subst. by right.
      * rewrite append_cons in Hs. injection Hs as -> ->.
        cbn [all_ok] in Hu. apply andb_true_iff in Hu as [Hc Hu].
        left. split; [done|]. by exists u, v.
Qed.

Lemma all_ok_no_newline (u : string) :
  all_ok AnyButNewline u = true ↔ PyStr.contains nl u = false.
Proof.
  induction u as [|c u IH]; [done|].
  cbn [all_ok atom_ok PyStr.contains PyStr.startswith nl].
  rewrite andb_true_iff, IH, negb_true_iff, (Ascii.eqb_sym c).
  destruct (Ascii.eqb "010" c); [|tauto]. split; [by intros [? _]|done].
Qed.

Lemma rep_three_digits (k : string → bool) (s : string) :
  rep Digit 3 k s = true
  ↔ ∃ d1 d2 d3 s',
      s = String d1 (String d2 (String d3 s'))
      ∧ is_digit d1 = true ∧ is_digit d2 = true ∧ is_digit d3 = true
      ∧ k s' = true.
Proof.
  split.
  - destruct s as [|d1 [|d2 [|d3 s']]]; cbn; rewrite ?andb_false_r; try done.
    rewrite !andb_true_iff. intros (? & ? & ? & ?). by exists d1, d2, d3, s'.
  - intros (d1 & d2 & d3 & s' & -> & H1 & H2 & H3 & Hk). cbn.
    by rewrite H1, H2, H3, Hk.
Qed.

End ReFacts.

(** ** How the functions of the module run *)

Section Runs.

Variable env : Env.

Lemma split_head (sep s : string) : ∃ x l, PyStr.split sep s = x :: l.
Proof.
  unfold PyStr.split. destruct (String.length s); cbn; [by eauto|].
  destruct (PyStr.cut sep s) as [[a b]|]; by eauto.
Qed.

Lemma filename_sans_ext_total (pdf_filepath : string) :
  ∃ stem, filename_sans_ext pdf_filepath = Some stem.
Proof.
  unfold filename_sans_ext.
  destruct (split_head ".pdf" (PosixPath.split pdf_filepath).2) as (x & l & ->).
  by exists x.
Qed.

Lemma re_match_pattern (file_prefix filename : string) :
  re_match (pattern file_prefix) filename = ret (selects file_prefix filename).
Proof.
  unfold re_match, Re.match_. by rewrite compile_pattern.
Qed.

Lemma comprehension_if_pattern (file_prefix : string) (names : list string)
    (s : State) :
  comprehension_if (λ filename, re_match (pattern file_prefix) filename) names s
  = (Ok (List.filter (selects file_prefix) names), s).
Proof.
  induction names as [|x names IH]; [done|].
  cbn [comprehension_if List.filter]. unfold bind at 1.
  rewrite re_match_pattern. cbn [ret]. unfold bind at 1. rewrite IH.
  cbn [ret]. by destruct (selects file_prefix x).
Qed.

Lemma find_matching_files_in_dir_run (file_prefix directory : string)
    (s : State) :
  find_matching_files_in_dir env file_prefix directory s
  = match fs s !! PosixPath.abspath (cwd s) directory with
    | Some names => (Ok (List.filter (selects file_prefix) names), s)
    | None =>
        (Raise (os_error
                  (refused env (fs s) (PosixPath.abspath (cwd s) directory))
                  directory), s)
    end.
Proof.
  unfold find_matching_files_in_dir, bind at 1, listdir. cbn zeta.
  destruct (fs s !! _) as [names|]; [|done].
  unfold bind. by rewrite comprehension_if_pattern.
Qed.

Lemma pdfimages_except_run (pdf_filepath : string) (e : exn) (s : State) :
  pdfimages_except env pdf_filepath e s
  = (Raise (RuntimeError (pdfimages_error_message env pdf_filepath e) e),
     add_events s (failure_records env pdf_filepath e)).
Proof.
  assert (∀ t : State, mkState (cwd t) (fs t) (events t ++ []) = t) as Hnil.
  { intros [? ? ?]. cbn. by rewrite app_nil_r. }
  unfold pdfimages_except, failure_records, add_events.
  destruct e as [rc cmd o [err|]| | | | |]; cbn; try done.
  - destruct (String.eqb err ""); cbn; [done|]. by rewrite <- app_assoc.
Qed.

(** The resolution of a path, lines 24 and 53. *)
Lemma resolve_run (path : string) (s : State) :
  (if negb (PosixPath.isabs path) then os_path_abspath env path else ret path) s
  = if resolution_fails env s path then (Raise getcwd_error, s)
    else (Ok (if PosixPath.isabs path then path
              else PosixPath.abspath (cwd s) path), s).
Proof.
  unfold resolution_fails, os_path_abspath, bind, getcwd.
  destruct (PosixPath.isabs path); cbn [negb andb]; [done|].
  by destruct (cwd_gone env s).
Qed.

(** [pdfimages] is its [try] body, with every exception of the body turned
    into a [RuntimeError] by the [except] clauses.  The one exception that
    is raised before the [try] is that of line 53. *)
Lemma pdfimages_run (pdf_filepath : string) (output_dir : option string)
    (s : State) :
  ∃ stem,
    filename_sans_ext pdf_filepath = Some stem
    ∧ pdfimages env pdf_filepath output_dir s
      = if resolution_fails env s
             (default (PosixPath.split pdf_filepath).1 output_dir)
        then (Raise getcwd_error, s)
        else
          match pdfimages_try env pdf_filepath
                  (resolved_output_dir s pdf_filepath output_dir) stem s with
          | (Ok names, s') => (Ok names, s')
          | (Raise e, s') =>
              (Raise (RuntimeError (pdfimages_error_message env pdf_filepath e) e),
               add_events s' (failure_records env pdf_filepath e))
          end.
Proof.
  destruct (filename_sans_ext_total pdf_filepath) as [stem Hstem].
  exists stem. split; [done|].
  unfold pdfimages, resolved_output_dir, filename_sans_ext in *.
  destruct (PosixPath.split pdf_filepath) as [directory filename].
  cbn [fst snd] in *. unfold bind at 1. rewrite resolve_run.
  destruct (resolution_fails env s _); [done|].
  unfold bind, index. rewrite Hstem. cbn [ret].
  unfold try_except.
  destruct (pdfimages_try _ _ _ _ _) as [[names|e] s'];
    by rewrite ?pdfimages_except_run.
Qed.

Lemma working_dir_run {A} (directory : string) (body : M A) (s : State) :
  working_dir env directory body s
  = if cwd_gone env s then (Raise getcwd_error, s)
    else
      match fs s !! PosixPath.abspath (cwd s) directory with
      | Some _ =>
          let '(r, s2) :=
            body (mkState (PosixPath.abspath (cwd s) directory) (fs s)
                    (events s)) in
          leave_working_dir env s r s2
      | None =>
          leave_working_dir env s
            (Raise (os_error
                      (refused env (fs s) (PosixPath.abspath (cwd s) directory))
                      directory)) s
      end.
Proof.
  unfold working_dir, bind at 1, getcwd.
  destruct (cwd_gone env s); [done|].
  unfold try_finally, bind, chdir, leave_working_dir. cbn zeta.
  destruct (fs s !! PosixPath.abspath (cwd s) directory) as [l0|].
  - destruct (body _) as [r s2]. by destruct (fs s2 !! _).
  - by destruct (fs s !! _).
Qed.

(** A successful run of the [try] body: the rasterizer ran in the output
    directory and exited with status 0, the way back succeeded, and the
    result is what the collector keeps of the listing. *)
Lemma pdfimages_try_Ok (pdf_filepath output_dir stem : string)
    (s s' : State) (names : list string) :
  pdfimages_try env pdf_filepath output_dir stem s = (Ok names, s') →
  ∃ out err listing,
    spawn env (pdfimages_command pdf_filepath stem)
      (PosixPath.abspath (cwd s) output_dir) (fs s)
    = Exited 0 out err (fs s')
    ∧ cwd s' = PosixPath.abspath (PosixPath.abspath (cwd s) output_dir) (cwd s)
    ∧ fs s' !! PosixPath.abspath (cwd s') output_dir = Some listing
    ∧ names = List.filter (selects stem) listing
    ∧ events s'
      = events s
        ++ [Exec (pdfimages_command pdf_filepath stem)
              (PosixPath.abspath (cwd s) output_dir);
            LogDebug ("Converted " +:+ pdf_filepath +:+ " into files:" +:+ nl
                        +:+ PyStr.join nl names)].
Proof.
  unfold pdfimages_try, bind at 1. rewrite working_dir_run.
  destruct (cwd_gone env s); [done|].
  destruct (fs s !! PosixPath.abspath (cwd s) output_dir) as [l0|];
    [|unfold leave_working_dir; cbn zeta; by destruct (fs s !! _)].
  unfold subprocess_run. cbn [cwd fs events].
  destruct (spawn env _ _ _) as [rc out err fs'|e];
    [|unfold leave_working_dir; cbn [cwd fs events]; by destruct (fs s !! _)].
  cbn [andb]. destruct (rc =? 0)%Z eqn:Hrc; cbn [negb];
    unfold leave_working_dir; cbn [cwd fs events];
    (destruct (fs' !! _) as [l1|] eqn:Hback; [|done]); [|done].
  apply Z.eqb_eq in Hrc as ->.
  unfold bind at 1. rewrite find_matching_files_in_dir_run. cbn [cwd fs events].
  destruct (fs' !! PosixPath.abspath _ output_dir) as [listing|] eqn:Hl; [|done].
  unfold bind, logger_debug, emit, ret. cbn [cwd fs events].
  intros [= <- <-]. cbn [cwd fs events]. exists out, err, listing.
  by rewrite <- app_assoc.
Qed.

Lemma pdfimages_Ok (pdf_filepath : string) (output_dir : option string)
    (s s' : State) (names : list string) :
  pdfimages env pdf_filepath output_dir s = (Ok names, s') →
  ∃ stem,
    filename_sans_ext pdf_filepath = Some stem
    ∧ pdfimages_try env pdf_filepath
        (resolved_output_dir s pdf_filepath output_dir) stem s
      = (Ok names, s').
Proof.
  destruct (pdfimages_run pdf_filepath output_dir s) as (stem & Hstem & ->).
  intros H. exists stem. split; [done|].
  destruct (resolution_fails env s _); [done|].
  by destruct (pdfimages_try _ _ _ _ _) as [[?|?] ?].
Qed.

Lemma pdf_to_images_run (pdf_filepath : string) (output_dir : option string)
    (s : State) :
  pdf_to_images env pdf_filepath output_dir s
  = if resolution_fails env s pdf_filepath then (Raise getcwd_error, s)
    else
      match pdfimages env (resolved_pdf s pdf_filepath)
              (Some (target_dir s pdf_filepath output_dir)) s with
      | (Ok names, s') =>
          (Ok (sorted (PosixPath.join (target_dir s pdf_filepath output_dir)
                         <$> names)), s')
      | (Raise e, s') => (Raise e, s')
      end.
Proof.
  unfold pdf_to_images, target_dir, resolved_pdf, bind at 1.
  rewrite resolve_run. destruct (resolution_fails env s pdf_filepath); [done|].
  destruct (PosixPath.split _) as [directory filename]; cbn [fst].
  unfold bind, ret. by destruct (pdfimages _ _ _ _) as [[?|?] ?].
Qed.

End Runs.

(** ** The stem (claims C7 and C10) *)

Lemma resolution_succeeds (env : Env) (s : State) (path : string) :
  cwd_gone env s = false → resolution_fails env s path = false.
Proof. unfold resolution_fails. intros ->. apply andb_false_r. Qed.

Lemma pdfimages_with_stem (env : Env) (pdf_filepath stem : string)
    (output_dir : option string) (s : State) :
  filename_sans_ext pdf_filepath = Some stem →
  resolution_fails env s (default (PosixPath.split pdf_filepath).1 output_dir)
  = false →
  pdfimages env pdf_filepath output_dir s
  = try_except
      (pdfimages_try env pdf_filepath
         (resolved_output_dir s pdf_filepath output_dir) stem)
      (pdfimages_except env pdf_filepath) s.
Proof.
  intros Hstem Hres.
  destruct (pdfimages_run env pdf_filepath output_dir s) as (stem' & Hs & ->).
  assert (stem' = stem) as -> by congruence. rewrite Hres.
  unfold try_except. destruct (pdfimages_try _ _ _ _ _) as [[names|e] s'];
    by rewrite ?pdfimages_except_run.
Qed.

(** [pdfimages] with line 54 evaluated: the output directory is resolved
    and the [try] statement runs with [stem]. *)
Lemma pdfimages_hands_on_stem (env : Env)
    (pdf_filepath directory filename stem : string)
    (output_dir : option string) (s : State) :
  PosixPath.split pdf_filepath = (directory, filename) →
  PyStr.split ".pdf" filename !! 0 = Some stem →
  let d := default directory output_dir in
  pdfimages env pdf_filepath output_dir s
  = (output_dir <- (if negb (PosixPath.isabs d)
                    then os_path_abspath env d else ret d) ;;
     try_except (pdfimages_try env pdf_filepath output_dir stem)
                (pdfimages_except env pdf_filepath)) s.
Proof.
  intros Hsplit Hstem d. unfold pdfimages. rewrite Hsplit. fold d.
  unfold bind. rewrite !resolve_run.
  destruct (resolution_fails env s d); [done|].
  unfold index. by rewrite Hstem.
Qed.

(** A run of [pdfimages] in which the rasterizer exits with status 0. *)
Lemma pdfimages_succeeds (env : Env) (pdf_filepath stem : string)
    (output_dir : option string) (s : State) (out err : string)
    (fs' : gmap string (list string)) (listing : list string) :
  let W := workdir s pdf_filepath output_dir in
  let back := PosixPath.abspath W (cwd s) in
  let names := List.filter (selects stem) listing in
  filename_sans_ext pdf_filepath = Some stem →
  cwd_gone env s = false →
  is_Some (fs s !! W) →
  spawn env (pdfimages_command pdf_filepath stem) W (fs s)
  = Exited 0 out err fs' →
  is_Some (fs' !! back) →
  fs' !! PosixPath.abspath back (resolved_output_dir s pdf_filepath output_dir)
  = Some listing →
  pdfimages env pdf_filepath output_dir s
  = (Ok names,
     mkState back fs'
       (events s
          ++ [Exec (pdfimages_command pdf_filepath stem) W;
              LogDebug ("Converted " +:+ pdf_filepath +:+ " into files:" +:+ nl
                          +:+ PyStr.join nl names)])).
Proof.
  intros W back names Hstem Hcwd [l0 Hin] Hspawn [l1 Hback] Hlist.
  rewrite (pdfimages_with_stem env pdf_filepath stem)
    by (done || by apply resolution_succeeds).
  unfold try_except, pdfimages_try, bind at 1.
  rewrite working_dir_run, Hcwd.
  fold (workdir s pdf_filepath output_dir). fold W. rewrite Hin.
  unfold subprocess_run. cbn [cwd fs events]. rewrite Hspawn.
  cbn [Z.eqb negb andb]. unfold leave_working_dir. cbn [cwd fs events].
  fold back. rewrite Hback. unfold bind at 1.
  rewrite find_matching_files_in_dir_run. cbn [cwd fs events].
  rewrite Hlist. unfold bind, logger_debug, emit, ret. cbn [cwd fs events].
  by rewrite <- app_assoc.
Qed.

(** C7. The stem is the part of the file name before the first occurrence
    of ".pdf": whenever [pre] is what precedes the leftmost ".pdf" of the
    file name, [filename.split(".pdf")[0]] is [pre], and [pdfimages] is the
    resolution of the output directory followed by the [try] statement run
    with [pre] as the stem.  "invoice.pdf" gives "invoice" and "a.pdf.pdf"
    gives "a". *)
Theorem stem_is_text_before_first_pdf
    (pdf_filepath directory filename pre post : string) :
  PosixPath.split pdf_filepath = (directory, filename) →
  first_occurrence ".pdf" filename pre post →
  PyStr.split ".pdf" filename !! 0 = Some pre
  ∧ (∀ env output_dir s,
       let d := default directory output_dir in
       pdfimages env pdf_filepath output_dir s
       = (output_dir <- (if negb (PosixPath.isabs d)
                         then os_path_abspath env d else ret d) ;;
          try_except (pdfimages_try env pdf_filepath output_dir pre)
                     (pdfimages_except env pdf_filepath)) s)
  ∧ (∀ env output_dir s,
       resolution_fails env s (default directory output_dir) = false →
       pdfimages env pdf_filepath output_dir s
       = try_except
           (pdfimages_try env pdf_filepath
              (resolved_output_dir s pdf_filepath output_dir) pre)
           (pdfimages_except env pdf_filepath) s)
  ∧ PyStr.split ".pdf" "invoice.pdf" !! 0 = Some "invoice"
  ∧ PyStr.split ".pdf" "a.pdf.pdf" !! 0 = Some "a".
Proof.
  intros Hsplit [Hs Hmin].
  assert (PyStr.split ".pdf" filename !! 0 = Some pre) as Hstem.
  { rewrite (split_cut ".pdf" filename pre post); [done|done|].
    by apply cut_leftmost. }
  split; [done|]. split; [|split; [|done]].
  - intros env output_dir s. by apply (pdfimages_hands_on_stem _ _ _ filename).
  - intros env output_dir s Hres. apply pdfimages_with_stem.
    + unfold filename_sans_ext. by rewrite Hsplit.
    + by rewrite Hsplit.
Qed.

Lemma stem_is_text_before_first_pdf_witness :
  PyStr.split ".pdf" "a.pdf.pdf" !! 0 = Some "a"
  ∧ (∀ env output_dir s,
       let d := default "/data" output_dir in
       pdfimages env "/data/a.pdf.pdf" output_dir s
       = (output_dir <- (if negb (PosixPath.isabs d)
                         then os_path_abspath env d else ret d) ;;
          try_except (pdfimages_try env "/data/a.pdf.pdf" output_dir "a")
                     (pdfimages_except env "/data/a.pdf.pdf")) s).
Proof.
  destruct (stem_is_text_before_first_pdf "/data/a.pdf.pdf" "/data"
              "a.pdf.pdf" "a" ".pdf") as (H1 & H2 & _).
  - reflexivity.
  - apply cut_Some. reflexivity.
  - exact (conj H1 H2).
Defined.

(** C10. A file name without ".pdf" in it (the test is case-sensitive) is
    its own stem.  [pdfimages] runs its [try] statement with the whole file
    name as the stem: when the output directory can be entered and the
    rasterizer exits with status 0, the rasterizer has been started with
    the file name as root of the output names, and the entries returned
    are those of the output directory that the collector keeps for the file
    name as prefix; and every normal return of [pdfimages] is of that
    kind. *)
Theorem stem_of_name_without_pdf_is_name
    (pdf_filepath directory filename : string) :
  PosixPath.split pdf_filepath = (directory, filename) →
  (∀ a b, filename ≠ a +:+ ".pdf" +:+ b) →
  PyStr.split ".pdf" filename !! 0 = Some filename
  ∧ (∀ env output_dir s,
       let d := default directory output_dir in
       pdfimages env pdf_filepath output_dir s
       = (output_dir <- (if negb (PosixPath.isabs d)
                         then os_path_abspath env d else ret d) ;;
          try_except (pdfimages_try env pdf_filepath output_dir filename)
                     (pdfimages_except env pdf_filepath)) s)
  ∧ (∀ env output_dir s out err fs' listing,
       let W := workdir s pdf_filepath output_dir in
       let back := PosixPath.abspath W (cwd s) in
       let names := List.filter (selects filename) listing in
       cwd_gone env s = false →
       is_Some (fs s !! W) →
       spawn env (pdfimages_command pdf_filepath filename) W (fs s)
       = Exited 0 out err fs' →
       is_Some (fs' !! back) →
       fs' !! PosixPath.abspath back
                (resolved_output_dir s pdf_filepath output_dir)
       = Some listing →
       pdfimages env pdf_filepath output_dir s
       = (Ok names,
          mkState back fs'
            (events s
               ++ [Exec (pdfimages_command pdf_filepath filename) W;
                   LogDebug ("Converted " +:+ pdf_filepath +:+ " into files:"
                               +:+ nl +:+ PyStr.join nl names)])))
  ∧ (∀ env output_dir s s' names,
       pdfimages env pdf_filepath output_dir s = (Ok names, s') →
       Exec (pdfimages_command pdf_filepath filename)
         (PosixPath.abspath (cwd s)
            (resolved_output_dir s pdf_filepath output_dir))
       ∈ events s'
       ∧ ∃ listing,
           fs s' !! PosixPath.abspath (cwd s')
                      (resolved_output_dir s pdf_filepath output_dir)
           = Some listing
           ∧ names = List.filter (selects filename) listing)
  ∧ PyStr.split ".pdf" "Doc.PDF" !! 0 = Some "Doc.PDF".
Proof.
  intros Hsplit Hno.
  assert (PyStr.cut ".pdf" filename = None) as Hcut.
  { apply cut_None. destruct (PyStr.contains ".pdf" filename) eqn:E; [|done].
    apply contains_iff in E as (a & b & E). by destruct (Hno a b). }
  assert (filename_sans_ext pdf_filepath = Some filename) as Hstem.
  { unfold filename_sans_ext. rewrite Hsplit. cbn [snd].
    by rewrite split_no_cut. }
  split; [by rewrite split_no_cut|]. split; [|split; [|split; [|done]]].
  - intros env output_dir s.
    apply (pdfimages_hands_on_stem _ _ _ filename); [done|].
    by rewrite split_no_cut.
  - intros env output_dir s out err fs' listing W back names.
    by apply pdfimages_succeeds.
  - intros env output_dir s s' names Hrun.
    apply pdfimages_Ok in Hrun as (stem & Hstem' & Hrun).
    assert (stem = filename) as -> by congruence.
    apply pdfimages_try_Ok in Hrun
      as (out & err & listing & _ & _ & Hl & Hn & Hev).
    split; [|by exists listing].
    rewrite Hev. apply elem_of_app. right. apply list_elem_of_here.
Qed.

Lemma stem_of_name_without_pdf_is_name_witness :
  pdfimages Scenario.tools "/data/Doc.PDF" None Scenario.start
  = (Ok ["Doc.PDF-001.png"; "Doc.PDF-000.png"],
     mkState "/work"
       (<["/data" := ["Doc.PDF-001.png"; "Doc.PDF-000.png"; "doc.pdf"]]>
          Scenario.disk)
       [Exec ["pdfimages"; "-png"; "/data/Doc.PDF"; "Doc.PDF"] "/data";
        LogDebug ("Converted /data/Doc.PDF into files:" +:+ nl
                    +:+ "Doc.PDF-001.png" +:+ nl +:+ "Doc.PDF-000.png")]).
Proof.
  destruct (stem_of_name_without_pdf_is_name "/data/Doc.PDF" "/data" "Doc.PDF")
    as (_ & _ & H & _).
  - reflexivity.
  - intros a b E.
    assert (PyStr.contains ".pdf" "Doc.PDF" = true) as Hc
      by (apply contains_iff; eauto).
    vm_compute in Hc. discriminate.
  - refine (H Scenario.tools None Scenario.start "" ""
              (<["/data" := ["Doc.PDF-001.png"; "Doc.PDF-000.png"; "doc.pdf"]]>
                 Scenario.disk)
              ["Doc.PDF-001.png"; "Doc.PDF-000.png"; "doc.pdf"] _ _ _ _ _).
    + reflexivity.
    + eexists. vm_compute. reflexivity.
    + vm_compute. reflexivity.
    + eexists. vm_compute. reflexivity.
    + vm_compute. reflexivity.
Defined.

(** ** The collector (claim C8) *)

Lemma ends_with_char_append (c : ascii) (a b : string) :
  b ≠ "" → PyStr.ends_with_char c (a +:+ b) = PyStr.ends_with_char c b.
Proof.
  intros Hb. induction a as [|x a IH]; [done|].
  rewrite append_cons. cbn [PyStr.ends_with_char].
  destruct (a +:+ b) as [|y r] eqn:E; [|done].
  destruct a; [by rewrite append_nil_l in E|by rewrite append_cons in E].
Qed.

Lemma named_per_contract_ends_in_g (stem name : string) :
  named_per_contract stem name → PyStr.ends_with_char "g" name = true.
Proof.
  intros (d1 & d2 & d3 & suffix & -> & _).
  rewrite <- !append_assoc. by rewrite ends_with_char_append.
Qed.

Lemma selects_iff (file_prefix filename : string) :
  selects file_prefix filename = true
  ↔ ∃ d1 d2 d3 suffix rest,
      filename = file_prefix +:+ "-" +:+ String d1 (String d2 (String d3 ""))
                   +:+ suffix +:+ ".png" +:+ rest
      ∧ Re.is_digit d1 = true ∧ Re.is_digit d2 = true ∧ Re.is_digit d3 = true
      ∧ PyStr.contains nl suffix = false.
Proof.
  unfold selects, pattern_items. rewrite match_lits. split.
  - intros (r & -> & Hm). cbn [Re.match_items] in Hm.
    apply rep_once in Hm as (c & s1 & -> & Hc & Hm).
    cbn [Re.atom_ok] in Hc. apply Ascii.eqb_eq in Hc as <-.
    apply rep_three_digits in Hm as (d1 & d2 & d3 & s2 & -> & H1 & H2 & H3 & Hm).
    apply star_iff in Hm as (u & v & -> & Hu & Hk).
    apply (match_lits ".png" [] v) in Hk as (rest & -> & _).
    apply all_ok_no_newline in Hu. by exists d1, d2, d3, u, rest.
  - intros (d1 & d2 & d3 & u & rest & -> & H1 & H2 & H3 & Hu).
    exists (String "-" (String d1 (String d2 (String d3
              (u +:+ ".png" +:+ rest))))).
    split; [done|]. cbn [Re.match_items].
    apply rep_once. exists "-"%char, (String d1 (String d2 (String d3
              (u +:+ ".png" +:+ rest)))).
    split; [done|]. split; [done|].
    apply rep_three_digits. exists d1, d2, d3, (u +:+ ".png" +:+ rest).
    do 4 (split; [done|]).
    apply star_iff. exists u, (".png" +:+ rest).
    split; [done|]. split; [by apply all_ok_no_newline|].
    apply (match_lits ".png" [] (".png" +:+ rest)). by exists rest.
Qed.

(** C8, as the code has it.  The collector keeps exactly the entries that
    [re.match] accepts for the pattern of line 93, and the pattern is in
    the fragment for every prefix.  [re.match] anchors the pattern at the
    start of the name only, and [.] does not match a newline: an entry is
    kept if and only if it begins with the prefix taken literally, a
    hyphen, three decimal digits, any run of characters other than a
    newline, and ".png"; any text may follow the ".png".  A directory
    that cannot be listed gives the error of the operating system. *)
Theorem collector_keeps_prefix_matches (env : Env)
    (file_prefix directory : string) (s : State) :
  find_matching_files_in_dir env file_prefix directory s
  = match fs s !! PosixPath.abspath (cwd s) directory with
    | Some names => (Ok (List.filter (selects file_prefix) names), s)
    | None =>
        (Raise (os_error
                  (refused env (fs s) (PosixPath.abspath (cwd s) directory))
                  directory), s)
    end
  ∧ (∀ filename,
       Re.match_ (pattern file_prefix) filename
       = Some (selects file_prefix filename))
  ∧ ∀ filename,
      selects file_prefix filename = true
      ↔ ∃ d1 d2 d3 suffix rest,
          filename = file_prefix +:+ "-"
                       +:+ String d1 (String d2 (String d3 ""))
                       +:+ suffix +:+ ".png" +:+ rest
          ∧ Re.is_digit d1 = true ∧ Re.is_digit d2 = true
          ∧ Re.is_digit d3 = true
          ∧ PyStr.contains nl suffix = false.
Proof.
  split; [apply find_matching_files_in_dir_run|]. split.
  - intros filename. unfold Re.match_. by rewrite compile_pattern.
  - apply selects_iff.
Qed.

(** C8 read as a description of the whole name fails: an entry on which
    text follows the ".png" is kept although it does not end in ".png". *)
Lemma collector_keeps_name_with_text_after_png :
  find_matching_files_in_dir Scenario.tools "doc" "/work/scans" Scenario.start
  = (Ok ["doc-000.png.bak"], Scenario.start)
  ∧ ¬ named_per_contract "doc" "doc-000.png.bak".
Proof.
  split; [by vm_compute|].
  intros H%named_per_contract_ends_in_g. by vm_compute in H.
Qed.

(** ** The orientation detector (claims C4 and C5) *)

Lemma next_filter {A} (p : A → bool) (l : list A) :
  next (List.filter p l)
  = match List.find p l with
    | Some x => ret x
    | None => raise StopIteration
    end.
Proof.
  induction l as [|x l IH]; [done|]. cbn [List.filter List.find].
  by destruct (p x).
Qed.


Lemma find_Some_true {A} (p : A → bool) (l : list A) (x : A) :
  List.find p l = Some x → p x = true.
Proof.
  induction l as [|y l IH]; cbn [List.find]; [done|].
  destruct (p y) eqn:Hy; [by intros [= <-]|done].
Qed.

(** A line with "Rotate: " in it has a ": ", and the second field of its
    split is the text between the first ": " and the next one. *)
Lemma rotate_line_field (line : PyText.text) :
  has_rotate line = true →
  ∃ before after,
    PyText.cut (PyText.lit ": ") line = Some (before, after)
    ∧ PyText.split (PyText.lit ": ") line !! 1 = Some (up_to_separator after).
Proof.
  intros (a & b & ->)%text_contains_iff.
  destruct (PyText.cut (PyText.lit ": ") (a ++ PyText.lit "Rotate: " ++ b))
    as [[before after]|] eqn:Hc.
  - exists before, after. split; [done|].
    rewrite (text_split_cut (PyText.lit ": ") _ before after); [|done|done].
    change ((before :: PyText.split (PyText.lit ": ") after) !! 1)
      with (PyText.split (PyText.lit ": ") after !! 0).
    unfold up_to_separator.
    destruct (PyText.cut (PyText.lit ": ") after) as [[field r]|] eqn:Ha.
    + by rewrite (text_split_cut (PyText.lit ": ") _ field r).
    + by rewrite (text_split_no_cut _ _ Ha).
  - apply text_cut_None in Hc.
    assert (PyText.contains (PyText.lit ": ")
              (a ++ PyText.lit "Rotate: " ++ b) = true) as Ht.
    { apply text_contains_iff. exists (a ++ PyText.lit "Rotate"), b.
      by rewrite <- app_assoc. }
    congruence.
Qed.

Lemma get_rotate_run (env : Env) (image_filepath : string)
    (tess_params : list string) (s : State) :
  get_rotate env image_filepath tess_params s
  = let cmd := tess_command image_filepath tess_params in
    match spawn env cmd (cwd s) (fs s) with
    | NotStarted e => (Raise (exn_of_spawn_error e), s)
    | Exited rc raw err fs' =>
        let s1 := mkState (cwd s) fs' (events s ++ [Exec cmd (cwd s)]) in
        if negb (rc =? 0)%Z
        then (Raise (CalledProcessError rc cmd (Some raw) None), s1)
        else match Utf8.decode raw with
             | None =>
                 (Raise (OtherException "UnicodeDecodeError"
                           "'utf-8' codec can't decode the output"), s1)
             | Some text =>
                 match List.find has_rotate (lines text) with
                 | None => (Raise StopIteration, s1)
                 | Some line =>
                     match PyText.split (PyText.lit ": ") line !! 1 with
                     | Some field => (Ok (Utf8.encode field), s1)
                     | None =>
                         (Raise (IndexError "list index out of range"), s1)
                     end
                 end
             end
    end.
Proof.
  unfold get_rotate, tess_command, bind at 1, check_output, bind at 1,
    subprocess_run.
  destruct (spawn env _ _ _) as [rc raw err fs'|e]; [|done].
  cbn [andb]. destruct (rc =? 0)%Z; cbn [negb]; [|done].
  unfold ret at 1. cbn [cp_stdout from_option id]. unfold bind at 1, decode_utf8.
  destruct (Utf8.decode raw) as [text|]; [|done].
  cbn [ret]. unfold bind at 1. rewrite next_filter.
  fold has_rotate. fold (lines text).
  destruct (List.find _ _) as [line|]; [|done].
  cbn [ret]. unfold bind, index.
  by destruct (PyText.split (PyText.lit ": ") line !! 1).
Qed.

(** C4, as the code has it.  When tesseract exits with status 0 and its
    output is well-formed UTF-8, the text [text], [get_rotate] takes the
    first line of [text] that contains "Rotate: " and returns the second
    field of that line split at ": ": the text between the first ": " of
    the line and the next one, which is everything after the first ": "
    when the line has no other.  When that line is "Rotate: 90" the result
    is "90".  The text may hold any characters. *)
Theorem get_rotate_returns_second_field (env : Env)
    (image_filepath : string) (tess_params : list string) (s : State)
    (raw err : string) (text line : PyText.text)
    (fs' : gmap string (list string)) :
  spawn env (tess_command image_filepath tess_params) (cwd s) (fs s)
  = Exited 0 raw err fs' →
  Utf8.decode raw = Some text →
  List.find has_rotate (lines text) = Some line →
  ∃ before after,
    first_in_text (PyText.lit ": ") line before after
    ∧ get_rotate env image_filepath tess_params s
      = (Ok (Utf8.encode (up_to_separator after)),
         mkState (cwd s) fs'
           (events s ++ [Exec (tess_command image_filepath tess_params) (cwd s)]))
    ∧ (PyText.contains (PyText.lit ": ") after = false →
       up_to_separator after = after)
    ∧ (line = PyText.lit "Rotate: 90" →
       Utf8.encode (up_to_separator after) = "90").
Proof.
  intros Hspawn Hdec Hfind.
  destruct (rotate_line_field line (find_Some_true _ _ _ Hfind))
    as (before & after & Hcut & Hfield).
  exists before, after. split; [by apply text_cut_Some|]. split.
  - rewrite get_rotate_run. cbn zeta. by rewrite Hspawn, Hdec, Hfind, Hfield.
  - split.
    + intros Hno%text_cut_None. unfold up_to_separator. by rewrite Hno.
    + intros ->. by injection Hcut as <- <-.
Qed.

Lemma get_rotate_returns_second_field_witness :
  get_rotate (Scenario.tesseract_prints Scenario.euro_report) "/work/page.png"
    ["--psm"; "0"; "--oem"; "0"] Scenario.start
  = (Ok "90",
     mkState "/work" Scenario.disk
       [Exec ["tesseract"; "--psm"; "0"; "--oem"; "0"; "/work/page.png"; "-"]
          "/work"]).
Proof.
  destruct (get_rotate_returns_second_field
              (Scenario.tesseract_prints Scenario.euro_report) "/work/page.png"
              ["--psm"; "0"; "--oem"; "0"] Scenario.start
              Scenario.euro_report ""
              (PyText.lit "Rotate: 90" ++ [10; 8364; 32; 53; 10]%N)
              (PyText.lit "Rotate: 90") Scenario.disk)
    as (before & after & _ & Hrun & _ & H90).
  - reflexivity.
  - reflexivity.
  - reflexivity.
  - rewrite Hrun, H90; reflexivity.
Defined.

(** C4 as stated fails: on a line with a second ": " the result stops at
    it and is not the whole text after the first ": ". *)
Lemma get_rotate_stops_at_second_separator :
  (get_rotate (Scenario.tesseract_prints ("Rotate: 90: low confidence" +:+ nl))
     "/work/page.png" ["--psm"; "0"; "--oem"; "0"] Scenario.start).1
  = Ok "90"
  ∧ first_occurrence ": " "Rotate: 90: low confidence"
      "Rotate" "90: low confidence"
  ∧ "90" ≠ "90: low confidence".
Proof.
  split; [by vm_compute|]. split; [|done].
  apply cut_Some. reflexivity.
Qed.




(** ** The rotation applier (claim C9) *)

(** C9. The exit status of mogrify is not looked at: whatever status the
    tool exits with, [mogrify] returns normally, and so does
    [preprocess_img] once [get_rotate] has produced an angle. *)
Theorem mogrify_ignores_exit_status (env : Env)
    (image_filepath rotate : string) (s1 : State) (rc : Z)
    (out err : string) (fs' : gmap string (list string)) :
  spawn env (mogrify_command image_filepath rotate) (cwd s1) (fs s1)
  = Exited rc out err fs' →
  mogrify env image_filepath rotate s1
  = (Ok tt,
     mkState (cwd s1) fs'
       (events s1 ++ [Exec (mogrify_command image_filepath rotate) (cwd s1)]))
  ∧ ∀ tess_params s,
      get_rotate env image_filepath
        (default ["--psm"; "0"; "--oem"; "0"] tess_params) s
      = (Ok rotate, s1) →
      preprocess_img env image_filepath tess_params s
      = (Ok tt,
         mkState (cwd s1) fs'
           (events s1
              ++ [LogDebug ("Rotating " +:+ image_filepath +:+ " by "
                              +:+ rotate +:+ ".");
                  Exec (mogrify_command image_filepath rotate) (cwd s1)])).
Proof.
  intros Hspawn. unfold mogrify_command in *. split.
  - unfold mogrify, bind, subprocess_run. by rewrite Hspawn.
  - intros tess_params s Hrot.
    unfold preprocess_img, bind at 1. rewrite Hrot.
    unfold bind at 1, logger_debug, emit, mogrify, bind, subprocess_run.
    cbn [cwd fs events]. rewrite Hspawn. cbn [andb]. unfold ret.
    by rewrite <- app_assoc.
Qed.

Lemma mogrify_ignores_exit_status_witness :
  preprocess_img Scenario.tools "/work/page.png" None Scenario.start
  = (Ok tt,
     mkState "/work" Scenario.disk
       [Exec ["tesseract"; "--psm"; "0"; "--oem"; "0"; "/work/page.png"; "-"]
          "/work";
        LogDebug "Rotating /work/page.png by 90.";
        Exec ["mogrify"; "-rotate"; "90"; "/work/page.png"] "/work"]).
Proof.
  refine (proj2 (mogrify_ignores_exit_status Scenario.tools "/work/page.png"
                   "90"
                   (mkState "/work" Scenario.disk
                      [Exec ["tesseract"; "--psm"; "0"; "--oem"; "0";
                             "/work/page.png"; "-"] "/work"])
                   1 "" "mogrify: unable to open image" Scenario.disk _)
            None Scenario.start _).
  - reflexivity.
  - reflexivity.
Defined.

(** ** Failures of the rasterizer (claims C3 and C6) *)

Lemma pdfimages_try_spawned (env : Env)
    (pdf_filepath output_dir stem : string) (s : State) :
  cwd_gone env s = false →
  is_Some (fs s !! PosixPath.abspath (cwd s) output_dir) →
  pdfimages_try env pdf_filepath output_dir stem s
  = let W := PosixPath.abspath (cwd s) output_dir in
    let cmd := pdfimages_command pdf_filepath stem in
    match spawn env cmd W (fs s) with
    | NotStarted e =>
        leave_working_dir env s (Raise (exn_of_spawn_error e))
          (mkState W (fs s) (events s))
    | Exited rc out err fs' =>
        let s1 := mkState W fs' (events s ++ [Exec cmd W]) in
        if (rc =? 0)%Z
        then
          match leave_working_dir env s (Ok tt) s1 with
          | (Ok _, s2) =>
              (image_filenames <- find_matching_files_in_dir env stem
                                    output_dir ;;
               logger_debug ("Converted " +:+ pdf_filepath +:+ " into files:"
                               +:+ nl +:+ PyStr.join nl image_filenames) ;;;
               ret image_filenames) s2
          | (Raise e', s2) => (Raise e', s2)
          end
        else
          leave_working_dir env s
            (Raise (CalledProcessError rc cmd (Some out) (Some err))) s1
    end.
Proof.
  intros Hcwd [l0 Hl0]. unfold pdfimages_try, bind at 1.
  rewrite working_dir_run, Hcwd, Hl0.
  unfold subprocess_run, leave_working_dir. cbn [cwd fs events].
  destruct (spawn env _ _ _) as [rc out err fs'|e]; cbn [cwd fs events].
  - cbn [andb]. destruct (rc =? 0)%Z; cbn [negb cwd fs events].
    + destruct (fs' !! _); reflexivity.
    + destruct (fs' !! _); reflexivity.
  - destruct (fs s !! PosixPath.abspath
                        (PosixPath.abspath (cwd s) output_dir) (cwd s));
      reflexivity.
Qed.

(** The run of [pdfimages] when the rasterizer exits with a status other
    than 0. *)
Lemma pdfimages_exit_nonzero (env : Env) (pdf_filepath stem : string)
    (output_dir : option string) (s : State) (rc : Z) (out err : string)
    (fs' : gmap string (list string)) :
  let W := workdir s pdf_filepath output_dir in
  let cmd := pdfimages_command pdf_filepath stem in
  let cause := CalledProcessError rc cmd (Some out) (Some err) in
  let message :=
    "Error running pdfimages on " +:+ pdf_filepath +:+ ": "
      +:+ str_exn env cause in
  filename_sans_ext pdf_filepath = Some stem →
  cwd_gone env s = false →
  is_Some (fs s !! W) →
  spawn env cmd W (fs s) = Exited rc out err fs' →
  rc ≠ 0%Z →
  is_Some (fs' !! PosixPath.abspath W (cwd s)) →
  pdfimages env pdf_filepath output_dir s
  = (Raise (RuntimeError message cause),
     mkState (PosixPath.abspath W (cwd s)) fs'
       (events s
          ++ [Exec cmd W; LogError message]
          ++ (if String.eqb err "" then []
              else [LogErrorDecoded "pdfimages stderr: " err]))).
Proof.
  intros W cmd cause message Hstem Hcwd Hin Hspawn Hrc [l1 Hback].
  rewrite (pdfimages_with_stem env pdf_filepath stem)
    by (done || by apply resolution_succeeds).
  unfold try_except. rewrite pdfimages_try_spawned by done.
  cbn zeta. fold (workdir s pdf_filepath output_dir). fold W cmd.
  rewrite Hspawn. destruct (rc =? 0)%Z eqn:E; [by apply Z.eqb_eq in E|].
  unfold leave_working_dir. cbn [cwd fs events]. rewrite Hback.
  rewrite pdfimages_except_run. unfold add_events, failure_records.
  cbn [cwd fs events pdfimages_error_message]. fold cause message.
  f_equal. f_equal. rewrite <- app_assoc. cbn [app].
  by destruct (String.eqb err "").
Qed.

(** The run of [pdfimages] when the rasterizer cannot be started. *)
Lemma pdfimages_not_started (env : Env) (pdf_filepath stem : string)
    (output_dir : option string) (s : State) (e : spawn_error) :
  let W := workdir s pdf_filepath output_dir in
  let cause := exn_of_spawn_error e in
  let message := pdfimages_error_message env pdf_filepath cause in
  filename_sans_ext pdf_filepath = Some stem →
  cwd_gone env s = false →
  is_Some (fs s !! W) →
  spawn env (pdfimages_command pdf_filepath stem) W (fs s) = NotStarted e →
  is_Some (fs s !! PosixPath.abspath W (cwd s)) →
  pdfimages env pdf_filepath output_dir s
  = (Raise (RuntimeError message cause),
     mkState (PosixPath.abspath W (cwd s)) (fs s)
       (events s ++ [LogError message])).
Proof.
  intros W cause message Hstem Hcwd Hin Hspawn [l1 Hback].
  rewrite (pdfimages_with_stem env pdf_filepath stem)
    by (done || by apply resolution_succeeds).
  unfold try_except. rewrite pdfimages_try_spawned by done.
  cbn zeta. fold (workdir s pdf_filepath output_dir). fold W. rewrite Hspawn.
  unfold leave_working_dir. cbn [cwd fs events]. rewrite Hback.
  rewrite pdfimages_except_run. unfold add_events, failure_records.
  cbn [cwd fs events]. fold cause message. by destruct e.
Qed.

(** C3, as the code has it.  When the rasterizer exits with a non-zero
    status, [pdfimages] raises a [RuntimeError] whose message names the
    document and carries [str] of the [CalledProcessError], that is the
    command and the exit status; the captured stderr is not part of the
    message.  It is written to the log in a record of its own when it is
    not empty, and it stays available on the chained cause.  For the
    rasterizer to run at all, the working directory of the caller and the
    output directory must be there. *)
Theorem pdfimages_nonzero_exit (env : Env) (pdf_filepath stem : string)
    (output_dir : option string) (s : State) (rc : Z) (out err : string)
    (fs' : gmap string (list string)) :
  let W := workdir s pdf_filepath output_dir in
  let cmd := pdfimages_command pdf_filepath stem in
  let cause := CalledProcessError rc cmd (Some out) (Some err) in
  let message :=
    "Error running pdfimages on " +:+ pdf_filepath +:+ ": "
      +:+ str_exn env cause in
  filename_sans_ext pdf_filepath = Some stem →
  cwd_gone env s = false →
  is_Some (fs s !! W) →
  spawn env cmd W (fs s) = Exited rc out err fs' →
  rc ≠ 0%Z →
  is_Some (fs' !! PosixPath.abspath W (cwd s)) →
  pdfimages env pdf_filepath output_dir s
  = (Raise (RuntimeError message cause),
     mkState (PosixPath.abspath W (cwd s)) fs'
       (events s
          ++ [Exec cmd W; LogError message]
          ++ (if String.eqb err "" then []
              else [LogErrorDecoded "pdfimages stderr: " err])))
  ∧ ((0 < rc)%Z →
     str_exn env cause
     = "Command '" +:+ PyRepr.str_list cmd
         +:+ "' returned non-zero exit status " +:+ PyRepr.str_int rc +:+ ".").
Proof.
  intros W cmd cause message Hstem Hcwd Hin Hspawn Hrc Hback. split.
  - by apply pdfimages_exit_nonzero.
  - intros Hpos. unfold cause. cbn [str_exn].
    by destruct (Z.ltb_spec rc 0); [lia|].
Qed.

Lemma pdfimages_nonzero_exit_witness :
  pdfimages Scenario.broken_pdf "/data/doc.pdf" None Scenario.start
  = (Raise
       (RuntimeError
          "Error running pdfimages on /data/doc.pdf: Command '['pdfimages', '-png', '/data/doc.pdf', 'doc']' returned non-zero exit status 1."
          (CalledProcessError 1 ["pdfimages"; "-png"; "/data/doc.pdf"; "doc"]
             (Some "") (Some "Syntax Error: Couldn't read xref table"))),
     mkState "/work" Scenario.disk
       [Exec ["pdfimages"; "-png"; "/data/doc.pdf"; "doc"] "/data";
        LogError
          "Error running pdfimages on /data/doc.pdf: Command '['pdfimages', '-png', '/data/doc.pdf', 'doc']' returned non-zero exit status 1.";
        LogErrorDecoded "pdfimages stderr: "
          "Syntax Error: Couldn't read xref table"]).
Proof.
  refine (proj1 (pdfimages_nonzero_exit Scenario.broken_pdf "/data/doc.pdf"
                   "doc" None Scenario.start 1 ""
                   "Syntax Error: Couldn't read xref table" Scenario.disk
                   _ _ _ _ _ _)).
  - reflexivity.
  - reflexivity.
  - eexists. vm_compute. reflexivity.
  - reflexivity.
  - lia.
  - eexists. vm_compute. reflexivity.
Defined.

(** C3 as stated fails: the message of the [RuntimeError] is made of the
    document path, the command and the exit status, and the text that the
    tool wrote to stderr does not occur in it. *)
Lemma pdfimages_message_lacks_stderr :
  (pdfimages Scenario.broken_pdf "/data/doc.pdf" None Scenario.start).1
  = Raise
      (RuntimeError
         "Error running pdfimages on /data/doc.pdf: Command '['pdfimages', '-png', '/data/doc.pdf', 'doc']' returned non-zero exit status 1."
         (CalledProcessError 1 ["pdfimages"; "-png"; "/data/doc.pdf"; "doc"]
            (Some "") (Some "Syntax Error: Couldn't read xref table")))
  ∧ PyStr.contains "Syntax Error: Couldn't read xref table"
      "Error running pdfimages on /data/doc.pdf: Command '['pdfimages', '-png', '/data/doc.pdf', 'doc']' returned non-zero exit status 1."
    = false.
Proof. split; by vm_compute. Qed.

(** C6. Every failure of the invocation, that is every exception that the
    [try] statement of lines 56-86 meets, leaves [pdfimages] as a
    [RuntimeError] that carries one of three readable messages and has the
    original exception as its cause, after the message was logged; no such
    failure becomes a normal return.  In particular:
    - when the rasterizer exits with a status other than 0, the message is
      "Error running pdfimages on ..." and the cause the
      [CalledProcessError];
    - when the rasterizer is not on the system, the message is the
      "command not found. Make sure Poppler is installed" one and the cause
      the [FileNotFoundError] of the operating system;
    - when the rasterizer cannot be started for another reason, the message
      is "Unexpected error processing PDF ..." and the cause that error.
    Whatever [pdfimages] raises is such a [RuntimeError], with one
    exception that is not a failure of the invocation: line 53, before the
    [try] statement, raises the [FileNotFoundError] of [os.getcwd] when a
    relative output directory is to be resolved and the working directory
    has been removed. *)
Theorem pdfimages_wraps_every_failure (env : Env) (pdf_filepath : string)
    (output_dir : option string) (s : State) :
  let d := default (PosixPath.split pdf_filepath).1 output_dir in
  let W := workdir s pdf_filepath output_dir in
  let back := PosixPath.abspath W (cwd s) in
  (∀ stem cause s0,
     filename_sans_ext pdf_filepath = Some stem →
     resolution_fails env s d = false →
     pdfimages_try env pdf_filepath
       (resolved_output_dir s pdf_filepath output_dir) stem s
     = (Raise cause, s0) →
     pdfimages env pdf_filepath output_dir s
     = (Raise (RuntimeError
                 (pdfimages_error_message env pdf_filepath cause) cause),
        add_events s0 (failure_records env pdf_filepath cause)))
  ∧ (∀ e s',
       pdfimages env pdf_filepath output_dir s = (Raise e, s') →
       (∃ stem cause s0,
          filename_sans_ext pdf_filepath = Some stem
          ∧ pdfimages_try env pdf_filepath
              (resolved_output_dir s pdf_filepath output_dir) stem s
            = (Raise cause, s0)
          ∧ e = RuntimeError
                  (pdfimages_error_message env pdf_filepath cause) cause
          ∧ LogError (pdfimages_error_message env pdf_filepath cause)
            ∈ events s')
       ∨ (resolution_fails env s d = true ∧ e = getcwd_error ∧ s' = s))
  ∧ (∀ stem rc out err fs',
       let cmd := pdfimages_command pdf_filepath stem in
       let cause := CalledProcessError rc cmd (Some out) (Some err) in
       let message :=
         "Error running pdfimages on " +:+ pdf_filepath +:+ ": "
           +:+ str_exn env cause in
       filename_sans_ext pdf_filepath = Some stem →
       cwd_gone env s = false →
       is_Some (fs s !! W) →
       spawn env cmd W (fs s) = Exited rc out err fs' →
       rc ≠ 0%Z →
       is_Some (fs' !! back) →
       pdfimages env pdf_filepath output_dir s
       = (Raise (RuntimeError message cause),
          mkState back fs'
            (events s
               ++ [Exec cmd W; LogError message]
               ++ (if String.eqb err "" then []
                   else [LogErrorDecoded "pdfimages stderr: " err]))))
  ∧ (∀ stem msg,
       let message :=
         "pdfimages command not found. Make sure Poppler is installed: "
           +:+ msg in
       filename_sans_ext pdf_filepath = Some stem →
       cwd_gone env s = false →
       is_Some (fs s !! W) →
       spawn env (pdfimages_command pdf_filepath stem) W (fs s)
       = NotStarted (NoSuchProgram msg) →
       is_Some (fs s !! back) →
       pdfimages env pdf_filepath output_dir s
       = (Raise (RuntimeError message (FileNotFoundError msg)),
          mkState back (fs s) (events s ++ [LogError message])))
  ∧ (∀ stem cls msg,
       let message :=
         "Unexpected error processing PDF " +:+ pdf_filepath +:+ ": "
           +:+ msg in
       filename_sans_ext pdf_filepath = Some stem →
       cwd_gone env s = false →
       is_Some (fs s !! W) →
       spawn env (pdfimages_command pdf_filepath stem) W (fs s)
       = NotStarted (SpawnFailure cls msg) →
       is_Some (fs s !! back) →
       pdfimages env pdf_filepath output_dir s
       = (Raise (RuntimeError message (OtherException cls msg)),
          mkState back (fs s) (events s ++ [LogError message])))
  ∧ (∀ rc cmd out err,
       pdfimages_error_message env pdf_filepath
         (CalledProcessError rc cmd out err)
       = "Error running pdfimages on " +:+ pdf_filepath +:+ ": "
           +:+ str_exn env (CalledProcessError rc cmd out err))
  ∧ (∀ msg,
       pdfimages_error_message env pdf_filepath (FileNotFoundError msg)
       = "pdfimages command not found. Make sure Poppler is installed: "
           +:+ msg)
  ∧ (∀ cls msg,
       pdfimages_error_message env pdf_filepath (OtherException cls msg)
       = "Unexpected error processing PDF " +:+ pdf_filepath +:+ ": " +:+ msg).
Proof.
  intros d W back.
  split; [|split; [|split; [|split; [|split; [|done]]]]].
  - intros stem cause s0 Hstem Hres Htry.
    destruct (pdfimages_run env pdf_filepath output_dir s) as (stem' & Hstem' & ->).
    assert (stem' = stem) as -> by congruence. fold d. by rewrite Hres, Htry.
  - intros e s' Hrun.
    destruct (pdfimages_run env pdf_filepath output_dir s) as (stem & Hstem & Heq).
    rewrite Heq in Hrun. fold d in Hrun.
    destruct (resolution_fails env s d) eqn:Hres.
    { injection Hrun as <- <-. by right. }
    destruct (pdfimages_try _ _ _ _ _) as [[names|cause] s0] eqn:Htry; [done|].
    injection Hrun as <- <-. left. exists stem, cause, s0.
    do 3 (split; [done|]).
    unfold add_events, failure_records. cbn [events].
    apply elem_of_app. right. apply list_elem_of_here.
  - intros stem rc out err fs' cmd cause message.
    by apply pdfimages_exit_nonzero.
  - intros stem msg message Hstem Hcwd Hin Hspawn Hback.
    by rewrite (pdfimages_not_started env pdf_filepath stem output_dir s
                  (NoSuchProgram msg)).
  - intros stem cls msg message Hstem Hcwd Hin Hspawn Hback.
    by rewrite (pdfimages_not_started env pdf_filepath stem output_dir s
                  (SpawnFailure cls msg)).
Qed.

Lemma pdfimages_wraps_every_failure_witness :
  pdfimages Scenario.broken_pdf "/data/doc.pdf" (Some "out") Scenario.start
  = (Raise
       (RuntimeError
          "Error running pdfimages on /data/doc.pdf: Command '['pdfimages', '-png', '/data/doc.pdf', 'doc']' returned non-zero exit status 1."
          (CalledProcessError 1 ["pdfimages"; "-png"; "/data/doc.pdf"; "doc"]
             (Some "") (Some "Syntax Error: Couldn't read xref table"))),
     mkState "/work" Scenario.disk
       [Exec ["pdfimages"; "-png"; "/data/doc.pdf"; "doc"] "/work/out";
        LogError
          "Error running pdfimages on /data/doc.pdf: Command '['pdfimages', '-png', '/data/doc.pdf', 'doc']' returned non-zero exit status 1.";
        LogErrorDecoded "pdfimages stderr: "
          "Syntax Error: Couldn't read xref table"])
  ∧ pdfimages Scenario.no_poppler "/data/doc.pdf" (Some "out") Scenario.start
    = (Raise
         (RuntimeError
            "pdfimages command not found. Make sure Poppler is installed: [Errno 2] No such file or directory: 'pdfimages'"
            (FileNotFoundError
               "[Errno 2] No such file or directory: 'pdfimages'")),
       mkState "/work" Scenario.disk
         [LogError
            "pdfimages command not found. Make sure Poppler is installed: [Errno 2] No such file or directory: 'pdfimages'"])
  ∧ pdfimages Scenario.locked_poppler "/data/doc.pdf" (Some "out")
      Scenario.start
    = (Raise
         (RuntimeError
            "Unexpected error processing PDF /data/doc.pdf: [Errno 13] Permission denied: 'pdfimages'"
            (OtherException "PermissionError"
               "[Errno 13] Permission denied: 'pdfimages'")),
       mkState "/work" Scenario.disk
         [LogError
            "Unexpected error processing PDF /data/doc.pdf: [Errno 13] Permission denied: 'pdfimages'"]).
Proof.
  split; [|split].
  - refine (proj1 (proj2 (proj2
              (pdfimages_wraps_every_failure Scenario.broken_pdf
                 "/data/doc.pdf" (Some "out") Scenario.start)))
              "doc" 1%Z "" "Syntax Error: Couldn't read xref table"
              Scenario.disk _ _ _ _ _ _).
    + reflexivity.
    + reflexivity.
    + eexists. vm_compute. reflexivity.
    + reflexivity.
    + lia.
    + eexists. vm_compute. reflexivity.
  - refine (proj1 (proj2 (proj2 (proj2
              (pdfimages_wraps_every_failure Scenario.no_poppler
                 "/data/doc.pdf" (Some "out") Scenario.start))))
              "doc" "[Errno 2] No such file or directory: 'pdfimages'"
              _ _ _ _ _).
    + reflexivity.
    + reflexivity.
    + eexists. vm_compute. reflexivity.
    + reflexivity.
    + eexists. vm_compute. reflexivity.
  - refine (proj1 (proj2 (proj2 (proj2 (proj2
              (pdfimages_wraps_every_failure Scenario.locked_poppler
                 "/data/doc.pdf" (Some "out") Scenario.start)))))
              "doc" "PermissionError"
              "[Errno 13] Permission denied: 'pdfimages'" _ _ _ _ _).
    + reflexivity.
    + reflexivity.
    + eexists. vm_compute. reflexivity.
    + reflexivity.
    + eexists. vm_compute. reflexivity.
Defined.

(** ** The result of [pdf_to_images] (claims C1 and C2) *)

Lemma filter_Permutation_bool {A} (p : A → bool) (l1 l2 : list A) :
  l1 ≡ₚ l2 → List.filter p l1 ≡ₚ List.filter p l2.
Proof.
  induction 1 as [|x l1 l2 _ IH|x y l|l1 l2 l3 _ IH1 _ IH2]; cbn [List.filter].
  - done.
  - destruct (p x); by rewrite IH.
  - destruct (p x), (p y); try done. apply perm_swap.
  - by etrans.
Qed.

Lemma sorted_Sorted (l : list string) : Sorted String.le (sorted l).
Proof. apply (Sorted_merge_sort String.le). Qed.

Lemma sorted_Permutation (l : list string) : sorted l ≡ₚ l.
Proof. apply (merge_sort_Permutation String.le). Qed.

(** [sorted] depends on the entries only, not on the order they come in. *)
Lemma sorted_of_Permutation (l1 l2 : list string) :
  l1 ≡ₚ l2 → sorted l1 = sorted l2.
Proof.
  intros Hp. apply (Sorted_unique String.le); [apply sorted_Sorted..|].
  by rewrite !sorted_Permutation.
Qed.

Lemma sorted_unique (l l' : list string) :
  Sorted String.le l' → l' ≡ₚ l → l' = sorted l.
Proof.
  intros Hs Hp. apply (Sorted_unique String.le); [done|apply sorted_Sorted|].
  by rewrite sorted_Permutation.
Qed.

(** A successful call returns the sorted list of the kept entries of the
    output directory, each joined to the target directory. *)
Lemma pdf_to_images_Ok (env : Env) (pdf_filepath : string)
    (output_dir : option string) (s s' : State) (l : list string) :
  pdf_to_images env pdf_filepath output_dir s = (Ok l, s') →
  let pdf := resolved_pdf s pdf_filepath in
  let target := target_dir s pdf_filepath output_dir in
  let out := resolved_output_dir s pdf (Some target) in
  ∃ stem listing,
    filename_sans_ext pdf = Some stem
    ∧ cwd s' = PosixPath.abspath (PosixPath.abspath (cwd s) out) (cwd s)
    ∧ fs s' !! PosixPath.abspath (cwd s') out = Some listing
    ∧ l = sorted (PosixPath.join target <$> List.filter (selects stem) listing).
Proof.
  rewrite pdf_to_images_run. cbn zeta.
  destruct (resolution_fails env s pdf_filepath); [done|].
  destruct (pdfimages _ _ _ _) as [[names|e] s0] eqn:Hrun; [|done].
  intros [= <- <-].
  apply pdfimages_Ok in Hrun as (stem & Hstem & Htry).
  apply pdfimages_try_Ok in Htry as (o & e & listing & _ & Hcwd & Hl & -> & _).
  by exists stem, listing.
Qed.

(** C2. The list a successful call returns is sorted by the order of [str]
    on the full joined paths, and a second successful call with the same
    arguments from the same working directory returns the same list
    whenever the directories hold the same entries after it as after the
    first, in whatever order the operating system lists them. *)
Theorem pdf_to_images_sorted_and_stable (env1 env2 : Env)
    (pdf_filepath : string) (output_dir : option string)
    (s1 s1' s2 s2' : State) (l1 l2 : list string) :
  pdf_to_images env1 pdf_filepath output_dir s1 = (Ok l1, s1') →
  pdf_to_images env2 pdf_filepath output_dir s2 = (Ok l2, s2') →
  cwd s1 = cwd s2 →
  same_entries (fs s1') (fs s2') →
  Sorted String.le l1 ∧ l2 = l1.
Proof.
  intros H1 H2 Hcwd Hsame.
  apply pdf_to_images_Ok in H1 as (stem1 & listing1 & Hst1 & Hc1 & Hl1 & ->).
  apply pdf_to_images_Ok in H2 as (stem2 & listing2 & Hst2 & Hc2 & Hl2 & ->).
  split; [apply sorted_Sorted|].
  unfold target_dir, resolved_output_dir, resolved_pdf in *.
  rewrite <- Hcwd in *. rewrite <- Hc1 in Hc2. rewrite Hc2 in Hl2.
  assert (stem2 = stem1) as -> by congruence.
  apply sorted_of_Permutation, fmap_Permutation, filter_Permutation_bool.
  symmetry. by eapply Hsame.
Qed.

Lemma pdf_to_images_sorted_and_stable_witness :
  Sorted String.le ["out/doc-000.png"; "out/doc-001.png"]
  ∧ (pdf_to_images Scenario.tools "/data/doc.pdf" (Some "out")
       (pdf_to_images Scenario.tools "/data/doc.pdf" (Some "out")
          Scenario.start).2).1
    = Ok ["out/doc-000.png"; "out/doc-001.png"].
Proof.
  pose (first := pdf_to_images Scenario.tools "/data/doc.pdf" (Some "out")
                   Scenario.start).
  pose (second := pdf_to_images Scenario.tools "/data/doc.pdf" (Some "out")
                    first.2).
  assert (fs second.2 = fs first.2) as Hfs by (vm_compute; reflexivity).
  destruct (pdf_to_images_sorted_and_stable Scenario.tools Scenario.tools
              "/data/doc.pdf" (Some "out")
              Scenario.start first.2 first.2 second.2
              ["out/doc-000.png"; "out/doc-001.png"]
              (match second.1 with Ok l => l | Raise _ => [] end))
    as [Hsorted Heq].
  - vm_compute. reflexivity.
  - vm_compute. reflexivity.
  - vm_compute. reflexivity.
  - intros d l1 l2 Hl1 Hl2. rewrite Hfs, Hl1 in Hl2. by injection Hl2 as ->.
  - split; [exact Hsorted|]. fold first second.
    transitivity (Ok (A := list string)
                    (match second.1 with Ok l => l | Raise _ => [] end)).
    + vm_compute. reflexivity.
    + by rewrite Heq.
Defined.

(** The operating system may list the pages in another order on the second
    call; the result is the same. *)
Example sorted_forgets_listing_order :
  sorted (PosixPath.join "/work/out" <$> ["doc-001.png"; "doc-000.png"])
  = sorted (PosixPath.join "/work/out" <$> ["doc-000.png"; "doc-001.png"]).
Proof. by vm_compute. Qed.

(** *** Absolute paths *)

Lemma isabs_cons (s : string) :
  PosixPath.isabs s = true ↔ ∃ r, s = String "/" r.
Proof.
  unfold PosixPath.isabs. rewrite startswith_iff. split; intros [r ->]; by exists r.
Qed.

Lemma normpath_isabs (p : string) :
  PosixPath.isabs p = true → PosixPath.isabs (PosixPath.normpath p) = true.
Proof.
  intros [r ->]%isabs_cons. unfold PosixPath.normpath.
  change (String.eqb (String "/" r) "") with false.
  change (PyStr.startswith "/" (String "/" r)) with true. cbv iota zeta.
  destruct (PyStr.startswith "//" (String "/" r)
            && negb (PyStr.startswith "///" (String "/" r))); reflexivity.
Qed.

Lemma join_isabs (d f : string) :
  PosixPath.isabs d = true → PosixPath.isabs (PosixPath.join d f) = true.
Proof.
  intros Hd. unfold PosixPath.join.
  destruct (PyStr.startswith "/" f) eqn:Hf; [done|].
  apply isabs_cons in Hd as [r ->].
  by destruct (String.eqb _ _ || PyStr.ends_with_char _ _).
Qed.

Lemma abspath_isabs (d p : string) :
  PosixPath.isabs d = true → PosixPath.isabs (PosixPath.abspath d p) = true.
Proof.
  intros Hd. unfold PosixPath.abspath. apply normpath_isabs.
  destruct (PosixPath.isabs p) eqn:Hp; [done|]. by apply join_isabs.
Qed.

Lemma split_isabs (p : string) :
  PosixPath.isabs p = true → PosixPath.isabs (PosixPath.split p).1 = true.
Proof.
  intros [r ->]%isabs_cons. unfold PosixPath.split.
  cbn [PyStr.rsplit_after]. destruct (PyStr.rsplit_after "/" r) as [h t].
  destruct (negb (String.eqb h "")); cbn [Ascii.eqb Bool.eqb fst].
  - cbn [String.eqb negb andb PyStr.rstrip].
    by destruct (PyStr.all_char "/" (String "/" h)).
  - done.
Qed.

(** X1. Without an override, or with an absolute one, every path that
    [pdf_to_images] returns is absolute, whether the path of the document
    was given in absolute or in relative form. *)
Lemma pdf_to_images_absolute (env : Env) (pdf_filepath : string)
    (output_dir : option string) (s s' : State) (l : list string) :
  PosixPath.isabs (cwd s) = true →
  (∀ d, output_dir = Some d → PosixPath.isabs d = true) →
  pdf_to_images env pdf_filepath output_dir s = (Ok l, s') →
  Forall (λ p, PosixPath.isabs p = true) l.
Proof.
  intros Hcwd Hod Hrun.
  apply pdf_to_images_Ok in Hrun as (stem & listing & _ & _ & _ & ->).
  rewrite sorted_Permutation. apply Forall_fmap, Forall_forall.
  intros f _. cbn. apply join_isabs. unfold target_dir.
  destruct output_dir as [d|]; cbn [default from_option id]; [by apply Hod|].
  apply split_isabs. unfold resolved_pdf.
  destruct (PosixPath.isabs pdf_filepath) eqn:Hp; [done|].
  by apply abspath_isabs.
Qed.

Lemma join_relative (d f : string) :
  PosixPath.isabs d = false → PosixPath.isabs f = false →
  PosixPath.isabs (PosixPath.join d f) = false.
Proof.
  unfold PosixPath.isabs, PosixPath.join. intros Hd Hf. rewrite Hf.
  destruct d as [|c d]; [done|].
  destruct (String.eqb _ _ || PyStr.ends_with_char _ _);
    rewrite !append_cons; exact Hd.
Qed.

(** With a relative override every returned path is relative, as long as
    the directory entries are plain names. *)
Lemma pdf_to_images_relative (env : Env) (pdf_filepath d : string)
    (s s' : State) (l : list string) :
  PosixPath.isabs d = false →
  (∀ dir names, fs s' !! dir = Some names →
     Forall (λ f, PosixPath.isabs f = false) names) →
  pdf_to_images env pdf_filepath (Some d) s = (Ok l, s') →
  Forall (λ p, PosixPath.isabs p = false) l.
Proof.
  intros Hd Hnames Hrun.
  apply pdf_to_images_Ok in Hrun as (stem & listing & _ & _ & Hl & ->).
  rewrite sorted_Permutation. apply Forall_fmap, Forall_forall.
  intros f Hf. cbn. apply join_relative; [done|].
  apply Hnames in Hl. rewrite Forall_forall in Hl. apply Hl.
  apply list_elem_of_In in Hf. apply filter_In in Hf as [Hf _].
  by apply list_elem_of_In.
Qed.

(** C1 fails on the code.  With the relative override "out", the pages are
    written to and collected from the resolved directory /work/out, but the
    returned paths are joined to the override as it was passed in and are
    relative.  Without an override the same call returns absolute paths. *)
Theorem pdf_to_images_relative_override :
  (pdf_to_images Scenario.tools "/data/doc.pdf" (Some "out") Scenario.start).1
  = Ok ["out/doc-000.png"; "out/doc-001.png"]
  ∧ PosixPath.isabs "out/doc-000.png" = false
  ∧ PosixPath.isabs "out/doc-001.png" = false
  ∧ events (pdf_to_images Scenario.tools "/data/doc.pdf" (Some "out")
              Scenario.start).2
    = [Exec ["pdfimages"; "-png"; "/data/doc.pdf"; "doc"] "/work/out";
       LogDebug ("Converted /data/doc.pdf into files:" +:+ nl
                   +:+ "doc-001.png" +:+ nl +:+ "doc-000.png")]
  ∧ (pdf_to_images Scenario.tools "/data/doc.pdf" None Scenario.start).1
    = Ok ["/data/doc-000.png"; "/data/doc-001.png"].
Proof. repeat split; by vm_compute. Qed.

(** * Further properties of the module *)

(** ** Runs of [pdfimages] and [pdf_to_images] *)

Lemma pdfimages_try_no_dir (env : Env) (pdf_filepath output_dir stem : string)
    (s : State) :
  cwd_gone env s = false →
  fs s !! PosixPath.abspath (cwd s) output_dir = None →
  pdfimages_try env pdf_filepath output_dir stem s
  = match leave_working_dir env s (Ok tt) s with
    | (Ok _, s') =>
        (Raise (os_error
                  (refused env (fs s) (PosixPath.abspath (cwd s) output_dir))
                  output_dir), s')
    | (Raise e, s') => (Raise e, s')
    end.
Proof.
  intros Hcwd Hno. unfold pdfimages_try, bind at 1.
  rewrite working_dir_run, Hcwd, Hno. unfold leave_working_dir. cbn zeta.
  by destruct (fs s !! PosixPath.abspath (cwd s) (cwd s)).
Qed.

(** What a run of the [try] body adds to the trace, whatever its outcome:
    nothing, the start of the rasterizer, or that and the debug record. *)
Lemma pdfimages_try_events (env : Env) (pdf_filepath output_dir stem : string)
    (s s' : State) (r : result (list string)) :
  pdfimages_try env pdf_filepath output_dir stem s = (r, s') →
  ∃ evs,
    events s' = events s ++ evs
    ∧ (evs = []
       ∨ evs = [Exec (pdfimages_command pdf_filepath stem)
                  (PosixPath.abspath (cwd s) output_dir)]
       ∨ ∃ m, evs = [Exec (pdfimages_command pdf_filepath stem)
                       (PosixPath.abspath (cwd s) output_dir);
                     LogDebug m]).
Proof.
  destruct (cwd_gone env s) eqn:Hcwd.
  { unfold pdfimages_try, bind at 1. rewrite working_dir_run, Hcwd.
    intros [= <- <-]. exists []. by rewrite app_nil_r; auto. }
  destruct (fs s !! PosixPath.abspath (cwd s) output_dir) as [l0|] eqn:Hdir.
  - rewrite pdfimages_try_spawned by done. cbn zeta.
    destruct (spawn env _ _ _) as [rc out err fs'|e].
    + destruct (rc =? 0)%Z; unfold leave_working_dir; cbn [cwd fs events];
        destruct (fs' !! PosixPath.abspath _ (cwd s)) as [l1|].
      * unfold bind at 1. rewrite find_matching_files_in_dir_run.
        cbn [cwd fs events].
        destruct (fs' !! PosixPath.abspath _ output_dir) as [listing|].
        -- unfold bind, logger_debug, emit, ret. cbn [cwd fs events].
           intros [= <- <-]. eexists. cbn [events]. rewrite <- app_assoc.
           split; [done|]. right. right. by eexists.
        -- intros [= <- <-]. eexists. split; [done|]. right. by left.
      * intros [= <- <-]. eexists. split; [done|]. right. by left.
      * intros [= <- <-]. eexists. split; [done|]. right. by left.
      * intros [= <- <-]. eexists. split; [done|]. right. by left.
    + unfold leave_working_dir. cbn [cwd fs events].
      destruct (fs s !! PosixPath.abspath _ (cwd s));
        intros [= <- <-]; exists []; by rewrite app_nil_r; auto.
  - rewrite pdfimages_try_no_dir by done. unfold leave_working_dir. cbn zeta.
    destruct (fs s !! PosixPath.abspath (cwd s) (cwd s));
      intros [= <- <-]; exists []; by rewrite app_nil_r; auto.
Qed.

Lemma filter_nothing {A} (p : A → bool) (l : list A) :
  Forall (λ x, p x = false) l → List.filter p l = [].
Proof.
  induction 1 as [|x l Hx _ IH]; [done|]. cbn [List.filter]. by rewrite Hx.
Qed.

(** X3. When the working directory of the caller and the output directory
    exist, the rasterizer exits with status 0 and the way back to the
    original directory exists, [pdf_to_images] returns the sorted list of
    the kept entries of the output directory, each joined to the target
    directory, after one start of the rasterizer and one debug record; when
    no entry is kept the result is the empty list and not an error. *)
Theorem pdf_to_images_succeeds (env : Env) (pdf_filepath stem : string)
    (output_dir : option string) (s : State) (out err : string)
    (fs' : gmap string (list string)) (listing : list string) :
  let pdf := resolved_pdf s pdf_filepath in
  let target := target_dir s pdf_filepath output_dir in
  let W := workdir s pdf (Some target) in
  let back := PosixPath.abspath W (cwd s) in
  let names := List.filter (selects stem) listing in
  filename_sans_ext pdf = Some stem →
  cwd_gone env s = false →
  is_Some (fs s !! W) →
  spawn env (pdfimages_command pdf stem) W (fs s) = Exited 0 out err fs' →
  is_Some (fs' !! back) →
  fs' !! PosixPath.abspath back (resolved_output_dir s pdf (Some target))
  = Some listing →
  pdf_to_images env pdf_filepath output_dir s
  = (Ok (sorted (PosixPath.join target <$> names)),
     mkState back fs'
       (events s
          ++ [Exec (pdfimages_command pdf stem) W;
              LogDebug ("Converted " +:+ pdf +:+ " into files:" +:+ nl
                          +:+ PyStr.join nl names)]))
  ∧ (Forall (λ name, selects stem name = false) listing →
     sorted (PosixPath.join target <$> names) = []).
Proof.
  intros pdf target W back names Hstem Hcwd Hin Hspawn Hback Hlist. split.
  - rewrite pdf_to_images_run, resolution_succeeds by done. fold pdf target.
    by rewrite (pdfimages_succeeds env pdf stem (Some target) s out err fs'
                  listing).
  - intros Hnone. unfold names.
    by rewrite filter_nothing.
Qed.

Lemma pdf_to_images_succeeds_witness :
  pdf_to_images Scenario.tools "../data/doc.pdf" None Scenario.start
  = (Ok ["/data/doc-000.png"; "/data/doc-001.png"],
     mkState "/work"
       (<["/data" := ["doc-001.png"; "doc-000.png"; "doc.pdf"]]> Scenario.disk)
       [Exec ["pdfimages"; "-png"; "/data/doc.pdf"; "doc"] "/data";
        LogDebug ("Converted /data/doc.pdf into files:" +:+ nl
                    +:+ "doc-001.png" +:+ nl +:+ "doc-000.png")]).
Proof.
  refine (proj1 (pdf_to_images_succeeds Scenario.tools "../data/doc.pdf" "doc"
                   None Scenario.start "" ""
                   (<["/data" := ["doc-001.png"; "doc-000.png"; "doc.pdf"]]>
                      Scenario.disk)
                   ["doc-001.png"; "doc-000.png"; "doc.pdf"] _ _ _ _ _ _)).
  - reflexivity.
  - reflexivity.
  - eexists. vm_compute. reflexivity.
  - vm_compute. reflexivity.
  - eexists. vm_compute. reflexivity.
  - vm_compute. reflexivity.
Defined.

(** X4. [pdfimages] returns normally only when the rasterizer was started
    once and exited with status 0.  It then returns the kept entries of the
    output directory in the order of the listing, not sorted, has logged
    them in one debug record, and has returned to the directory it was
    called from. *)
Theorem pdfimages_returns_kept_entries (env : Env) (pdf_filepath : string)
    (output_dir : option string) (s s' : State) (names : list string) :
  pdfimages env pdf_filepath output_dir s = (Ok names, s') →
  ∃ stem out err listing,
    filename_sans_ext pdf_filepath = Some stem
    ∧ spawn env (pdfimages_command pdf_filepath stem)
        (workdir s pdf_filepath output_dir) (fs s)
      = Exited 0 out err (fs s')
    ∧ cwd s' = PosixPath.abspath (workdir s pdf_filepath output_dir) (cwd s)
    ∧ fs s' !! PosixPath.abspath (cwd s')
                 (resolved_output_dir s pdf_filepath output_dir)
      = Some listing
    ∧ names = List.filter (selects stem) listing
    ∧ sublist names listing
    ∧ events s'
      = events s
        ++ [Exec (pdfimages_command pdf_filepath stem)
              (workdir s pdf_filepath output_dir);
            LogDebug ("Converted " +:+ pdf_filepath +:+ " into files:" +:+ nl
                        +:+ PyStr.join nl names)].
Proof.
  intros Hrun. apply pdfimages_Ok in Hrun as (stem & Hstem & Hrun).
  apply pdfimages_try_Ok in Hrun
    as (out & err & listing & Hspawn & Hcwd & Hl & -> & Hev).
  exists stem, out, err, listing. do 5 (split; [done|]). split; [|done].
  clear. induction listing as [|x l IH]; cbn [List.filter]; [done|].
  destruct (selects stem x); by constructor.
Qed.

Lemma pdfimages_returns_kept_entries_witness :
  ∃ stem out err listing,
    filename_sans_ext "/data/doc.pdf" = Some stem
    ∧ spawn Scenario.tools (pdfimages_command "/data/doc.pdf" stem)
        (workdir Scenario.start "/data/doc.pdf" (Some "out"))
        (fs Scenario.start)
      = Exited 0 out err
          (<["/work/out" := ["doc-001.png"; "doc-000.png"; "notes.txt"]]>
             Scenario.disk)
    ∧ ["doc-001.png"; "doc-000.png"] = List.filter (selects stem) listing
    ∧ sublist ["doc-001.png"; "doc-000.png"] listing.
Proof.
  destruct (pdfimages_returns_kept_entries Scenario.tools "/data/doc.pdf"
              (Some "out") Scenario.start
              (mkState "/work"
                 (<["/work/out" := ["doc-001.png"; "doc-000.png"; "notes.txt"]]>
                    Scenario.disk)
                 [Exec ["pdfimages"; "-png"; "/data/doc.pdf"; "doc"] "/work/out";
                  LogDebug ("Converted /data/doc.pdf into files:" +:+ nl
                              +:+ "doc-001.png" +:+ nl +:+ "doc-000.png")])
              ["doc-001.png"; "doc-000.png"])
    as (stem & out & err & listing & H1 & H2 & _ & _ & H3 & H4 & _).
  - vm_compute. reflexivity.
  - exists stem, out, err, listing. exact (conj H1 (conj H2 (conj H3 H4))).
Defined.

(** X5. When the output directory cannot be entered, the rasterizer is
    never started, and the error of the operating system is reported by
    the [except] clause of its class.  When nothing is at the path, the
    error is a [FileNotFoundError] and the message is the one written for
    a missing rasterizer, "pdfimages command not found. Make sure Poppler is
    installed"; when a file that is not a directory is there, or the
    process may not enter the directory, the message is "Unexpected error
    processing PDF ...". *)
Theorem pdfimages_output_dir_refused (env : Env) (pdf_filepath : string)
    (output_dir : option string) (s : State) :
  let out := resolved_output_dir s pdf_filepath output_dir in
  let W := workdir s pdf_filepath output_dir in
  let cause := os_error (refused env (fs s) W) out in
  let message := pdfimages_error_message env pdf_filepath cause in
  cwd_gone env s = false →
  fs s !! W = None →
  is_Some (fs s !! PosixPath.abspath (cwd s) (cwd s)) →
  pdfimages env pdf_filepath output_dir s
  = (Raise (RuntimeError message cause),
     mkState (PosixPath.abspath (cwd s) (cwd s)) (fs s)
       (events s ++ [LogError message]))
  ∧ (refused env (fs s) W = NoEntry →
     cause = FileNotFoundError
               ("[Errno 2] No such file or directory: " +:+ PyRepr.repr out)
     ∧ message
       = "pdfimages command not found. Make sure Poppler is installed: "
           +:+ "[Errno 2] No such file or directory: " +:+ PyRepr.repr out)
  ∧ (refused env (fs s) W = NotDirectory →
     cause = OtherException "NotADirectoryError"
               ("[Errno 20] Not a directory: " +:+ PyRepr.repr out)
     ∧ message
       = "Unexpected error processing PDF " +:+ pdf_filepath +:+ ": "
           +:+ "[Errno 20] Not a directory: " +:+ PyRepr.repr out)
  ∧ (refused env (fs s) W = NoPermission →
     cause = OtherException "PermissionError"
               ("[Errno 13] Permission denied: " +:+ PyRepr.repr out)
     ∧ message
       = "Unexpected error processing PDF " +:+ pdf_filepath +:+ ": "
           +:+ "[Errno 13] Permission denied: " +:+ PyRepr.repr out).
Proof.
  intros out W cause message Hcwd Hno [l0 Hback]. split.
  - destruct (filename_sans_ext_total pdf_filepath) as [stem Hstem].
    rewrite (pdfimages_with_stem env pdf_filepath stem)
      by (done || by apply resolution_succeeds).
    unfold try_except. rewrite pdfimages_try_no_dir by done.
    unfold leave_working_dir. cbn zeta. rewrite Hback.
    rewrite pdfimages_except_run.
    unfold add_events, failure_records, message, cause, W, workdir, out.
    by destruct (refused env _ _).
  - unfold message, cause. split; [|split]; intros Hr; rewrite Hr; by split.
Qed.

Lemma pdfimages_output_dir_refused_witness :
  pdfimages Scenario.tools "/data/doc.pdf" (Some "pages") Scenario.start
  = (Raise
       (RuntimeError
          "pdfimages command not found. Make sure Poppler is installed: [Errno 2] No such file or directory: '/work/pages'"
          (FileNotFoundError
             "[Errno 2] No such file or directory: '/work/pages'")),
     mkState "/work" Scenario.disk
       [LogError
          "pdfimages command not found. Make sure Poppler is installed: [Errno 2] No such file or directory: '/work/pages'"])
  ∧ pdfimages Scenario.tools_and_files "/data/doc.pdf"
      (Some "scans/notes.txt") Scenario.start
    = (Raise
         (RuntimeError
            "Unexpected error processing PDF /data/doc.pdf: [Errno 20] Not a directory: '/work/scans/notes.txt'"
            (OtherException "NotADirectoryError"
               "[Errno 20] Not a directory: '/work/scans/notes.txt'")),
       mkState "/work" Scenario.disk
         [LogError
            "Unexpected error processing PDF /data/doc.pdf: [Errno 20] Not a directory: '/work/scans/notes.txt'"]).
Proof.
  split.
  - refine (proj1 (pdfimages_output_dir_refused Scenario.tools "/data/doc.pdf"
                     (Some "pages") Scenario.start _ _ _)).
    + reflexivity.
    + vm_compute. reflexivity.
    + eexists. vm_compute. reflexivity.
  - refine (proj1 (pdfimages_output_dir_refused Scenario.tools_and_files
                     "/data/doc.pdf" (Some "scans/notes.txt") Scenario.start
                     _ _ _)).
    + reflexivity.
    + vm_compute. reflexivity.
    + eexists. vm_compute. reflexivity.
Defined.

(** X6. What [pdf_to_images] raises.  Whenever it raises, the exception is
    the [RuntimeError] of [pdfimages], with the original exception as its
    cause and its message in the log, or it is the [FileNotFoundError] of
    [os.getcwd], raised by line 24 or line 53 before anything was run, when
    a relative path is to be resolved and the working directory has been
    removed.  When the working directory is there, only the first case is
    left. *)
Theorem pdf_to_images_failures (env : Env)
    (pdf_filepath : string) (output_dir : option string) (s s' : State)
    (e : exn) :
  let wrapped :=
    ∃ cause,
      e = RuntimeError
            (pdfimages_error_message env (resolved_pdf s pdf_filepath) cause)
            cause
      ∧ LogError (pdfimages_error_message env (resolved_pdf s pdf_filepath) cause)
        ∈ events s'
      ∧ pdfimages env (resolved_pdf s pdf_filepath)
          (Some (target_dir s pdf_filepath output_dir)) s
        = (Raise e, s') in
  pdf_to_images env pdf_filepath output_dir s = (Raise e, s') →
  (wrapped
   ∨ (cwd_gone env s = true
      ∧ (PosixPath.isabs pdf_filepath = false
         ∨ PosixPath.isabs (target_dir s pdf_filepath output_dir) = false)
      ∧ e = getcwd_error ∧ s' = s))
  ∧ (cwd_gone env s = false → wrapped).
Proof.
  intros wrapped Hrun.
  assert (wrapped
          ∨ (cwd_gone env s = true
             ∧ (PosixPath.isabs pdf_filepath = false
                ∨ PosixPath.isabs (target_dir s pdf_filepath output_dir) = false)
             ∧ e = getcwd_error ∧ s' = s)) as Hcases.
  { assert (∀ path, resolution_fails env s path = true →
              cwd_gone env s = true ∧ PosixPath.isabs path = false) as Hfails.
    { unfold resolution_fails. intros path [Hrel Hgone]%andb_true_iff.
      by apply negb_true_iff in Hrel. }
    rewrite pdf_to_images_run in Hrun.
    destruct (resolution_fails env s pdf_filepath) eqn:Hres1.
    { injection Hrun as <- <-. right. apply Hfails in Hres1 as [? ?]. auto. }
    destruct (pdfimages _ _ _ _) as [[names|e0] s0] eqn:Hp; [done|].
    injection Hrun as <- <-. pose proof Hp as Hp0.
    destruct (pdfimages_run env (resolved_pdf s pdf_filepath)
                (Some (target_dir s pdf_filepath output_dir)) s)
      as (stem & Hstem & Heq).
    rewrite Heq in Hp. cbn [default from_option id] in Hp.
    destruct (resolution_fails env s (target_dir s pdf_filepath output_dir))
      eqn:Hres2.
    { injection Hp as <- <-. right. apply Hfails in Hres2 as [? ?]. auto. }
    destruct (pdfimages_try _ _ _ _ _) as [[names|cause] s1]; [done|].
    injection Hp as <- <-. left. exists cause. split; [done|].
    split; [|done].
    unfold add_events, failure_records. cbn [events].
    apply elem_of_app. right. apply list_elem_of_here. }
  split; [done|]. intros Hcwd.
  destruct Hcases as [H|(Hgone & _)]; [done|congruence].
Qed.

Lemma pdf_to_images_failures_witness :
  ∃ cause,
    RuntimeError
      "Error running pdfimages on /data/doc.pdf: Command '['pdfimages', '-png', '/data/doc.pdf', 'doc']' returned non-zero exit status 1."
      (CalledProcessError 1 ["pdfimages"; "-png"; "/data/doc.pdf"; "doc"]
         (Some "") (Some "Syntax Error: Couldn't read xref table"))
    = RuntimeError
        (pdfimages_error_message Scenario.broken_pdf
           (resolved_pdf Scenario.start "../data/doc.pdf") cause)
        cause.
Proof.
  destruct (pdf_to_images_failures Scenario.broken_pdf
              "../data/doc.pdf" None Scenario.start
              (pdf_to_images Scenario.broken_pdf "../data/doc.pdf" None
                 Scenario.start).2
              (RuntimeError
                 "Error running pdfimages on /data/doc.pdf: Command '['pdfimages', '-png', '/data/doc.pdf', 'doc']' returned non-zero exit status 1."
                 (CalledProcessError 1
                    ["pdfimages"; "-png"; "/data/doc.pdf"; "doc"]
                    (Some "") (Some "Syntax Error: Couldn't read xref table"))))
    as (_ & H).
  - vm_compute. reflexivity.
  - destruct (H eq_refl) as (cause & Hc & _). by exists cause.
Defined.

(** The call that the working directory was removed under. *)
Example pdf_to_images_adrift :
  pdf_to_images Scenario.tools "doc.pdf" None Scenario.adrift
  = (Raise (FileNotFoundError "[Errno 2] No such file or directory"),
     Scenario.adrift)
  ∧ pdf_to_images Scenario.tools "/data/doc.pdf" (Some "out") Scenario.adrift
    = (Raise (FileNotFoundError "[Errno 2] No such file or directory"),
       Scenario.adrift)
  ∧ (pdf_to_images Scenario.tools "/data/doc.pdf" None Scenario.adrift).1
    = Raise
        (RuntimeError
           "pdfimages command not found. Make sure Poppler is installed: [Errno 2] No such file or directory"
           (FileNotFoundError "[Errno 2] No such file or directory")).
Proof. repeat split; by vm_compute. Qed.

(** X7. Whatever the outcome of [pdf_to_images], it starts at most one
    process, and that process is [pdfimages -png] with the resolved path of
    the document and the stem, run in the resolved output directory; when
    the working directory of the caller is absolute, so are that path and
    that directory. *)
Theorem pdf_to_images_starts_only_the_rasterizer (env : Env)
    (pdf_filepath : string) (output_dir : option string) (s s' : State)
    (r : result (list string)) :
  pdf_to_images env pdf_filepath output_dir s = (r, s') →
  let pdf := resolved_pdf s pdf_filepath in
  let W := workdir s pdf (Some (target_dir s pdf_filepath output_dir)) in
  ∃ stem evs,
    filename_sans_ext pdf = Some stem
    ∧ events s' = events s ++ evs
    ∧ List.filter is_exec evs
      `sublist_of` [Exec (pdfimages_command pdf stem) W]
    ∧ (PosixPath.isabs (cwd s) = true →
       PosixPath.isabs pdf = true ∧ PosixPath.isabs W = true).
Proof.
  rewrite pdf_to_images_run. cbn zeta.
  destruct (pdfimages_run env (resolved_pdf s pdf_filepath)
              (Some (target_dir s pdf_filepath output_dir)) s)
    as (stem & Hstem & ->).
  assert (PosixPath.isabs (cwd s) = true →
          PosixPath.isabs (resolved_pdf s pdf_filepath) = true
          ∧ PosixPath.isabs
              (workdir s (resolved_pdf s pdf_filepath)
                 (Some (target_dir s pdf_filepath output_dir))) = true)
    as Habs.
  { intros Hcwd. split; [|by apply abspath_isabs].
    unfold resolved_pdf. destruct (PosixPath.isabs pdf_filepath) eqn:Hp; [done|].
    by apply abspath_isabs. }
  destruct (resolution_fails env s pdf_filepath);
    [intros [= <- <-]; exists stem, []; rewrite app_nil_r;
     do 2 (split; [done|]); split; [by apply sublist_nil_l|done]|].
  destruct (resolution_fails env s _);
    [intros [= <- <-]; exists stem, []; rewrite app_nil_r;
     do 2 (split; [done|]); split; [by apply sublist_nil_l|done]|].
  destruct (pdfimages_try _ _ _ _ _) as [[names|cause] s1] eqn:Htry;
    apply pdfimages_try_events in Htry as (evs & Hev & Hshape);
    intros [= <- <-]; exists stem.
  - exists evs. do 2 (split; [done|]). split.
    + destruct Hshape as [->|[->|[m ->]]]; cbn; [by apply sublist_nil_l|done..].
    + intros Hcwd. split; [|by apply abspath_isabs].
      unfold resolved_pdf. destruct (PosixPath.isabs pdf_filepath) eqn:Hp; [done|].
      by apply abspath_isabs.
  - exists (evs ++ failure_records env (resolved_pdf s pdf_filepath) cause).
    split; [done|]. split; [|split].
    + unfold add_events. cbn [events]. by rewrite Hev, app_assoc.
    + rewrite List.filter_app.
      replace (List.filter is_exec (failure_records _ _ _)) with (@nil event).
      * rewrite app_nil_r.
        destruct Hshape as [->|[->|[m ->]]]; cbn;
          [by apply sublist_nil_l|done..].
      * unfold failure_records. destruct cause as [? ? ? [err|]| | | | |]; try done.
        by destruct (String.eqb err "").
    + intros Hcwd. split; [|by apply abspath_isabs].
      unfold resolved_pdf. destruct (PosixPath.isabs pdf_filepath) eqn:Hp; [done|].
      by apply abspath_isabs.
Qed.

Lemma pdf_to_images_starts_only_the_rasterizer_witness :
  ∃ stem evs,
    filename_sans_ext "/data/doc.pdf" = Some stem
    ∧ events (pdf_to_images Scenario.broken_pdf "../data/doc.pdf" (Some "out")
                Scenario.start).2
      = [] ++ evs
    ∧ List.filter is_exec evs
      `sublist_of` [Exec (pdfimages_command "/data/doc.pdf" stem) "/work/out"].
Proof.
  destruct (pdf_to_images_starts_only_the_rasterizer Scenario.broken_pdf
              "../data/doc.pdf" (Some "out") Scenario.start
              (pdf_to_images Scenario.broken_pdf "../data/doc.pdf" (Some "out")
                 Scenario.start).2
              (pdf_to_images Scenario.broken_pdf "../data/doc.pdf" (Some "out")
                 Scenario.start).1)
    as (stem & evs & H1 & H2 & H3 & _).
  - by destruct (pdf_to_images _ _ _ _).
  - exists stem, evs. exact (conj H1 (conj H2 H3)).
Defined.

Lemma pdf_to_images_absolute_witness :
  Forall (λ p, PosixPath.isabs p = true)
    ["/data/doc-000.png"; "/data/doc-001.png"].
Proof.
  eapply (pdf_to_images_absolute Scenario.tools "../data/doc.pdf" None
            Scenario.start).
  - reflexivity.
  - intros d Hd. discriminate Hd.
  - vm_compute. reflexivity.
Defined.

(** X2. With a relative override, every path [pdf_to_images] returns is
    relative: it is the override as it was passed in, joined to an entry of
    the output directory (entries are plain names, they do not start with a
    slash). *)
Theorem relative_override_gives_relative_paths (env : Env)
    (pdf_filepath d : string) (s s' : State) (l : list string) :
  PosixPath.isabs d = false →
  pdf_to_images env pdf_filepath (Some d) s = (Ok l, s') →
  (∀ listing,
     fs s' !! PosixPath.abspath (cwd s')
                (resolved_output_dir s (resolved_pdf s pdf_filepath) (Some d))
     = Some listing →
     Forall (λ f, PosixPath.isabs f = false) listing) →
  Forall (λ p, PosixPath.isabs p = false ∧ ∃ f, p = PosixPath.join d f) l.
Proof.
  intros Hd Hrun Hnames.
  apply pdf_to_images_Ok in Hrun as (stem & listing & _ & _ & Hl & ->).
  rewrite sorted_Permutation. apply Forall_fmap, Forall_forall.
  intros f Hf. cbn. split; [|by exists f].
  apply join_relative; [done|].
  apply Hnames in Hl. rewrite Forall_forall in Hl. apply Hl.
  apply list_elem_of_In in Hf. apply filter_In in Hf as [Hf _].
  by apply list_elem_of_In.
Qed.

Lemma relative_override_gives_relative_paths_witness :
  Forall (λ p, PosixPath.isabs p = false ∧ ∃ f, p = PosixPath.join "out" f)
    ["out/doc-000.png"; "out/doc-001.png"].
Proof.
  eapply (relative_override_gives_relative_paths Scenario.tools
            "/data/doc.pdf" "out" Scenario.start
            (pdf_to_images Scenario.tools "/data/doc.pdf" (Some "out")
               Scenario.start).2).
  - reflexivity.
  - vm_compute. reflexivity.
  - intros listing H. vm_compute in H. injection H as <-.
    repeat constructor.
Defined.

(** ** More on splitting *)

(** The text before the leftmost separator has no separator in it. *)
Lemma cut_before_no_sep (sep s a b : string) :
  sep ≠ "" → PyStr.cut sep s = Some (a, b) → PyStr.contains sep a = false.
Proof.
  intros Hsep [-> Hmin]%cut_Some.
  destruct (PyStr.contains sep a) eqn:E; [|done].
  apply contains_iff in E as (u & v & ->).
  specialize (Hmin u (v +:+ sep +:+ b)).
  rewrite !append_assoc in Hmin. specialize (Hmin eq_refl).
  rewrite !length_append in Hmin. destruct sep; [done|]. cbn in Hmin. lia.
Qed.

(** ** The stem and the collector *)

(** X8. The stem is always defined.  It is a beginning of the file name,
    has no ".pdf" in it, and what it leaves out of the file name is either
    nothing or begins with ".pdf". *)
Theorem stem_is_prefix_without_pdf (pdf_filepath : string) :
  ∃ stem rest,
    filename_sans_ext pdf_filepath = Some stem
    ∧ (PosixPath.split pdf_filepath).2 = stem +:+ rest
    ∧ PyStr.contains ".pdf" stem = false
    ∧ (rest = "" ∨ PyStr.startswith ".pdf" rest = true).
Proof.
  unfold filename_sans_ext. set (filename := (PosixPath.split pdf_filepath).2).
  destruct (PyStr.cut ".pdf" filename) as [[a b]|] eqn:Hc.
  - exists a, (".pdf" +:+ b). rewrite (split_cut ".pdf" filename a b) by done.
    split; [done|]. split; [by apply cut_Some in Hc as [-> _]|].
    split; [by eapply cut_before_no_sep|]. right. apply startswith_append.
  - exists filename, "". rewrite (split_no_cut _ _ Hc).
    split; [done|]. split; [by rewrite append_empty_r|].
    split; [by apply cut_None|by left].
Qed.

Lemma stem_rest_not_selected (stem rest : string) :
  rest = "" ∨ PyStr.startswith ".pdf" rest = true →
  selects stem (stem +:+ rest) = false.
Proof.
  intros Hrest. destruct (selects stem (stem +:+ rest)) eqn:E; [|done].
  apply selects_iff in E as (d1 & d2 & d3 & suffix & r & E & _).
  apply (inj (String.app stem)) in E.
  destruct Hrest as [->|Hp]; [done|].
  apply startswith_inv in Hp as [r' ->]. done.
Qed.

(** X9. The document itself is never among the entries [pdfimages]
    returns, even when it lies in the output directory: the pattern of its
    stem does not match its own file name. *)
Theorem pdfimages_never_returns_the_document (env : Env)
    (pdf_filepath : string) (output_dir : option string) (s s' : State)
    (names : list string) :
  pdfimages env pdf_filepath output_dir s = (Ok names, s') →
  (PosixPath.split pdf_filepath).2 ∉ names.
Proof.
  intros Hrun Hin.
  apply pdfimages_Ok in Hrun as (stem & Hstem & Hrun).
  apply pdfimages_try_Ok in Hrun as (_ & _ & listing & _ & _ & _ & -> & _).
  apply list_elem_of_In, filter_In in Hin as [_ Hsel].
  destruct (stem_is_prefix_without_pdf pdf_filepath)
    as (stem' & rest & Hstem' & Hname & _ & Hrest).
  assert (stem' = stem) as -> by congruence.
  rewrite Hname in Hsel. by rewrite stem_rest_not_selected in Hsel.
Qed.

Lemma pdfimages_never_returns_the_document_witness :
  "doc.pdf" ∉ ["doc-001.png"; "doc-000.png"].
Proof.
  refine (pdfimages_never_returns_the_document Scenario.tools "/data/doc.pdf"
            None Scenario.start
            (pdfimages Scenario.tools "/data/doc.pdf" None Scenario.start).2
            ["doc-001.png"; "doc-000.png"] _).
  vm_compute. reflexivity.
Defined.

(** ** The orientation step *)

(** X10. A non-zero exit status of tesseract is not ignored, unlike that of
    mogrify: [get_rotate] raises [CalledProcessError] with the captured
    output and no stderr, [preprocess_img] passes it on unchanged, and
    mogrify is not started. *)
Theorem tesseract_failure_stops_preprocess_img (env : Env)
    (filepath : string) (tess_params : option (list string)) (s : State)
    (rc : Z) (raw err : string) (fs' : gmap string (list string)) :
  let cmd :=
    tess_command filepath (default ["--psm"; "0"; "--oem"; "0"] tess_params) in
  spawn env cmd (cwd s) (fs s) = Exited rc raw err fs' →
  rc ≠ 0%Z →
  preprocess_img env filepath tess_params s
  = (Raise (CalledProcessError rc cmd (Some raw) None),
     mkState (cwd s) fs' (events s ++ [Exec cmd (cwd s)])).
Proof.
  intros cmd Hspawn Hrc. unfold preprocess_img, bind at 1.
  rewrite get_rotate_run. cbn zeta. fold cmd. rewrite Hspawn.
  by destruct (Z.eqb_spec rc 0).
Qed.

Lemma tesseract_failure_stops_preprocess_img_witness :
  preprocess_img Scenario.tesseract_crashes "/work/page.png" None
    Scenario.start
  = (Raise
       (CalledProcessError 1
          ["tesseract"; "--psm"; "0"; "--oem"; "0"; "/work/page.png"; "-"]
          (Some "") None),
     mkState "/work" Scenario.disk
       [Exec ["tesseract"; "--psm"; "0"; "--oem"; "0"; "/work/page.png"; "-"]
          "/work"]).
Proof.
  refine (tesseract_failure_stops_preprocess_img Scenario.tesseract_crashes
            "/work/page.png" None Scenario.start 1 ""
            "Error opening data file" Scenario.disk _ _).
  - reflexivity.
  - lia.
Defined.

(** X11. A tool that cannot be started is not translated: when tesseract is
    missing [preprocess_img] raises the [FileNotFoundError] of the
    operating system as it is and leaves the state untouched, and when
    mogrify is missing it raises that error after the angle was detected
    and logged.  There is no [RuntimeError] wrapping here, unlike in
    [pdfimages]. *)
Theorem preprocess_img_missing_tool_is_raw (env : Env) (filepath : string)
    (tess_params : option (list string)) (s : State) :
  let params := default ["--psm"; "0"; "--oem"; "0"] tess_params in
  (∀ e,
     spawn env (tess_command filepath params) (cwd s) (fs s) = NotStarted e →
     preprocess_img env filepath tess_params s
     = (Raise (exn_of_spawn_error e), s))
  ∧ (∀ rotate s1 e,
       get_rotate env filepath params s = (Ok rotate, s1) →
       spawn env (mogrify_command filepath rotate) (cwd s1) (fs s1)
       = NotStarted e →
       preprocess_img env filepath tess_params s
       = (Raise (exn_of_spawn_error e),
          add_events s1
            [LogDebug ("Rotating " +:+ filepath +:+ " by " +:+ rotate +:+ ".")])).
Proof.
  intros params. split.
  - intros e Hspawn. unfold preprocess_img, bind at 1. fold params.
    rewrite get_rotate_run. cbn zeta. by rewrite Hspawn.
  - intros rotate s1 e Hrot Hspawn. unfold preprocess_img, bind at 1.
    fold params. rewrite Hrot.
    unfold bind at 1, logger_debug, emit, mogrify, bind, subprocess_run.
    cbn [cwd fs events]. unfold mogrify_command in Hspawn. by rewrite Hspawn.
Qed.

Lemma preprocess_img_missing_tool_is_raw_witness :
  preprocess_img Scenario.no_mogrify "/work/page.png" None Scenario.start
  = (Raise
       (FileNotFoundError "[Errno 2] No such file or directory: 'mogrify'"),
     mkState "/work" Scenario.disk
       [Exec ["tesseract"; "--psm"; "0"; "--oem"; "0"; "/work/page.png"; "-"]
          "/work";
        LogDebug "Rotating /work/page.png by 90."]).
Proof.
  refine (proj2 (preprocess_img_missing_tool_is_raw Scenario.no_mogrify
                   "/work/page.png" None Scenario.start)
            "90"
            (mkState "/work" Scenario.disk
               [Exec ["tesseract"; "--psm"; "0"; "--oem"; "0";
                      "/work/page.png"; "-"] "/work"])
            (Scenario.not_found "mogrify") _ _).
  - reflexivity.
  - reflexivity.
Defined.

(** X12. [get_rotate] never raises [IndexError]: the line it picks contains
    "Rotate: " and with it a ": ", so the split of line 124 always has a
    second field. *)
Theorem get_rotate_never_raises_IndexError (env : Env)
    (image_filepath : string) (tess_params : list string) (s s' : State)
    (msg : string) :
  get_rotate env image_filepath tess_params s ≠ (Raise (IndexError msg), s').
Proof.
  rewrite get_rotate_run. cbn zeta.
  destruct (spawn env _ _ _) as [rc raw err fs'|e]; [|by destruct e].
  destruct (rc =? 0)%Z; cbn [negb]; [|done].
  destruct (Utf8.decode raw) as [text|]; [|done].
  destruct (List.find _ _) as [line|] eqn:Hfind; [|done].
  apply find_Some_true in Hfind.
  destruct (rotate_line_field line Hfind) as (before & after & _ & ->). done.
Qed.

(** X13. The angle [get_rotate] returns is a part of the first line of the
    output that contains "Rotate: ", and it contains neither a line break
    nor a ": ". *)
Theorem get_rotate_result_is_one_field (env : Env) (image_filepath : string)
    (tess_params : list string) (s s' : State) (rotate : string) :
  get_rotate env image_filepath tess_params s = (Ok rotate, s') →
  ∃ raw err text line field u v,
    spawn env (tess_command image_filepath tess_params) (cwd s) (fs s)
    = Exited 0 raw err (fs s')
    ∧ Utf8.decode raw = Some text
    ∧ List.find has_rotate (lines text) = Some line
    ∧ line = u ++ field ++ v
    ∧ rotate = Utf8.encode field
    ∧ PyText.contains (PyText.lit ": ") field = false
    ∧ PyText.contains (PyText.lit nl) field = false.
Proof.
  rewrite get_rotate_run. cbn zeta.
  destruct (spawn env _ _ _) as [rc raw err fs'|e] eqn:Hspawn; [|by destruct e].
  destruct (Z.eqb_spec rc 0) as [->|]; cbn [negb]; [|done].
  destruct (Utf8.decode raw) as [text|] eqn:Hdec; [|done].
  destruct (List.find _ _) as [line|] eqn:Hfind; [|done].
  destruct (PyText.split (PyText.lit ": ") line !! 1) as [field|] eqn:Hfield;
    [|done].
  intros [= <- <-]. cbn [fs].
  apply list_elem_of_lookup_2 in Hfield.
  apply text_split_pieces in Hfield as (Hno & u & v & Hline); [|done].
  exists raw, err, text, line, field, u, v. do 6 (split; [done|]).
  assert (PyText.contains (PyText.lit nl) line = false) as Hnl.
  { apply find_some in Hfind as [Hin _]. apply list_elem_of_In in Hin.
    by apply text_split_pieces in Hin as [? _]. }
  rewrite Hline in Hnl. apply text_contains_false_app in Hnl as [_ Hnl].
  by apply text_contains_false_app in Hnl as [Hnl _].
Qed.

Lemma get_rotate_result_is_one_field_witness :
  ∃ field,
    "90" = Utf8.encode field
    ∧ PyText.contains (PyText.lit ": ") field = false
    ∧ PyText.contains (PyText.lit nl) field = false.
Proof.
  destruct (get_rotate_result_is_one_field
              (Scenario.tesseract_prints
                 ("Rotate: 90: low confidence" +:+ nl +:+ "Rotate: 180" +:+ nl
                    +:+ Scenario.euro +:+ nl))
              "/work/page.png" ["--psm"; "0"; "--oem"; "0"] Scenario.start
              (mkState "/work" Scenario.disk
                 [Exec ["tesseract"; "--psm"; "0"; "--oem"; "0";
                        "/work/page.png"; "-"] "/work"])
              "90")
    as (raw & err & text & line & field & u & v & _ & _ & _ & _ & H1 & H2 & H3).
  - vm_compute. reflexivity.
  - exists field. exact (conj H1 (conj H2 H3)).
Defined.

(** X18. The angle [get_rotate] returns is a piece of what tesseract
    printed: the bytes of the result occur, as they are, in the bytes of
    the output. *)
Theorem get_rotate_result_is_part_of_output (env : Env)
    (image_filepath : string) (tess_params : list string) (s s' : State)
    (rotate : string) :
  get_rotate env image_filepath tess_params s = (Ok rotate, s') →
  ∃ raw err a b,
    spawn env (tess_command image_filepath tess_params) (cwd s) (fs s)
    = Exited 0 raw err (fs s')
    ∧ raw = a +:+ rotate +:+ b.
Proof.
  rewrite get_rotate_run. cbn zeta.
  destruct (spawn env _ _ _) as [rc raw err fs'|e] eqn:Hspawn; [|by destruct e].
  destruct (Z.eqb_spec rc 0) as [->|]; cbn [negb]; [|done].
  destruct (Utf8.decode raw) as [text|] eqn:Hdec; [|done].
  destruct (List.find _ _) as [line|] eqn:Hfind; [|done].
  destruct (PyText.split (PyText.lit ": ") line !! 1) as [field|] eqn:Hfield;
    [|done].
  intros [= <- <-]. cbn [fs].
  apply list_elem_of_lookup_2 in Hfield.
  apply text_split_pieces in Hfield as (_ & u & v & ->); [|done].
  apply find_some in Hfind as [Hin _]. apply list_elem_of_In in Hin.
  apply text_split_pieces in Hin as (_ & p & q & ->); [|done].
  apply encode_decode in Hdec. rewrite <- Hdec in Hspawn |- *.
  eexists _, err, (Utf8.encode (p ++ u)), (Utf8.encode (v ++ q)).
  split; [done|].
  by rewrite !encode_app, !append_assoc.
Qed.

Lemma get_rotate_result_is_part_of_output_witness :
  ∃ a b, Scenario.euro_report = a +:+ "90" +:+ b.
Proof.
  destruct (get_rotate_result_is_part_of_output
              (Scenario.tesseract_prints Scenario.euro_report)
              "/work/page.png" ["--psm"; "0"; "--oem"; "0"] Scenario.start
              (mkState "/work" Scenario.disk
                 [Exec ["tesseract"; "--psm"; "0"; "--oem"; "0";
                        "/work/page.png"; "-"] "/work"])
              "90")
    as (raw & err & a & b & Hspawn & Hraw).
  - vm_compute. reflexivity.
  - exists a, b. rewrite <- Hraw. by injection Hspawn as <- _.
Defined.

(** ** Page names and page order *)

Lemma pad3_three_digits (i : nat) :
  i < 1000 →
  ∃ d1 d2 d3,
    pad3 i = String d1 (String d2 (String d3 ""))
    ∧ Re.is_digit d1 = true ∧ Re.is_digit d2 = true ∧ Re.is_digit d3 = true.
Proof.
  intros Hi.
  assert (forallb
            (λ i, match pad3 i with
                  | String d1 (String d2 (String d3 "")) =>
                      Re.is_digit d1 && Re.is_digit d2 && Re.is_digit d3
                  | _ => false
                  end) (seq 0 1000) = true) as Hall by (vm_compute; reflexivity).
  rewrite forallb_forall in Hall. specialize (Hall i).
  destruct (pad3 i) as [|d1 [|d2 [|d3 [|]]]];
    try (discriminate Hall; apply in_seq; lia).
  exists d1, d2, d3. split; [done|].
  assert (Re.is_digit d1 && Re.is_digit d2 && Re.is_digit d3 = true) as H
    by (apply Hall, in_seq; lia).
  by apply andb_true_iff in H as [[? ?]%andb_true_iff ?].
Qed.

(** The collector keeps the name of every page below 1000, whatever
    characters the stem is made of. *)
Lemma selects_page_name (stem : string) (i : nat) :
  i < 1000 → selects stem (page_name stem i) = true.
Proof.
  intros (d1 & d2 & d3 & Hpad & H1 & H2 & H3)%pad3_three_digits.
  apply selects_iff. exists d1, d2, d3, "", "".
  unfold page_name. by rewrite Hpad.
Qed.

Lemma compare_common_prefix (p a b : string) :
  String.compare (p +:+ a) (p +:+ b) = String.compare a b.
Proof.
  induction p as [|c p IH]; [done|]. rewrite !append_cons. cbn [String.compare].
  unfold Ascii.compare. by rewrite N.compare_refl.
Qed.

Lemma join_append (d a b : string) :
  a ≠ "" → PosixPath.join d (a +:+ b) = PosixPath.join d a +:+ b.
Proof.
  intros Ha. destruct a as [|c a]; [done|]. unfold PosixPath.join.
  rewrite append_cons. cbn [PyStr.startswith].
  destruct (Ascii.eqb "/" c); [done|].
  destruct (String.eqb d "" || PyStr.ends_with_char "/" d);
    by rewrite ?append_assoc.
Qed.

(** The joined path of a page: a part that depends on the directory and
    the stem only, then the number and the extension. *)
Lemma join_page_name (d stem : string) (i : nat) :
  PosixPath.join d (page_name stem i)
  = PosixPath.join d (stem +:+ "-") +:+ pad3 i +:+ ".png".
Proof.
  unfold page_name. rewrite <- (append_assoc stem "-").
  apply join_append. by destruct stem.
Qed.

Lemma compare_Lt_le (a b : string) :
  String.compare a b = Lt → String.le a b.
Proof. unfold String.le, String.leb. by intros ->. Qed.

Lemma consecutive_pages_ascend (d stem : string) (i : nat) :
  S i < 1000 →
  String.compare (PosixPath.join d (page_name stem i))
    (PosixPath.join d (page_name stem (S i))) = Lt.
Proof.
  intros Hi. rewrite !join_page_name, compare_common_prefix.
  assert (forallb
            (λ i, String.ltb (pad3 i +:+ ".png") (pad3 (S i) +:+ ".png"))
            (seq 0 999) = true) as Hall by (vm_compute; reflexivity).
  rewrite forallb_forall in Hall. specialize (Hall i).
  unfold String.ltb in Hall.
  destruct (String.compare _ _); try done; discriminate Hall; apply in_seq; lia.
Qed.

Lemma pages_Sorted (d stem : string) (a n : nat) :
  a + n ≤ 1000 →
  Sorted String.le
    ((λ i, PosixPath.join d (page_name stem i)) <$> seq a n).
Proof.
  revert a. induction n as [|n IH]; intros a Han; [constructor|].
  cbn [seq fmap list_fmap]. constructor; [apply IH; lia|].
  destruct n as [|n]; [constructor|]. cbn [seq fmap list_fmap]. constructor.
  apply compare_Lt_le, consecutive_pages_ascend. lia.
Qed.

(** X14. Up to 1000 pages come back in page order.  When the output
    directory holds the pages 0 to n-1 of the document, named with the
    number padded to three digits, and besides them only entries that the
    collector does not keep, a successful [pdf_to_images] returns exactly
    the joined paths of the pages, page 0 first, however the directory was
    listed. *)
Theorem pages_come_back_in_page_order (env : Env) (pdf_filepath stem : string)
    (output_dir : option string) (s s' : State) (l listing others : list string)
    (n : nat) :
  let pdf := resolved_pdf s pdf_filepath in
  let target := target_dir s pdf_filepath output_dir in
  pdf_to_images env pdf_filepath output_dir s = (Ok l, s') →
  filename_sans_ext pdf = Some stem →
  fs s' !! PosixPath.abspath (cwd s') (resolved_output_dir s pdf (Some target))
  = Some listing →
  listing ≡ₚ (page_name stem <$> seq 0 n) ++ others →
  Forall (λ name, selects stem name = false) others →
  n ≤ 1000 →
  l = (λ i, PosixPath.join target (page_name stem i)) <$> seq 0 n.
Proof.
  intros pdf target Hrun Hstem Hlist Hperm Hothers Hn.
  apply pdf_to_images_Ok in Hrun as (stem' & listing' & Hstem' & _ & Hl & ->).
  fold pdf target in Hstem', Hl.
  assert (stem' = stem) as -> by congruence.
  assert (listing' = listing) as -> by congruence.
  symmetry. apply sorted_unique; [apply pages_Sorted; lia|].
  rewrite (filter_Permutation_bool _ _ _ Hperm), List.filter_app.
  rewrite (filter_nothing _ others Hothers), app_nil_r.
  replace (List.filter (selects stem) (page_name stem <$> seq 0 n))
    with (page_name stem <$> seq 0 n); [by rewrite <- list_fmap_compose|].
  assert (∀ a, a + n ≤ 1000 →
            page_name stem <$> seq a n
            = List.filter (selects stem) (page_name stem <$> seq a n)) as H;
    [|by apply H].
  clear. induction n as [|n IH]; intros a Han; [done|].
  cbn [seq fmap list_fmap List.filter].
  rewrite selects_page_name by lia. f_equal. apply IH. lia.
Qed.

Lemma pages_come_back_in_page_order_witness :
  (pdf_to_images Scenario.tools "/data/doc.pdf" (Some "out") Scenario.start).1
  = Ok ((λ i, PosixPath.join "out" (page_name "doc" i)) <$> seq 0 2).
Proof.
  pose (run := pdf_to_images Scenario.tools "/data/doc.pdf" (Some "out")
                 Scenario.start).
  transitivity (Ok (A := list string) ["out/doc-000.png"; "out/doc-001.png"]);
    [vm_compute; reflexivity|].
  apply (f_equal Ok).
  refine (pages_come_back_in_page_order Scenario.tools "/data/doc.pdf"
            "doc" (Some "out") Scenario.start run.2
            ["out/doc-000.png"; "out/doc-001.png"]
            ["doc-001.png"; "doc-000.png"; "notes.txt"] ["notes.txt"] 2
            _ _ _ _ _ _).
  - vm_compute. reflexivity.
  - reflexivity.
  - vm_compute. reflexivity.
  - apply (perm_swap "doc-000.png" "doc-001.png" ["notes.txt"]).
  - repeat constructor.
  - lia.
Defined.

(** X15. The fourth digit breaks the order.  The entry of page 1000 is
    kept by the collector, but its joined path sorts before that of every
    page from 200 to 999, so [sorted] puts it in front of them. *)
Theorem page_1000_sorts_before_earlier_pages (d stem : string) (i : nat) :
  200 ≤ i → i < 1000 →
  selects stem (page_name stem 1000) = true
  ∧ sorted [PosixPath.join d (page_name stem i);
            PosixPath.join d (page_name stem 1000)]
    = [PosixPath.join d (page_name stem 1000);
       PosixPath.join d (page_name stem i)].
Proof.
  intros Hlo Hhi. split.
  - apply selects_iff. exists "1"%char, "0"%char, "0"%char, "0", "". done.
  - symmetry. apply sorted_unique; [|apply perm_swap].
    repeat constructor. apply compare_Lt_le.
    rewrite !join_page_name, compare_common_prefix.
    assert (forallb
              (λ i, String.ltb (pad3 1000 +:+ ".png") (pad3 i +:+ ".png"))
              (seq 200 800) = true) as Hall by (vm_compute; reflexivity).
    rewrite forallb_forall in Hall. specialize (Hall i).
    unfold String.ltb in Hall.
    destruct (String.compare _ _); try done; discriminate Hall; apply in_seq; lia.
Qed.

Lemma page_1000_sorts_before_earlier_pages_witness :
  sorted ["/data/doc-999.png"; "/data/doc-1000.png"]
  = ["/data/doc-1000.png"; "/data/doc-999.png"].
Proof.
  refine (proj2 (page_1000_sorts_before_earlier_pages "/data" "doc" 999 _ _));
    lia.
Defined.

(** X16. The collector finds what the rasterizer writes.  For every stem,
    whatever characters it contains, an entry of the directory that is the
    name of a page below 1000 of that stem is among the entries
    [find_matching_files_in_dir] returns. *)
Theorem collector_finds_every_page (env : Env) (stem directory : string)
    (s : State) (listing : list string) (i : nat) :
  i < 1000 →
  fs s !! PosixPath.abspath (cwd s) directory = Some listing →
  page_name stem i ∈ listing →
  ∃ names,
    find_matching_files_in_dir env stem directory s = (Ok names, s)
    ∧ page_name stem i ∈ names.
Proof.
  intros Hi Hl Hin. rewrite find_matching_files_in_dir_run, Hl.
  eexists. split; [done|].
  apply list_elem_of_In, filter_In. split; [by apply list_elem_of_In|].
  by apply selects_page_name.
Qed.

Lemma collector_finds_every_page_witness :
  ∃ names,
    find_matching_files_in_dir Scenario.tools "a.b (1)" "/scans"
      (mkState "/" (<["/scans" := ["axb (1)-007.png"; "a.b (1)-007.png"]]> ∅) [])
    = (Ok names,
       mkState "/" (<["/scans" := ["axb (1)-007.png"; "a.b (1)-007.png"]]> ∅) [])
    ∧ page_name "a.b (1)" 7 ∈ names.
Proof.
  refine (collector_finds_every_page Scenario.tools "a.b (1)" "/scans" _
            ["axb (1)-007.png"; "a.b (1)-007.png"] 7 _ _ _).
  - lia.
  - vm_compute. reflexivity.
  - apply list_elem_of_further, list_elem_of_here.
Defined.

(** ** Joining and splitting again *)

Lemma no_char_cons (c a : ascii) (s : string) :
  PyStr.contains (String c "") (String a s) = false →
  Ascii.eqb a c = false ∧ PyStr.contains (String c "") s = false.
Proof.
  cbn [PyStr.contains PyStr.startswith]. rewrite (Ascii.eqb_sym c a).
  destruct (Ascii.eqb a c); [done|]. by intros ->.
Qed.

Lemma rsplit_after_no_char (c : ascii) (f : string) :
  PyStr.contains (String c "") f = false → PyStr.rsplit_after c f = ("", f).
Proof.
  induction f as [|a f IH]; [done|].
  intros [Ha Hf]%no_char_cons. cbn [PyStr.rsplit_after].
  by rewrite (IH Hf), Ha.
Qed.

Lemma rsplit_after_head (c : ascii) (q h t : string) :
  PyStr.rsplit_after c q = (h, t) →
  h = "" ∨ PyStr.ends_with_char c h = true.
Proof.
  revert h t. induction q as [|a q IH]; intros h t; cbn [PyStr.rsplit_after].
  - intros [= <- <-]. by left.
  - destruct (PyStr.rsplit_after c q) as [h0 t0].
    destruct (IH h0 t0 eq_refl) as [->|Hend].
    + cbn [String.eqb negb]. destruct (Ascii.eqb a c) eqn:Ha.
      * intros [= <- <-]. right. done.
      * intros [= <- <-]. by left.
    + destruct h0 as [|b h0]; [done|]. cbn [String.eqb negb].
      intros [= <- <-]. right. done.
Qed.

Lemma rsplit_after_append (c : ascii) (a f : string) :
  PyStr.contains (String c "") f = false →
  PyStr.ends_with_char c a = true →
  PyStr.rsplit_after c (a +:+ f) = (a, f).
Proof.
  intros Hf. induction a as [|x a IH]; [done|].
  intros Hend. rewrite append_cons. cbn [PyStr.rsplit_after].
  destruct a as [|y a].
  - rewrite append_nil_l, (rsplit_after_no_char c f Hf).
    cbn [String.eqb negb]. cbn in Hend. by rewrite Hend.
  - rewrite IH by done. done.
Qed.

Lemma all_char_append (c : ascii) (a b : string) :
  PyStr.all_char c (a +:+ b) = PyStr.all_char c a && PyStr.all_char c b.
Proof.
  induction a as [|x a IH]; [done|]. rewrite append_cons.
  cbn [PyStr.all_char]. by rewrite IH, andb_assoc.
Qed.

(** What [rstrip] leaves of a text that is not made of [c] only: a
    non-empty text that does not end in [c]. *)
Lemma rstrip_tidy (c : ascii) (s : string) :
  PyStr.all_char c s = false →
  PyStr.rstrip c s ≠ ""
  ∧ PyStr.ends_with_char c (PyStr.rstrip c s) = false
  ∧ PyStr.all_char c (PyStr.rstrip c s) = false.
Proof.
  induction s as [|a s IH]; [done|]. intros Hall.
  cbn [PyStr.rstrip]. rewrite Hall. split; [done|].
  cbn [PyStr.all_char] in Hall |- *.
  destruct (PyStr.all_char c s) eqn:Hs.
  - rewrite andb_true_r in Hall.
    assert (PyStr.rstrip c s = "") as ->.
    { clear -Hs. destruct s as [|b s]; [done|]. cbn [PyStr.rstrip]. by rewrite Hs. }
    cbn. by rewrite Hall.
  - destruct (IH eq_refl) as (Hne & Hend & Hstrip).
    destruct (PyStr.rstrip c s) as [|b r] eqn:E; [done|].
    split; [done|]. by rewrite Hstrip, andb_false_r.
Qed.

Lemma rstrip_one_more (c : ascii) (d : string) :
  d ≠ "" → PyStr.ends_with_char c d = false →
  PyStr.rstrip c (d +:+ String c "") = d
  ∧ PyStr.all_char c (d +:+ String c "") = false.
Proof.
  induction d as [|a d IH]; [done|]. intros _ Hend.
  rewrite append_cons. cbn [PyStr.rstrip PyStr.all_char].
  destruct d as [|b d].
  - rewrite append_nil_l. cbn [PyStr.rstrip PyStr.all_char PyStr.ends_with_char] in *.
    by rewrite Hend, Ascii.eqb_refl.
  - destruct (IH ltac:(done) Hend) as [-> ->]. by rewrite andb_false_r.
Qed.

(** The directory part of a split is empty, or made of slashes only, or
    a non-empty text that does not end in a slash. *)
Lemma split_head_shape (q : string) :
  let d := (PosixPath.split q).1 in
  d = ""
  ∨ (PyStr.all_char "/" d = true ∧ PyStr.ends_with_char "/" d = true)
  ∨ (d ≠ "" ∧ PyStr.ends_with_char "/" d = false
     ∧ PyStr.all_char "/" d = false).
Proof.
  unfold PosixPath.split.
  destruct (PyStr.rsplit_after "/" q) as [h t] eqn:Hq. cbn [fst].
  apply rsplit_after_head in Hq as [->|Hend]; [by left|].
  assert (String.eqb h "" = false) as -> by (by destruct h).
  cbn [negb andb].
  destruct (PyStr.all_char "/" h) eqn:Hall; cbn [negb].
  - right. by left.
  - right. right. by apply rstrip_tidy.
Qed.

(** The directory part of a split and a plain name, joined and split
    again, give the directory part and the name back. *)
Lemma split_join_round_trip (q f : string) :
  PyStr.contains "/" f = false →
  PosixPath.split (PosixPath.join (PosixPath.split q).1 f)
  = ((PosixPath.split q).1, f).
Proof.
  intros Hf.
  assert (PyStr.startswith "/" f = false) as Hstart.
  { destruct f as [|a f]; [done|]. apply no_char_cons in Hf as [Ha _].
    cbn [PyStr.startswith]. by rewrite Ascii.eqb_sym, Ha. }
  pose proof (split_head_shape q) as Hshape. cbn zeta in Hshape.
  set (d := (PosixPath.split q).1) in *. clearbody d.
  unfold PosixPath.join. rewrite Hstart.
  destruct Hshape as [->|[[Hall Hend]|(Hd & Hend & Hall)]].
  - cbn [String.eqb orb]. rewrite append_nil_l.
    unfold PosixPath.split. by rewrite (rsplit_after_no_char "/" f Hf).
  - assert (String.eqb d "" = false) as Heq by (by destruct d).
    rewrite Hend, orb_true_r. unfold PosixPath.split.
    rewrite rsplit_after_append by done. by rewrite Heq, Hall.
  - assert (String.eqb d "" = false) as Heq by (by destruct d).
    rewrite Heq, Hend. cbn [orb]. unfold PosixPath.split.
    replace (d +:+ "/" +:+ f) with ((d +:+ "/") +:+ f)
      by (by rewrite append_assoc).
    destruct (rstrip_one_more "/" d Hd Hend) as [Hstrip Hnot].
    rewrite rsplit_after_append; [|done|by rewrite ends_with_char_append].
    assert (String.eqb (d +:+ "/") "" = false) as -> by (by destruct d).
    by rewrite Hnot, Hstrip.
Qed.

(** X17. Without an override the images lie beside the document: every
    path that [pdf_to_images] returns splits into the directory of the
    resolved document path and the name of an entry of that directory
    (entries are plain names, without a slash). *)
Theorem images_lie_beside_the_document (env : Env) (pdf_filepath : string)
    (s s' : State) (l : list string) :
  let pdf := resolved_pdf s pdf_filepath in
  let directory := (PosixPath.split pdf).1 in
  pdf_to_images env pdf_filepath None s = (Ok l, s') →
  (∀ listing,
     fs s' !! PosixPath.abspath (cwd s')
                (resolved_output_dir s pdf (Some directory))
     = Some listing →
     Forall (λ f, PyStr.contains "/" f = false) listing) →
  Forall (λ p, ∃ f, PosixPath.split p = (directory, f)) l.
Proof.
  intros pdf directory Hrun Hnames.
  apply pdf_to_images_Ok in Hrun as (stem & listing & _ & _ & Hl & ->).
  unfold target_dir in *. cbn [default from_option id] in *.
  fold pdf directory in Hl |- *.
  rewrite sorted_Permutation. apply Forall_fmap, Forall_forall.
  intros f Hf. cbn. exists f. apply split_join_round_trip.
  apply Hnames in Hl. rewrite Forall_forall in Hl. apply Hl.
  apply list_elem_of_In in Hf. apply filter_In in Hf as [Hf _].
  by apply list_elem_of_In.
Qed.

Lemma images_lie_beside_the_document_witness :
  Forall (λ p, ∃ f, PosixPath.split p = ("/data", f))
    ["/data/doc-000.png"; "/data/doc-001.png"].
Proof.
  refine (images_lie_beside_the_document Scenario.tools "../data/doc.pdf"
            Scenario.start
            (pdf_to_images Scenario.tools "../data/doc.pdf" None
               Scenario.start).2
            ["/data/doc-000.png"; "/data/doc-001.png"] _ _).
  - vm_compute. reflexivity.
  - intros listing H. vm_compute in H. injection H as <-.
    repeat constructor.
Defined.
